(** * AI Triage Action: scoring, summarizer and duplicate detection

    A shallow embedding of the TypeScript sources [scoring.ts],
    [summarizer.ts], [dedupe.ts], [prompts.ts] and the parts of [github.ts]
    and [db.ts] they call, followed by the properties proved about them.

    Conventions of the embedding.
    - A JavaScript [number] that the code computes with (vector entries,
      similarities, thresholds, diff sizes, the LLM's readiness score) is a
      binary64 value: Rocq's primitive [float], whose operations are the
      IEEE 754 ones JavaScript uses.
    - The score accumulated by [calculateScore] only ever holds an
      integer-valued double, an infinity or NaN; it is represented by
      [number], with the integer written as a [Z].
    - An exception is a value of [result]; an [async] function that awaits
      every call in sequence is a computation in the monad [M], which
      threads the list of effects performed so far.
    - The services the action talks to (OpenAI, GitHub, Postgres) are a
      [World]: each call's outcome is a function of the request and of the
      effects performed before it. *)

From Stdlib Require Import ZArith List String Ascii Bool Lia Floats.
From Stdlib Require Import Reals Lra Psatz.
From Stdlib Require Import Permutation.
From Stdlib Require Uint63.
Import ListNotations.

Set Warnings "-register-all".

Local Open Scope string_scope.
Local Open Scope Z_scope.

(* ================================================================= *)
(** * JavaScript values and exceptions *)

(** A thrown [Error]: its [name] and [message]. *)
Record JSError := mkError { error_name : string; error_message : string }.

Definition TypeError (msg : string) : JSError := mkError "TypeError" msg.
Definition Error (msg : string) : JSError := mkError "Error" msg.

(** The text a template literal produces for [${error}]. *)
Definition error_toString (e : JSError) : string :=
  error_name e ++ ": " ++ error_message e.

(** The outcome of evaluating an expression: a value, or a thrown error. *)
Inductive result (A : Type) : Type :=
| Ok (a : A)
| Throw (e : JSError).
Arguments Ok {A} a.
Arguments Throw {A} e.

(** What [JSON.parse] can return, and [undefined] for a missing property. *)
Inductive JSValue :=
| JUndefined
| JNull
| JBool (b : bool)
| JNum (x : float)
| JStr (s : string)
| JArr (elems : list JSValue)
| JObj (props : list (string * JSValue)).

(** [x !== x] holds of NaN only. *)
Definition is_NaN (x : float) : bool := negb (PrimFloat.eqb x x).

(** ToBoolean: [undefined], [null], [false], [0], [-0], [NaN] and the empty
    string are falsy. *)
Definition truthy (v : JSValue) : bool :=
  match v with
  | JUndefined | JNull => false
  | JBool b => b
  | JNum x => negb (PrimFloat.eqb x 0%float || is_NaN x)
  | JStr s => negb (String.eqb s "")
  | JArr _ | JObj _ => true
  end.

(** [a || b] on values. *)
Definition js_or (a b : JSValue) : JSValue := if truthy a then a else b.

(** [x || 0] for a number that may be missing. *)
Definition number_or_zero (x : option float) : float :=
  match x with
  | Some v => if truthy (JNum v) then v else 0%float
  | None => 0%float
  end.

(** An optional boolean field ([flag?: boolean]) read in a condition. *)
Definition flag_set (f : option bool) : bool :=
  match f with Some b => b | None => false end.

(* ================================================================= *)
(** * scoring.ts *)

(** ** Path patterns *)

(** The regular expressions of [scoring.ts] are literal character
    sequences, some with the [i] flag. *)
Record RegExp := mkRegExp { source : string; ignoreCase : bool }.

(** [hasPrefix p s]: [s] starts with [p]. *)
Fixpoint hasPrefix (p s : string) : bool :=
  match p, s with
  | EmptyString, _ => true
  | String _ _, EmptyString => false
  | String c p', String d s' => Ascii.eqb c d && hasPrefix p' s'
  end.

(** [includes p s]: the literal [p] occurs somewhere in [s]. *)
Fixpoint includes (p s : string) : bool :=
  hasPrefix p s ||
  match s with
  | EmptyString => false
  | String _ s' => includes p s'
  end.

(** Case folding of the [i] flag on the letters A-Z (a character outside
    ASCII never folds to an ASCII one). *)
Definition lower_ascii (c : ascii) : ascii :=
  let n := nat_of_ascii c in
  if (Nat.leb 65 n && Nat.leb n 90)%bool then ascii_of_nat (n + 32) else c.

Fixpoint lower (s : string) : string :=
  match s with
  | EmptyString => EmptyString
  | String c s' => String (lower_ascii c) (lower s')
  end.

(** [pattern.test(file)] for a literal pattern. *)
Definition RegExp_test (pattern : RegExp) (file : string) : bool :=
  if ignoreCase pattern
  then includes (lower (source pattern)) (lower file)
  else includes (source pattern) file.

Definition highRiskPatterns : list RegExp :=
  map (fun s => mkRegExp s true)
      ["auth"; "security"; "payment"; "billing"; "database"; "migration";
       "schema"; "config"; "env"; "deployment"; "infra"].

Definition testPatterns : list RegExp :=
  map (fun s => mkRegExp s false)
      [".test."; ".spec."; "__tests__/"; "test/"; "tests/"; "spec/"].

(** The two nested [for ... of] loops with their early [return true]. The
    [core.info] line written on a match is not part of the result and is
    left out. *)
Fixpoint anyPattern (patterns : list RegExp) (file : string) : bool :=
  match patterns with
  | [] => false
  | pattern :: rest =>
      if RegExp_test pattern file then true else anyPattern rest file
  end.

Fixpoint anyFile (patterns : list RegExp) (files : list string) : bool :=
  match files with
  | [] => false
  | file :: rest =>
      if anyPattern patterns file then true else anyFile patterns rest
  end.

Definition detectHighRiskModules (files : list string) : bool :=
  anyFile highRiskPatterns files.

Definition detectTests (files : list string) : bool :=
  anyFile testPatterns files.

(** ** The score *)

(** The values the variable [score] takes: integer-valued doubles, the
    infinities and NaN. An integer-valued double is written as its integer.
    The static terms are small integers, whose sums binary64 computes
    exactly; only [score + adjustment] can leave the range where it does
    (beyond 2^53), and there the rounded sum lies on the same side of the
    clamp bounds as the exact one, so the clamped result is the same. *)
Inductive number :=
| NaN
| NegInfinity
| Num (z : Z)
| Infinity.

Definition number_add (a b : number) : number :=
  match a, b with
  | NaN, _ | _, NaN => NaN
  | Infinity, NegInfinity | NegInfinity, Infinity => NaN
  | Infinity, _ | _, Infinity => Infinity
  | NegInfinity, _ | _, NegInfinity => NegInfinity
  | Num x, Num y => Num (x + y)
  end.

(** [a < b]; false when either side is NaN. *)
Definition number_ltb (a b : number) : bool :=
  match a, b with
  | NaN, _ | _, NaN => false
  | _, NegInfinity => false
  | NegInfinity, _ => true
  | Infinity, _ => false
  | _, Infinity => true
  | Num x, Num y => x <? y
  end.

(** [Math.min] and [Math.max]: NaN if either argument is NaN. *)
Definition Math_min (a b : number) : number :=
  match a, b with
  | NaN, _ | _, NaN => NaN
  | _, _ => if number_ltb b a then b else a
  end.

Definition Math_max (a b : number) : number :=
  match a, b with
  | NaN, _ | _, NaN => NaN
  | _, _ => if number_ltb a b then b else a
  end.

(** [Math.round]: the integer nearest to [x], ties towards +infinity. A
    finite double is [n * 2^e] for the integers [n] and [e] of its
    representation, so the rounding is computed exactly. (A result of
    [-0] is written 0: added to a score it changes nothing.) *)
Definition Math_round (x : float) : number :=
  match Prim2SF x with
  | S754_nan => NaN
  | S754_infinity false => Infinity
  | S754_infinity true => NegInfinity
  | S754_zero _ => Num 0
  | S754_finite s m e =>
      let n := if s then Z.neg m else Z.pos m in
      if 0 <=? e then Num (n * 2 ^ e)
      else Num ((2 * n + 2 ^ (- e)) / 2 ^ (1 - e))
  end.

Record ScoringFactors := mkScoringFactors {
  ciPassing : option bool;
  testsAdded : option bool;
  diffSize : float;
  descriptionLength : float;
  highRiskModules : option bool;
  hasTests : option bool
}.

Record PRReviewResult := mkPRReviewResult {
  review_summary : string;
  risk_level : string;
  missing_elements : list string;
  design_alignment : string;
  readiness_score : float
}.

(** What [core.info] is called with. The two interpolated messages keep the
    number they print. *)
Inductive LogEntry :=
| info (message : string)
| info_adjustment (adjustment : number)
| info_final (score : number).

(** The running state of [calculateScore]: [score] and the lines logged. *)
Definition Scoring : Type := number * list LogEntry.

(** [score += delta; core.info(message)]. *)
Definition bump (delta : Z) (message : string) (st : Scoring) : Scoring :=
  (number_add (fst st) (Num delta), (snd st ++ [info message])%list).

Definition when (c : bool) (f : Scoring -> Scoring) (st : Scoring) : Scoring :=
  if c then f st else st.

(** [const adjustment = Math.round((llmScore - 50) * 0.3)]. The literal
    [0.3] is the double nearest to it. *)
Definition llmAdjustment (reviewResult : PRReviewResult) : number :=
  let llmScore := readiness_score reviewResult in
  Math_round (PrimFloat.mul (PrimFloat.sub llmScore 50%float)
                            0x1.3333333333333p-2%float).

(** The body of [calculateScore] up to, and excluding, the clamp. *)
Definition accumulateScore (factors : ScoringFactors)
    (reviewResult : option PRReviewResult) : Scoring :=
  let st : Scoring := (Num 50, []) in
  let st := when (flag_set (ciPassing factors))
                 (bump 20 "Score +20: CI passing") st in
  let st := when (flag_set (testsAdded factors))
                 (bump 15 "Score +15: Tests added") st in
  let st := when (PrimFloat.ltb (diffSize factors) 300%float)
                 (bump 10 "Score +10: Small diff (< 300 lines)") st in
  let st := when (PrimFloat.ltb 300%float (descriptionLength factors))
                 (bump 10 "Score +10: Detailed description") st in
  let st := when (flag_set (highRiskModules factors))
                 (bump (-15) "Score -15: High-risk modules touched") st in
  let st := when (negb (flag_set (hasTests factors)))
                 (bump (-20) "Score -20: No tests") st in
  let st := when (PrimFloat.ltb 1000%float (diffSize factors))
                 (bump (-10) "Score -10: Large diff (> 1000 lines)") st in
  match reviewResult with
  | Some r =>
      let adjustment := llmAdjustment r in
      (number_add (fst st) adjustment,
       (snd st ++ [info_adjustment adjustment])%list)
  | None => st
  end.

(** [calculateScore]: the clamped score and everything it logged. *)
Definition calculateScore_logged (factors : ScoringFactors)
    (reviewResult : option PRReviewResult) : Scoring :=
  let st := accumulateScore factors reviewResult in
  let score := Math_max (Num 0) (Math_min (Num 100) (fst st)) in
  (score, (snd st ++ [info_final score])%list).

Definition calculateScore (factors : ScoringFactors)
    (reviewResult : option PRReviewResult) : number :=
  fst (calculateScore_logged factors reviewResult).

(** The factors [run] in [index.ts] hands to [calculateScore] for a pull
    request with the given payload fields: [testsAdded] and [hasTests] are
    both [detectTests(fileNames)], [ciPassing] is left out, [diffSize] is
    [(pr.additions || 0) + (pr.deletions || 0)] and [descriptionLength] is
    the length of [pr.body || '']. *)
Definition pullRequestFactors (fileNames : list string)
    (additions deletions : option float) (bodyLength : float) : ScoringFactors :=
  let hasTests := detectTests fileNames in
  let highRiskModules := detectHighRiskModules fileNames in
  let diffSize :=
    PrimFloat.add (number_or_zero additions) (number_or_zero deletions) in
  {| ciPassing := None;
     testsAdded := Some hasTests;
     diffSize := diffSize;
     descriptionLength := bodyLength;
     highRiskModules := Some highRiskModules;
     hasTests := Some hasTests |}.

(* ================================================================= *)
(** * summarizer.ts: cosine similarity *)

(** The arithmetic [calculateCosineSimilarity] uses. The function is
    written once over this interface and read twice: over binary64, which
    is what runs, and over the real numbers, which is what the formula
    means. *)
Record Arith (T : Type) := mkArith {
  zero : T;
  add : T -> T -> T;
  mul : T -> T -> T;
  div : T -> T -> T;
  sqrt : T -> T;
  is_zero : T -> bool      (* [x === 0] *)
}.
Arguments zero {T} _.
Arguments add {T} _ _ _.
Arguments mul {T} _ _ _.
Arguments div {T} _ _ _.
Arguments sqrt {T} _ _.
Arguments is_zero {T} _ _.

Section Cosine.
Context {T : Type} (A : Arith T).

(** The [for] loop over the indices of [a]: after the length check [a]
    and [b] have the same length, so walking the two together visits
    exactly [a[i]] and [b[i]] for every index. The three sums are
    [dotProduct], [normA] and [normB]. *)
Fixpoint cosineSums (a b : list T) (acc : T * T * T) : T * T * T :=
  match a, b with
  | x :: a', y :: b' =>
      let '(dotProduct, normA, normB) := acc in
      cosineSums a' b'
        (add A dotProduct (mul A x y),
         add A normA (mul A x x),
         add A normB (mul A y y))
  | _, _ => acc
  end.

Definition calculateCosineSimilarity_over (a b : list T) : result T :=
  if negb (Nat.eqb (List.length a) (List.length b))
  then Throw (Error "Vectors must have the same length")
  else
    let '(dotProduct, normA, normB) :=
      cosineSums a b (zero A, zero A, zero A) in
    let normA := sqrt A normA in
    let normB := sqrt A normB in
    if is_zero A normA || is_zero A normB
    then Ok (zero A)
    else Ok (div A dotProduct (mul A normA normB)).
End Cosine.

(** Binary64 arithmetic, as JavaScript evaluates it. *)
Definition float64 : Arith float :=
  {| zero := 0%float;
     add := PrimFloat.add;
     mul := PrimFloat.mul;
     div := PrimFloat.div;
     sqrt := PrimFloat.sqrt;
     is_zero := fun x => PrimFloat.eqb x 0%float |}.

(** [calculateCosineSimilarity(a, b)] as it runs. *)
Definition calculateCosineSimilarity (a b : list float) : result float :=
  calculateCosineSimilarity_over float64 a b.

(** Exact arithmetic over the real numbers: the formula without rounding,
    overflow or underflow. *)
Definition exact : Arith R :=
  {| zero := 0%R;
     add := Rplus;
     mul := Rmult;
     div := Rdiv;
     sqrt := R_sqrt.sqrt;
     is_zero := fun x => if Req_dec_T x 0%R then true else false |}.


(* ================================================================= *)
(** * Effects *)

(** What the action does to the outside: log lines, and calls to OpenAI,
    GitHub and the database. *)
Inductive Event :=
| core_info (message : string)
| core_warning (message : string)
| core_error (message : string)
| ChatCreate (system user : string)
| EmbeddingsCreate (input : string)
| IssuesListForRepo (per_page : float)
| PullsList (per_page : float)
| DbUpsert (repo github_id : string) (type : string) (title : string)
    (summary : string) (embedding : list float)
| DbSelect (embedding : list float) (repo : string) (type : string)
    (limit : float).

(** The effects performed so far, latest first. *)
Definition History := list Event.

(** An [async] computation: from the history to an outcome and the
    extended history. A thrown error keeps the effects performed before
    it. *)
Definition M (A : Type) : Type := History -> result A * History.

Definition ret {A} (a : A) : M A := fun h => (Ok a, h).

Definition throw {A} (e : JSError) : M A := fun h => (Throw e, h).

Definition bind {A B} (m : M A) (k : A -> M B) : M B :=
  fun h =>
    match m h with
    | (Ok a, h') => k a h'
    | (Throw e, h') => (Throw e, h')
    end.

(** [try { body } catch (error) { handler }]. *)
Definition try_catch {A} (body : M A) (handler : JSError -> M A) : M A :=
  fun h =>
    match body h with
    | (Ok a, h') => (Ok a, h')
    | (Throw e, h') => handler e h'
    end.

(** A logging call. *)
Definition emit (ev : Event) : M unit := fun h => (Ok tt, ev :: h).

(** A call to a service: the request [ev] is recorded, and the outcome is
    the service's answer to the history that ends with it. *)
Definition request {A} (ev : Event) (answer : History -> result A) : M A :=
  fun h => (answer (ev :: h), ev :: h).

(** An expression that may throw. *)
Definition lift {A} (r : result A) : M A := fun h => (r, h).

Declare Scope monad_scope.
Delimit Scope monad_scope with monad.
Notation "x <- m ;; k" := (bind m (fun x => k))
  (at level 61, m at next level, right associativity) : monad_scope.
Notation "m ;; k" := (bind m (fun _ => k))
  (at level 61, right associativity) : monad_scope.
Local Open Scope monad_scope.

(* ================================================================= *)
(** * The JavaScript runtime and the services *)

(** Built-ins the code calls and whose definition is not part of this
    repository; none of the properties below depends on what they
    compute. The two prompt templates of [prompts.ts] are long constant
    texts; they are taken as given. *)
Record Runtime := mkRuntime {
  JSON_parse : string -> result JSValue;
  String_replace : string -> string -> string -> string;
    (* [s.replace(pattern, replacement)] *)
  Number_toString : float -> string;
  parseInt : string -> float;
  ToString_object : JSValue -> string;
    (* string conversion of a value that is not a string *)
  SUMMARY_PROMPT : string;
  DUPLICATE_DETECTION_PROMPT : string
}.

(** One choice of a chat completion: [message.content], possibly [null]. *)
Definition ChatCompletion := list (option string).

(** The [data] of an embedding response: one vector per entry. *)
Definition EmbeddingResponse := list (list float).

(** An entry of [issues.listForRepo] or [pulls.list], with the fields the
    code reads. *)
Record ApiItem := mkApiItem {
  api_number : float;
  api_title : string;
  api_body : option string;
  api_pull_request : bool
}.

(** A row of the [items] table as the similarity query returns it. *)
Record Row := mkRow {
  row_github_id : string;
  row_title : string;
  row_summary : string;
  row_embedding : JSValue;
  row_similarity : option float
}.

(** The services. Each answers the request at the head of the history it
    is given, and may take into account everything that came before it. *)
Record World := mkWorld {
  chat_completions_create : History -> result ChatCompletion;
  embeddings_create : History -> result EmbeddingResponse;
  issues_listForRepo : History -> result (list ApiItem);
  pulls_list : History -> result (list ApiItem);
  db_upsert : History -> result unit;
  db_select : History -> result (list Row)
}.

(** [obj.key]: a [TypeError] on [null] and [undefined]. *)
Fixpoint lookup (key : string) (props : list (string * JSValue)) : JSValue :=
  match props with
  | [] => JUndefined
  | (k, v) :: rest => if String.eqb k key then v else lookup key rest
  end.

Definition get (obj : JSValue) (key : string) : result JSValue :=
  match obj with
  | JUndefined | JNull =>
      Throw (TypeError ("Cannot read properties of null (reading '" ++ key ++ "')"))
  | JObj props => Ok (lookup key props)
  | _ => Ok JUndefined
  end.

(** [Array.isArray(v) ? v : []]. *)
Definition array_or_empty (v : JSValue) : list JSValue :=
  match v with JArr l => l | _ => [] end.

(** A value interpolated into a template literal. *)
Definition ToString (rt : Runtime) (v : JSValue) : string :=
  match v with
  | JStr s => s
  | _ => ToString_object rt v
  end.

Definition newline : string := String (ascii_of_nat 10) "".

(** [s || fallback] for strings. *)
Definition string_or (s fallback : string) : string :=
  if String.eqb s "" then fallback else s.

(* ================================================================= *)
(** * prompts.ts *)

Definition formatSummaryPrompt (rt : Runtime) (title body : string)
    (files : option (list string)) : string :=
  let filesSection :=
    match files with
    | Some (_ :: _ as fs) =>
        newline ++ "Affected Files:" ++ newline ++ String.concat newline fs
    | _ => ""
    end in
  String_replace rt
    (String_replace rt
       (String_replace rt (SUMMARY_PROMPT rt) "{title}" title)
       "{body}" (string_or body "No description provided"))
    "{files}" filesSection.

Definition formatDuplicatePrompt (rt : Runtime) (currentTitle currentSummary : string)
    (candidateNumber : float) (candidateTitle candidateSummary : string) : string :=
  String_replace rt
    (String_replace rt
       (String_replace rt
          (String_replace rt
             (String_replace rt (DUPLICATE_DETECTION_PROMPT rt)
                "{current_title}" currentTitle)
             "{current_summary}" currentSummary)
          "{candidate_number}" (Number_toString rt candidateNumber))
       "{candidate_title}" candidateTitle)
    "{candidate_summary}" candidateSummary.

(* ================================================================= *)
(** * summarizer.ts: the two OpenAI calls *)

Record ItemSummary := mkItemSummary {
  problem_statement : JSValue;
  scope : JSValue;
  key_entities : list JSValue;
  affected_files : list JSValue
}.

Definition summarySystemMessage : string :=
  "You are a helpful assistant that generates structured summaries in JSON format.".

(** [response.choices[0].message.content || '{}']: a [TypeError] when there
    is no first choice. *)
Definition first_content (response : ChatCompletion) : result string :=
  match response with
  | [] => Throw (TypeError "Cannot read properties of undefined (reading 'message')")
  | content :: _ =>
      Ok (match content with
          | Some s => string_or s "{}"
          | None => "{}"
          end)
  end.

Section Summarizer.
Variables (rt : Runtime) (w : World).

Definition generateSummary (title body : string)
    (files : option (list string)) : M ItemSummary :=
  try_catch
    (let prompt := formatSummaryPrompt rt title body files in
     response <- request (ChatCreate summarySystemMessage prompt)
                   (chat_completions_create w) ;;
     content <- lift (first_content response) ;;
     summary <- lift (JSON_parse rt content) ;;
     ps <- lift (get summary "problem_statement") ;;
     sc <- lift (get summary "scope") ;;
     ke <- lift (get summary "key_entities") ;;
     af <- lift (get summary "affected_files") ;;
     ret {| problem_statement := js_or ps (JStr "No problem statement");
            scope := js_or sc (JStr "Unknown");
            key_entities := array_or_empty ke;
            affected_files := array_or_empty af |})
    (fun error =>
       emit (core_warning ("Failed to generate summary: " ++ error_toString error)) ;;
       ret {| problem_statement := JStr title;
              scope := JStr "Unknown";
              key_entities := [];
              affected_files :=
                match files with
                | Some fs => map JStr fs
                | None => []
                end |}).

(** [response.data[0].embedding]. *)
Definition first_embedding (response : EmbeddingResponse) : result (list float) :=
  match response with
  | [] => Throw (TypeError "Cannot read properties of undefined (reading 'embedding')")
  | embedding :: _ => Ok embedding
  end.

Definition generateEmbedding (text : string) : M (list float) :=
  try_catch
    (response <- request (EmbeddingsCreate text) (embeddings_create w) ;;
     lift (first_embedding response))
    (fun error =>
       emit (core_error ("Failed to generate embedding: " ++ error_toString error)) ;;
       throw error).
End Summarizer.

(* ================================================================= *)
(** * github.ts and db.ts: candidate sources *)

(** The repository a client is bound to ([client.context.repo]). *)
Record GitHubClient := mkGitHubClient { owner : string; repo : string }.

Inductive ItemType := issue | pr.

Definition ItemType_toString (t : ItemType) : string :=
  match t with issue => "issue" | pr => "pr" end.

(** What the stateless scan iterates over. *)
Record Item := mkItem {
  item_number : float;
  item_title : string;
  item_body : option string
}.

(** [body: item.body || null]. *)
Definition body_or_null (body : option string) : option string :=
  match body with
  | Some s => if String.eqb s "" then None else Some s
  | None => None
  end.

Definition toItem (x : ApiItem) : Item :=
  {| item_number := api_number x;
     item_title := api_title x;
     item_body := body_or_null (api_body x) |}.

Record SimilarityItem := mkSimilarityItem {
  si_github_id : string;
  si_title : string;
  si_summary : string;
  si_embedding : JSValue;
  si_similarity : option float
}.

(** [mapM] over a list, left to right, stopping at the first throw. *)
Fixpoint traverse {A B} (f : A -> result B) (l : list A) : result (list B) :=
  match l with
  | [] => Ok []
  | x :: rest =>
      match f x with
      | Throw e => Throw e
      | Ok y =>
          match traverse f rest with
          | Throw e => Throw e
          | Ok ys => Ok (y :: ys)
          end
      end
  end.

Section Sources.
Variables (rt : Runtime) (w : World).

Definition getRecentIssues (client : GitHubClient) (maxResults : float)
    : M (list Item) :=
  try_catch
    (data <- request (IssuesListForRepo maxResults) (issues_listForRepo w) ;;
     ret (map toItem (filter (fun x => negb (api_pull_request x)) data)))
    (fun error =>
       emit (core_warning ("Failed to get recent issues: " ++ error_toString error)) ;;
       ret []).

Definition getRecentPullRequests (client : GitHubClient) (maxResults : float)
    : M (list Item) :=
  try_catch
    (data <- request (PullsList maxResults) (pulls_list w) ;;
     ret (map toItem data))
    (fun error =>
       emit (core_warning ("Failed to get recent pull requests: " ++ error_toString error)) ;;
       ret []).

(** The repository key of a stored item: [`${owner}/${repo}`]. *)
Definition repoKey (client : GitHubClient) : string :=
  owner client ++ "/" ++ repo client.

Definition storeSimilarityItem (repo github_id : string) (type : ItemType)
    (title summary : string) (embedding : list float) : M unit :=
  try_catch
    (request (DbUpsert repo github_id (ItemType_toString type) title summary
                embedding)
       (db_upsert w) ;;
     emit (core_info ("Stored item " ++ ItemType_toString type ++ " #"
                        ++ github_id ++ " in database")))
    (fun error =>
       emit (core_warning ("Failed to store similarity item: " ++ error_toString error))).

(** [parseEmbedding]: a string is parsed, anything else is returned. *)
Definition parseEmbedding (embeddingStr : JSValue) : result JSValue :=
  match embeddingStr with
  | JStr s => JSON_parse rt s
  | v => Ok v
  end.

Definition rowToItem (row : Row) : result SimilarityItem :=
  match parseEmbedding (row_embedding row) with
  | Throw e => Throw e
  | Ok embedding =>
      Ok {| si_github_id := row_github_id row;
            si_title := row_title row;
            si_summary := row_summary row;
            si_embedding := embedding;
            si_similarity := row_similarity row |}
  end.

Definition findSimilarItems (embedding : list float) (repo : string)
    (type : ItemType) (limit : float) : M (list SimilarityItem) :=
  try_catch
    (rows <- request (DbSelect embedding repo (ItemType_toString type) limit)
               (db_select w) ;;
     lift (traverse rowToItem rows))
    (fun error =>
       emit (core_warning ("Failed to find similar items: " ++ error_toString error)) ;;
       ret []).
End Sources.

(* ================================================================= *)
(** * dedupe.ts *)

Record DuplicateResult := mkDuplicateResult {
  classification : JSValue;
  confidence : JSValue;
  canonical_item : JSValue;
  reasoning : JSValue
}.

Record Candidate := mkCandidate {
  cand_number : float;
  cand_title : string;
  cand_summary : JSValue;
  cand_similarity : float
}.

Definition classifySystemMessage : string :=
  "You are a helpful assistant that identifies duplicate issues and pull requests.".

(** [candidates.sort((a, b) => b.similarity - a.similarity)]: a stable
    sort; [a] moves behind [b] when the comparator is positive. *)
Definition sortsAfter (a b : Candidate) : bool :=
  PrimFloat.ltb 0%float (PrimFloat.sub (cand_similarity b) (cand_similarity a)).

Fixpoint insertCandidate (x : Candidate) (sorted : list Candidate) : list Candidate :=
  match sorted with
  | [] => [x]
  | y :: rest =>
      if sortsAfter y x then x :: y :: rest else y :: insertCandidate x rest
  end.

Definition sortCandidates (candidates : list Candidate) : list Candidate :=
  fold_left (fun sorted x => insertCandidate x sorted) candidates [].

Section Dedupe.
Variables (rt : Runtime) (w : World).

Definition classifyDuplicate (currentTitle currentSummary : string)
    (candidateNumber : float) (candidateTitle candidateSummary : string)
    : M DuplicateResult :=
  try_catch
    (let prompt := formatDuplicatePrompt rt currentTitle currentSummary
                     candidateNumber candidateTitle candidateSummary in
     response <- request (ChatCreate classifySystemMessage prompt)
                   (chat_completions_create w) ;;
     content <- lift (first_content response) ;;
     result <- lift (JSON_parse rt content) ;;
     cl <- lift (get result "classification") ;;
     co <- lift (get result "confidence") ;;
     ca <- lift (get result "canonical_item") ;;
     re <- lift (get result "reasoning") ;;
     ret {| classification := js_or cl (JStr "distinct");
            confidence := js_or co (JNum 0%float);
            canonical_item := js_or ca JNull;
            reasoning := js_or re (JStr "No reasoning provided") |})
    (fun error =>
       emit (core_warning ("Failed to classify duplicate: " ++ error_toString error)) ;;
       ret {| classification := JStr "distinct";
              confidence := JNum 0%float;
              canonical_item := JNull;
              reasoning := JStr "Classification failed" |}).

(** The stateless scan: the [for] loop over the fetched items, pushing
    onto [candidates] those at or above the threshold. *)
Fixpoint scanItems (currentEmbedding : list float) (itemNumber : float)
    (similarityThreshold : float) (items : list Item)
    (candidates : list Candidate) : M (list Candidate) :=
  match items with
  | [] => ret candidates
  | item :: rest =>
      if PrimFloat.eqb (item_number item) itemNumber
      then scanItems currentEmbedding itemNumber similarityThreshold rest candidates
      else
        candidateSummary <- generateSummary rt w (item_title item)
                              (match item_body item with Some b => b | None => "" end)
                              (Some []) ;;
        let candidateText :=
          item_title item ++ " " ++ ToString rt (problem_statement candidateSummary) in
        candidateEmbedding <- generateEmbedding w candidateText ;;
        similarity <- lift (calculateCosineSimilarity currentEmbedding candidateEmbedding) ;;
        let candidates :=
          if PrimFloat.leb similarityThreshold similarity
          then (candidates ++
                  [{| cand_number := item_number item;
                      cand_title := item_title item;
                      cand_summary := problem_statement candidateSummary;
                      cand_similarity := similarity |}])%list
          else candidates in
        scanItems currentEmbedding itemNumber similarityThreshold rest candidates
  end.

(** Step 1 of [detectDuplicates]: summarize the current item and embed
    [`${itemTitle} ${problem_statement}`]. *)
Definition embedCurrent (itemTitle itemBody : string) (files : list string)
    : M (ItemSummary * list float) :=
  currentSummary <- generateSummary rt w itemTitle itemBody (Some files) ;;
  let summaryText :=
    itemTitle ++ " " ++ ToString rt (problem_statement currentSummary) in
  currentEmbedding <- generateEmbedding w summaryText ;;
  ret (currentSummary, currentEmbedding).

(** [if (databaseUrl)]: a missing or empty connection string selects the
    stateless mode. *)
Definition stateful (databaseUrl : option string) : bool :=
  match databaseUrl with
  | Some url => negb (String.eqb url "")
  | None => false
  end.

Definition detectDuplicates (client : GitHubClient) (itemNumber : float)
    (itemTitle itemBody : string) (itemType : ItemType) (files : list string)
    (maxCandidates similarityThreshold : float) (databaseUrl : option string)
    : M (option DuplicateResult) :=
  try_catch
    (current <- embedCurrent itemTitle itemBody files ;;
     let '(currentSummary, currentEmbedding) := current in
     candidates <-
       (if stateful databaseUrl then
          emit (core_info "Using stateful mode (database)") ;;
          storeSimilarityItem w (repoKey client) (Number_toString rt itemNumber)
            itemType itemTitle (ToString rt (problem_statement currentSummary))
            currentEmbedding ;;
          similarItems <- findSimilarItems rt w currentEmbedding (repoKey client)
                            itemType maxCandidates ;;
          ret (map (fun item =>
                      {| cand_number := parseInt rt (si_github_id item);
                         cand_title := si_title item;
                         cand_summary := JStr (si_summary item);
                         cand_similarity := number_or_zero (si_similarity item) |})
                   (filter (fun item =>
                              negb (String.eqb (si_github_id item)
                                      (Number_toString rt itemNumber)))
                           similarItems))
        else
          emit (core_info "Using stateless mode (GitHub API)") ;;
          items <- (match itemType with
                    | issue => getRecentIssues w client maxCandidates
                    | pr => getRecentPullRequests w client maxCandidates
                    end) ;;
          scanItems currentEmbedding itemNumber similarityThreshold items []) ;;
     let candidates := sortCandidates candidates in
     match candidates with
     | [] =>
         emit (core_info "No similar items found above threshold") ;;
         ret None
     | topCandidate :: _ =>
         result <- classifyDuplicate itemTitle
                     (ToString rt (problem_statement currentSummary))
                     (cand_number topCandidate) (cand_title topCandidate)
                     (ToString rt (cand_summary topCandidate)) ;;
         ret (Some result)
     end)
    (fun error =>
       emit (core_error ("Failed to detect duplicates: " ++ error_toString error)) ;;
       ret None).
End Dedupe.

(** Whether the LLM classification request is among the events [h]. *)
Definition isClassifyCall (ev : Event) : bool :=
  match ev with
  | ChatCreate system _ => String.eqb system classifySystemMessage
  | _ => false
  end.

Definition classifyInvoked (h : History) : bool := existsb isClassifyCall h.

(* ================================================================= *)
(** * Vocabulary of the statements *)

(** Definitions used to state the properties: record updates, the
    specification's reading of a test path, and concrete runtimes, worlds
    and inputs to evaluate the functions on. *)

(** Record updates used to vary one factor. *)
Definition set_testsAdded (v : option bool) (f : ScoringFactors) : ScoringFactors :=
  {| ciPassing := ciPassing f; testsAdded := v; diffSize := diffSize f;
     descriptionLength := descriptionLength f;
     highRiskModules := highRiskModules f; hasTests := hasTests f |}.

Definition set_diffSize (d : float) (f : ScoringFactors) : ScoringFactors :=
  {| ciPassing := ciPassing f; testsAdded := testsAdded f; diffSize := d;
     descriptionLength := descriptionLength f;
     highRiskModules := highRiskModules f; hasTests := hasTests f |}.

Definition set_hasTests (v : option bool) (f : ScoringFactors) : ScoringFactors :=
  {| ciPassing := ciPassing f; testsAdded := testsAdded f; diffSize := diffSize f;
     descriptionLength := descriptionLength f;
     highRiskModules := highRiskModules f; hasTests := v |}.

(** The clamp of the last assignment, and the sum of the static terms. *)
Definition clamp (score : number) : number :=
  Math_max (Num 0) (Math_min (Num 100) score).

Definition staticScore (f : ScoringFactors) : Z :=
  50
  + (if flag_set (ciPassing f) then 20 else 0)
  + (if flag_set (testsAdded f) then 15 else 0)
  + (if PrimFloat.ltb (diffSize f) 300%float then 10 else 0)
  + (if PrimFloat.ltb 300%float (descriptionLength f) then 10 else 0)
  - (if flag_set (highRiskModules f) then 15 else 0)
  - (if flag_set (hasTests f) then 0 else 20)
  - (if PrimFloat.ltb 1000%float (diffSize f) then 10 else 0).

(** [score <= score'], NaN being comparable to itself only. *)
Definition number_le (a b : number) : Prop :=
  a = b \/ number_ltb a b = true.

(** [occurs p s]: [p] is a contiguous part of [s]. *)
Definition occurs (p s : string) : Prop :=
  exists pre suf : string, s = pre ++ p ++ suf.

(** The literals [detectTests] looks for. *)
Definition testMarkers : list string :=
  [".test."; ".spec."; "__tests__/"; "test/"; "tests/"; "spec/"].

(** The line logged for the missing-tests penalty. *)
Definition noTestsLine : LogEntry := info "Score -20: No tests".

Definition optionalLine (c : bool) (message : string) : list LogEntry :=
  if c then [info message] else [].

(** The lines logged for the static terms, in the order of the code. *)
Definition staticLines (f : ScoringFactors) : list LogEntry :=
  (optionalLine (flag_set (ciPassing f)) "Score +20: CI passing"
   ++ optionalLine (flag_set (testsAdded f)) "Score +15: Tests added"
   ++ optionalLine (PrimFloat.ltb (diffSize f) 300%float)
        "Score +10: Small diff (< 300 lines)"
   ++ optionalLine (PrimFloat.ltb 300%float (descriptionLength f))
        "Score +10: Detailed description"
   ++ optionalLine (flag_set (highRiskModules f))
        "Score -15: High-risk modules touched"
   ++ optionalLine (negb (flag_set (hasTests f))) "Score -20: No tests"
   ++ optionalLine (PrimFloat.ltb 1000%float (diffSize f))
        "Score -10: Large diff (> 1000 lines)")%list.

Definition adjustmentLine (r : option PRReviewResult) : list LogEntry :=
  match r with
  | Some rr => [info_adjustment (llmAdjustment rr)]
  | None => []
  end.

(** The segments of a path, split at ['/']. *)
Fixpoint splitSlash (s : string) : list string :=
  match s with
  | EmptyString => [EmptyString]
  | String c s' =>
      if Ascii.eqb c "/" then EmptyString :: splitSlash s'
      else match splitSlash s' with
           | seg :: rest => String c seg :: rest
           | [] => [String c EmptyString]
           end
  end.

(** All segments but the last, which names the file itself. *)
Definition directorySegments (s : string) : list string :=
  removelast (splitSlash s).

(** Specification reading: the path contains [.test.] or [.spec.], or has
    a directory segment named [test], [tests] or [spec]. *)
Definition spec_testLikePath (file : string) : bool :=
  includes ".test." file || includes ".spec." file ||
  existsb (fun seg => String.eqb seg "test" || String.eqb seg "tests"
                      || String.eqb seg "spec")
          (directorySegments file).

(** The factors of an empty change: nothing set, sizes zero. *)
Definition emptyFactors : ScoringFactors :=
  {| ciPassing := Some false; testsAdded := Some false;
     diffSize := 0%float; descriptionLength := 0%float;
     highRiskModules := Some false; hasTests := Some false |}.

(** A review result whose readiness score is NaN. *)
Definition nanReview : PRReviewResult :=
  {| review_summary := ""; risk_level := "low"; missing_elements := [];
     design_alignment := "aligned"; readiness_score := nan |}.

(** A review with a readiness score of 85. *)
Definition goodReview : PRReviewResult :=
  {| review_summary := ""; risk_level := "low"; missing_elements := [];
     design_alignment := "aligned"; readiness_score := 85%float |}.




(** The JSON a chat request yields: the request is sent after [h], the
    first choice's content is read and parsed. Any of the three steps may
    throw. *)
Definition chatJson (rt : Runtime) (w : World) (system prompt : string)
    (h : History) : result JSValue :=
  match chat_completions_create w (ChatCreate system prompt :: h) with
  | Throw e => Throw e
  | Ok response =>
      match first_content response with
      | Throw e => Throw e
      | Ok content => JSON_parse rt content
      end
  end.

(** A runtime and two worlds to run the functions in. [stubRuntime] parses
    nothing; in [failingWorld] every service call throws. *)
Definition stubRuntime : Runtime :=
  {| JSON_parse := fun _ => Throw (mkError "SyntaxError" "Unexpected token");
     String_replace := fun s _ _ => s;
     Number_toString := fun _ => "0";
     parseInt := fun _ => nan;
     ToString_object := fun _ => "[object Object]";
     SUMMARY_PROMPT := "{title} {body} {files}";
     DUPLICATE_DETECTION_PROMPT := "{current_title} {candidate_title}" |}.

Definition networkError : JSError := Error "Connection error.".

Definition failingWorld : World :=
  {| chat_completions_create := fun _ => Throw networkError;
     embeddings_create := fun _ => Throw networkError;
     issues_listForRepo := fun _ => Throw networkError;
     pulls_list := fun _ => Throw networkError;
     db_upsert := fun _ => Throw networkError;
     db_select := fun _ => Throw networkError |}.

Definition scenarioClient : GitHubClient :=
  {| owner := "octo"; repo := "triage" |}.

(** The items the stateless mode fetches for an item of the given kind. *)
Definition recentItems (w : World) (client : GitHubClient) (itemType : ItemType)
    (maxCandidates : float) : M (list Item) :=
  match itemType with
  | issue => getRecentIssues w client maxCandidates
  | pr => getRecentPullRequests w client maxCandidates
  end.

(** The similarities the stateless scan computes, in the order of the
    loop: one per fetched item other than the current one, up to the first
    step that throws. The steps and the histories are those of
    [scanItems]. *)
Fixpoint scannedSimilarities (rt : Runtime) (w : World)
    (currentEmbedding : list float) (itemNumber : float) (items : list Item)
    (h : History) : list float :=
  match items with
  | [] => []
  | item :: rest =>
      if PrimFloat.eqb (item_number item) itemNumber
      then scannedSimilarities rt w currentEmbedding itemNumber rest h
      else
        match generateSummary rt w (item_title item)
                (match item_body item with Some b => b | None => "" end)
                (Some []) h with
        | (Throw _, _) => []
        | (Ok candidateSummary, h1) =>
            match generateEmbedding w
                    (item_title item ++ " "
                       ++ ToString rt (problem_statement candidateSummary)) h1 with
            | (Throw _, _) => []
            | (Ok candidateEmbedding, h2) =>
                match calculateCosineSimilarity currentEmbedding
                        candidateEmbedding with
                | Throw _ => []
                | Ok similarity =>
                    similarity
                    :: scannedSimilarities rt w currentEmbedding itemNumber rest h2
                end
            end
        end
  end.

(** The similarity of every candidate to the current item, as a stateless
    run of [detectDuplicates] started after [h] computes them. *)
Definition candidateSimilarities (rt : Runtime) (w : World)
    (client : GitHubClient) (itemNumber : float) (itemTitle itemBody : string)
    (itemType : ItemType) (files : list string) (maxCandidates : float)
    (h : History) : list float :=
  match embedCurrent rt w itemTitle itemBody files h with
  | (Throw _, _) => []
  | (Ok (_, currentEmbedding), h1) =>
      match recentItems w client itemType maxCandidates
              (core_info "Using stateless mode (GitHub API)" :: h1) with
      | (Throw _, _) => []
      | (Ok items, h2) =>
          scannedSimilarities rt w currentEmbedding itemNumber items h2
      end
  end.

(** A world with one earlier issue whose embedding has similarity 0.8 to
    the current item's: the first embedding requested is [(1, 0)], every
    later one is [(4, 3)]. *)
Definition isEmbeddingCall (ev : Event) : bool :=
  match ev with
  | EmbeddingsCreate _ => true
  | _ => false
  end.

Definition dissimilarWorld : World :=
  {| chat_completions_create := fun _ => Ok [Some "{}"];
     embeddings_create := fun h =>
       if existsb isEmbeddingCall (tl h)
       then Ok [[4%float; 3%float]]
       else Ok [[1%float; 0%float]];
     issues_listForRepo := fun _ =>
       Ok [ {| api_number := 12%float;
               api_title := "Dark mode flickers";
               api_body := Some "The theme toggles twice";
               api_pull_request := false |} ];
     pulls_list := fun _ => Ok [];
     db_upsert := fun _ => Ok tt;
     db_select := fun _ => Ok [] |}.

(* ================================================================= *)
(** * Further functions: summarizer.ts, github.ts, db.ts *)

(** ** [summarizeText] *)


(** ** Effects of the GitHub writes and of the database *)

(** The value of [colors[labelName] || '0052CC']: a colour of the table,
    the default, or, for a name that [Object.prototype] defines, the
    inherited member (a function or an object, which is truthy). *)
Inductive LabelColor :=
| HexColor (hex : string)
| InheritedMember (name : string).

(** The three statements [initializeDatabase] sends, by what they create:
    [CREATE EXTENSION IF NOT EXISTS vector], [CREATE TABLE IF NOT EXISTS
    items ...], [CREATE INDEX IF NOT EXISTS items_embedding_idx ...]. *)
Inductive Statement := CreateExtension | CreateTable | CreateIndex.

(** The options a [Pool] is created with. [ssl_options] is [None] for
    [ssl: false] and [Some b] for [ssl: { rejectUnauthorized: b }]. *)
Record Pool := mkPool {
  connectionString : string;
  ssl_options : option bool
}.

(** Everything the action does to the outside: the effects of the
    summarizer and detector ([Base]), the GitHub requests of [github.ts],
    the database calls of [db.ts], the two assignments to the module-level
    variable [pool], the lines [calculateScore] logs and
    [core.setFailed]. *)
Inductive Effect :=
| Base (ev : Event)
| SearchIssuesAndPullRequests (q : string) (per_page : float)
| PullsGet (pull_number : float)
| PullsListFiles (pull_number : float) (per_page : float)
| IssuesCreateComment (issue_number : float) (body : string)
| IssuesGetLabel (name : string)
| IssuesCreateLabel (name : string) (color : LabelColor)
| IssuesAddLabels (issue_number : float) (labels : list string)
| PoolCreate (created : Pool)
| PoolConnect
| ClientQuery (statement : Statement)
| ClientRelease
| PoolEnd
| PoolReset
| ScoreLog (line : LogEntry)
| SetFailed (message : string).

(** The effects performed so far, latest first. *)
Definition Trace := list Effect.

(** An [async] computation over these effects. *)
Definition Act (A : Type) : Type := Trace -> result A * Trace.

Definition done {A} (a : A) : Act A := fun t => (Ok a, t).

Definition raise {A} (e : JSError) : Act A := fun t => (Throw e, t).

Definition next {A B} (m : Act A) (k : A -> Act B) : Act B :=
  fun t =>
    match m t with
    | (Ok a, t') => k a t'
    | (Throw e, t') => (Throw e, t')
    end.

(** [try { body } catch (error) { handler }]. *)
Definition guard {A} (body : Act A) (handler : JSError -> Act A) : Act A :=
  fun t =>
    match body t with
    | (Ok a, t') => (Ok a, t')
    | (Throw e, t') => handler e t'
    end.

(** [try { body } finally { cleanup }]: the cleanup always runs; its own
    error, if any, replaces the outcome of the body. *)
Definition finally {A} (body : Act A) (cleanup : Act unit) : Act A :=
  fun t =>
    match body t with
    | (outcome, t') =>
        match cleanup t' with
        | (Ok _, t'') => (outcome, t'')
        | (Throw e, t'') => (Throw e, t'')
        end
    end.

Definition note (ev : Effect) : Act unit := fun t => (Ok tt, ev :: t).

(** A request to a service, answered from the trace that ends with it. *)
Definition call {A} (ev : Effect) (answer : Trace -> result A) : Act A :=
  fun t => (answer (ev :: t), ev :: t).

Declare Scope act_scope.
Delimit Scope act_scope with act.
Notation "x <- m ;; k" := (next m (fun x => k))
  (at level 61, m at next level, right associativity) : act_scope.
Notation "m ;; k" := (next m (fun _ => k))
  (at level 61, right associativity) : act_scope.

(** An entry of [search.issuesAndPullRequests]. *)
Record SearchItem := mkSearchItem {
  search_number : float;
  search_title : string;
  search_body : option string;
  search_state : string;
  search_created_at : string;
  search_html_url : string
}.

(** The fields [searchPullRequests] reads from [pulls.get]. *)
Record PullDetails := mkPullDetails {
  details_additions : float;
  details_deletions : float;
  details_changed_files : float
}.

Record Issue := mkIssue {
  issue_number : float;
  issue_title : string;
  issue_body : option string;
  issue_state : string;
  issue_created_at : string;
  issue_html_url : string
}.


Record PRFile := mkPRFile {
  filename : string;
  file_status : string;
  file_additions : float;
  file_deletions : float;
  file_changes : float;
  file_patch : option string
}.

(** The GitHub and database services behind [github.ts] and [db.ts]. *)
Record Services := mkServices {
  search_issuesAndPullRequests : Trace -> result (list SearchItem);
  pulls_get : Trace -> result PullDetails;
  pulls_listFiles : Trace -> result (list PRFile);
  issues_createComment : Trace -> result unit;
  issues_getLabel : Trace -> result unit;
  issues_createLabel : Trace -> result unit;
  issues_addLabels : Trace -> result unit;
  pool_connect : Trace -> result unit;
  client_query : Trace -> result unit;
  client_release : Trace -> result unit;
  pool_end : Trace -> result unit
}.

(** ** github.ts: searches, files, comments and labels *)

Definition toIssue (item : SearchItem) : Issue :=
  {| issue_number := search_number item;
     issue_title := search_title item;
     issue_body := body_or_null (search_body item);
     issue_state := search_state item;
     issue_created_at := search_created_at item;
     issue_html_url := search_html_url item |}.

(** The names [Object.prototype] defines; an object literal inherits
    them. *)
Definition objectPrototypeKeys : list string :=
  ["constructor"; "__defineGetter__"; "__defineSetter__"; "hasOwnProperty";
   "__lookupGetter__"; "__lookupSetter__"; "isPrototypeOf";
   "propertyIsEnumerable"; "toString"; "valueOf"; "__proto__";
   "toLocaleString"].

Definition labelColors : list (string * string) :=
  [("possible-duplicate", "FBCA04"); ("needs-tests", "D93F0B");
   ("high-risk", "B60205"); ("ready-for-review", "0E8A16")].

Fixpoint ownColor (labelName : string) (colors : list (string * string))
    : option string :=
  match colors with
  | [] => None
  | (name, color) :: rest =>
      if String.eqb name labelName then Some color else ownColor labelName rest
  end.

Definition getDefaultLabelColor (labelName : string) : LabelColor :=
  match ownColor labelName labelColors with
  | Some color => HexColor color
  | None =>
      if existsb (String.eqb labelName) objectPrototypeKeys
      then InheritedMember labelName
      else HexColor "0052CC"
  end.

Section GitHubAndDatabase.
Variables (rt : Runtime) (sv : Services).
Local Open Scope act_scope.

Definition searchIssues (client : GitHubClient) (query : string)
    (maxResults : float) : Act (list Issue) :=
  guard
    (items <- call (SearchIssuesAndPullRequests
                      ("repo:" ++ owner client ++ "/" ++ repo client
                         ++ " is:issue " ++ query) maxResults)
                (search_issuesAndPullRequests sv) ;;
     done (map toIssue items))
    (fun error =>
       note (Base (core_warning ("Failed to search issues: " ++ error_toString error))) ;;
       done []).



Definition getPullRequestFiles (client : GitHubClient) (prNumber : float)
    : Act (list PRFile) :=
  guard
    (call (PullsListFiles prNumber 100%float) (pulls_listFiles sv))
    (fun error =>
       note (Base (core_warning ("Failed to get PR files: " ++ error_toString error))) ;;
       done []).

Definition createComment (client : GitHubClient) (issueNumber : float)
    (body : string) : Act unit :=
  guard
    (call (IssuesCreateComment issueNumber body) (issues_createComment sv) ;;
     note (Base (core_info ("Comment posted to #" ++ Number_toString rt issueNumber))))
    (fun error =>
       note (Base (core_error ("Failed to create comment: " ++ error_toString error))) ;;
       raise error).

(** The first loop of [addLabels]: look each label up and create the ones
    whose lookup fails. *)
Fixpoint ensureLabels (labels : list string) : Act unit :=
  match labels with
  | [] => done tt
  | label :: rest =>
      guard
        (call (IssuesGetLabel label) (issues_getLabel sv))
        (fun error =>
           guard
             (call (IssuesCreateLabel label (getDefaultLabelColor label))
                   (issues_createLabel sv) ;;
              note (Base (core_info ("Created label: " ++ label))))
             (fun createError =>
                note (Base (core_warning ("Failed to create label " ++ label ++ ": "
                                            ++ error_toString createError))))) ;;
      ensureLabels rest
  end.

Definition addLabels (client : GitHubClient) (issueNumber : float)
    (labels : list string) : Act unit :=
  match labels with
  | [] => done tt
  | _ :: _ =>
      guard
        (ensureLabels labels ;;
         call (IssuesAddLabels issueNumber labels) (issues_addLabels sv) ;;
         note (Base (core_info ("Labels added to #" ++ Number_toString rt issueNumber
                                  ++ ": " ++ String.concat ", " labels))))
        (fun error =>
           note (Base (core_warning ("Failed to add labels: " ++ error_toString error))))
  end.

(** ** db.ts: the connection pool *)

(** The value of the module variable [pool], read off the trace. *)
Fixpoint currentPool (t : Trace) : option Pool :=
  match t with
  | [] => None
  | PoolCreate created :: _ => Some created
  | PoolReset :: _ => None
  | _ :: rest => currentPool rest
  end.

Definition getDatabase (databaseUrl : string) : Act Pool :=
  fun t =>
    match currentPool t with
    | Some existing => (Ok existing, t)
    | None =>
        let created :=
          {| connectionString := databaseUrl;
             ssl_options := if includes "localhost" databaseUrl
                            then None else Some false |} in
        (Ok created, PoolCreate created :: t)
    end.

Definition initializeDatabase (db : Pool) : Act unit :=
  call PoolConnect (pool_connect sv) ;;
  finally
    (guard
       (call (ClientQuery CreateExtension) (client_query sv) ;;
        call (ClientQuery CreateTable) (client_query sv) ;;
        call (ClientQuery CreateIndex) (client_query sv) ;;
        note (Base (core_info "Database initialized successfully")))
       (fun error =>
          note (Base (core_warning ("Failed to initialize database: "
                                      ++ error_toString error)))))
    (call ClientRelease (client_release sv)).

(** [closeDatabase(db)]; [db] is [None] for a falsy argument. *)
Definition closeDatabase (db : option Pool) : Act unit :=
  match db with
  | None => done tt
  | Some _ =>
      call PoolEnd (pool_end sv) ;;
      note PoolReset ;;
      note (Base (core_info "Database connection closed"))
  end.
End GitHubAndDatabase.

(** ** index.ts: the event router *)

(** The double that holds the integer [n] (for [0 <= n < 2^63]). *)
Definition integerValue (n : Z) : float :=
  PrimFloat.of_uint63 (Uint63.of_Z n).

(** [payload.issue] and [payload.pull_request], with the fields [run]
    reads. *)
Record IssuePayload := mkIssuePayload {
  payload_issue_number : float;
  payload_issue_title : string;
  payload_issue_body : option string
}.

Record PullRequestPayload := mkPullRequestPayload {
  payload_pr_number : float;
  payload_pr_title : string;
  payload_pr_body : option string;
  payload_pr_additions : option float;
  payload_pr_deletions : option float;
  payload_pr_changed_files : option float
}.

(** What the workflow run provides: the inputs of the action as the
    environment holds them (the empty string for an input that is not
    supplied), [github.context], and three built-ins. *)
Record Host := mkHost {
  input : string -> string;
  String_trim : string -> string;   (* [s.trim()] *)
  eventName : string;
  payload_action : option string;
  payload_issue : option IssuePayload;
  payload_pull_request : option PullRequestPayload;
  context_repo : GitHubClient;
  parseFloat : string -> float;
  toPercent : JSValue -> string     (* [(v * 100).toFixed(0)] *)
}.

(** [core.getInput(name)]: the value, trimmed. *)
Definition getInput (host : Host) (name : string) : string :=
  String_trim host (input host name).

(** What [run] does at a point where the source may [return]. *)
Inductive Flow := Continue | Return.

(** The events of the detector among the effects, latest first. *)
Definition baseEvents (t : Trace) : History :=
  flat_map (fun ev => match ev with Base e => [e] | _ => [] end) t.

(** A computation of the summarizer or detector run inside the action: it
    starts from the detector's events performed so far and its new events
    are appended to the trace. The services of [World] answer from the
    detector's events only. *)
Definition liftM {A} (m : M A) : Act A :=
  fun t =>
    let h := baseEvents t in
    let '(r, h') := m h in
    (r, (map Base (firstn (List.length h' - List.length h) h') ++ t)%list).

(** [`${action}`] for [payload.action]. *)
Definition action_toString (action : option string) : string :=
  match action with Some a => a | None => "undefined" end.

Definition action_is (action : option string) (name : string) : bool :=
  match action with Some a => String.eqb a name | None => false end.

(** [v === 'text'] for a value. *)
Definition strictly_equals (v : JSValue) (text : string) : bool :=
  match v with JStr s => String.eqb s text | _ => false end.

(** [score >= 80]. *)
Definition number_geb (a b : number) : bool :=
  match a, b with
  | NaN, _ | _, NaN => false
  | _, _ => negb (number_ltb a b)
  end.

Section Router.
Variables (rt : Runtime) (w : World) (sv : Services) (host : Host).

(** [review.ts] is not part of the sources: [reviewPullRequest] and
    [formatReviewComment] are taken as given. *)
Variable reviewPullRequest :
  GitHubClient -> float -> string -> string -> float -> float -> float ->
  list PRFile -> Act PRReviewResult.
Variable formatReviewComment : PRReviewResult -> result string.

Local Open Scope act_scope.

(** [core.getInput(name, { required: true })]: the check is made on the
    value before it is trimmed. *)
Definition requiredInput (name : string) : Act string :=
  let val := input host name in
  if String.eqb val ""
  then raise (Error ("Input required and not supplied: " ++ name))
  else done (String_trim host val).

(** The three comments of [run]; the emoji are written in UTF-8. *)
Definition duplicateIssueComment (r : DuplicateResult) : string :=
  "🔍 **Possible Duplicate Detected**" ++ newline ++ newline
  ++ "This issue appears to be similar to #" ++ ToString rt (canonical_item r)
  ++ "." ++ newline ++ newline
  ++ "**Confidence:** " ++ toPercent host (confidence r) ++ "%" ++ newline
  ++ "**Reasoning:** " ++ ToString rt (reasoning r) ++ newline ++ newline
  ++ "Please review to confirm if this is a duplicate.".

Definition relatedIssueComment (r : DuplicateResult) : string :=
  "🔗 **Related Issue Found**" ++ newline ++ newline
  ++ "This issue may be related to #" ++ ToString rt (canonical_item r)
  ++ "." ++ newline ++ newline
  ++ "**Reasoning:** " ++ ToString rt (reasoning r).

Definition duplicatePullRequestComment (r : DuplicateResult) : string :=
  "🔍 **Possible Duplicate PR Detected**" ++ newline ++ newline
  ++ "This pull request appears to be similar to #"
  ++ ToString rt (canonical_item r) ++ "." ++ newline ++ newline
  ++ "**Confidence:** " ++ toPercent host (confidence r) ++ "%" ++ newline
  ++ "**Reasoning:** " ++ ToString rt (reasoning r) ++ newline ++ newline
  ++ "Please review to confirm if this is a duplicate.".

(** Lines 42-84: the handling of an [issues] event. *)
Definition handleIssue (client : GitHubClient) (databaseUrl : option string)
    (similarityThreshold maxCandidates : float) (labelDuplicate : string)
    : Act Flow :=
  match payload_issue host with
  | None =>
      note (Base (core_warning "No issue found in payload")) ;;
      done Return
  | Some issuePayload =>
      let action := payload_action host in
      if negb (action_is action "opened") && negb (action_is action "edited")
      then
        note (Base (core_info ("Skipping action: " ++ action_toString action))) ;;
        done Return
      else
        let number := payload_issue_number issuePayload in
        note (Base (core_info ("Processing issue #" ++ Number_toString rt number
                                 ++ ": " ++ payload_issue_title issuePayload))) ;;
        duplicateResult <-
          liftM (detectDuplicates rt w client number (payload_issue_title issuePayload)
                   (match payload_issue_body issuePayload with Some b => b | None => "" end)
                   issue [] maxCandidates similarityThreshold databaseUrl) ;;
        match duplicateResult with
        | Some r =>
            if strictly_equals (classification r) "duplicate" then
              createComment rt sv client number (duplicateIssueComment r) ;;
              addLabels rt sv client number [labelDuplicate] ;;
              note (Base (core_info ("Marked issue #" ++ Number_toString rt number
                                       ++ " as possible duplicate of #"
                                       ++ ToString rt (canonical_item r))))
            else if strictly_equals (classification r) "related" then
              createComment rt sv client number (relatedIssueComment r)
            else
              note (Base (core_info "No duplicates detected"))
        | None => note (Base (core_info "No duplicates detected"))
        end ;;
        done Continue
  end.

(** Lines 145-172: the score of the pull request, computed from the
    review, and the labels pushed after it. *)
Definition reviewFactors (pullRequest : PullRequestPayload) (fileNames : list string)
    : ScoringFactors :=
  pullRequestFactors fileNames (payload_pr_additions pullRequest) (payload_pr_deletions pullRequest)
    (integerValue
       (Z.of_nat (String.length
                    (match payload_pr_body pullRequest with Some b => b | None => "" end)))).

Definition reviewLabels (labelNeedsTests labelHighRisk labelReady : string)
    (reviewResult : PRReviewResult) (score : number) : list string :=
  ((if existsb (String.eqb "tests") (missing_elements reviewResult)
    then [labelNeedsTests] else [])
   ++ (if String.eqb (risk_level reviewResult) "high" then [labelHighRisk] else [])
   ++ (if number_geb score (Num 80) then [labelReady] else []))%list.

(** [core.info] for each line [calculateScore] logs. *)
Fixpoint logScore (lines : list LogEntry) : Act unit :=
  match lines with
  | [] => done tt
  | line :: rest => note (ScoreLog line) ;; logScore rest
  end.

(** Lines 108-129: duplicate detection for a pull request; the labels
    pushed by it. *)
Definition detectDuplicatePullRequest (client : GitHubClient)
    (databaseUrl : option string) (similarityThreshold maxCandidates : float)
    (enableDedupe : bool) (labelDuplicate : string)
    (pullRequest : PullRequestPayload) (fileNames : list string)
    : Act (list string) :=
  let number := payload_pr_number pullRequest in
  let body := match payload_pr_body pullRequest with Some b => b | None => "" end in
  if enableDedupe then
    duplicateResult <-
      liftM (detectDuplicates rt w client number (payload_pr_title pullRequest)
               body pr fileNames maxCandidates similarityThreshold databaseUrl) ;;
    match duplicateResult with
    | Some r =>
        if strictly_equals (classification r) "duplicate" then
          createComment rt sv client number (duplicatePullRequestComment r) ;;
          done [labelDuplicate]
        else done []
    | None => done []
    end
  else done [].

(** Lines 131-177: the review, the score, the labels pushed after them
    onto [labelsToApply], and the review comment. *)
Definition reviewAndScore (client : GitHubClient) (enablePrReview : bool)
    (labelNeedsTests labelHighRisk labelReady : string)
    (pullRequest : PullRequestPayload) (files : list PRFile)
    (labelsToApply : list string) : Act (list string) :=
  let number := payload_pr_number pullRequest in
  let body := match payload_pr_body pullRequest with Some b => b | None => "" end in
  let fileNames := map filename files in
  if enablePrReview then
    reviewResult <-
      reviewPullRequest client number (payload_pr_title pullRequest) body
        (number_or_zero (payload_pr_additions pullRequest))
        (number_or_zero (payload_pr_deletions pullRequest))
        (number_or_zero (payload_pr_changed_files pullRequest)) files ;;
    let scored :=
      calculateScore_logged (reviewFactors pullRequest fileNames)
        (Some reviewResult) in
    logScore (snd scored) ;;
    let labelsToApply :=
      (labelsToApply
         ++ reviewLabels labelNeedsTests labelHighRisk labelReady
              reviewResult (fst scored))%list in
    reviewComment <- (fun t => (formatReviewComment reviewResult, t)) ;;
    createComment rt sv client number reviewComment ;;
    done labelsToApply
  else done labelsToApply.

(** Lines 87-183: the handling of a pull request event. *)
Definition handlePullRequest (client : GitHubClient) (databaseUrl : option string)
    (similarityThreshold maxCandidates : float) (enablePrReview enableDedupe : bool)
    (labelDuplicate labelNeedsTests labelHighRisk labelReady : string)
    : Act Flow :=
  match payload_pull_request host with
  | None =>
      note (Base (core_warning "No pull request found in payload")) ;;
      done Return
  | Some pullRequest =>
      let action := payload_action host in
      if negb (action_is action "opened") && negb (action_is action "synchronize")
      then
        note (Base (core_info ("Skipping action: " ++ action_toString action))) ;;
        done Return
      else
        let number := payload_pr_number pullRequest in
        note (Base (core_info ("Processing PR #" ++ Number_toString rt number
                                 ++ ": " ++ payload_pr_title pullRequest))) ;;
        files <- getPullRequestFiles sv client number ;;
        labelsToApply <-
          detectDuplicatePullRequest client databaseUrl similarityThreshold
            maxCandidates enableDedupe labelDuplicate pullRequest
            (map filename files) ;;
        labelsToApply <-
          reviewAndScore client enablePrReview labelNeedsTests labelHighRisk
            labelReady pullRequest files labelsToApply ;;
        match labelsToApply with
        | [] => done tt
        | _ :: _ => addLabels rt sv client number labelsToApply
        end ;;
        done Continue
  end.

(** [run]. A thrown value is an [Error] here, so the handler reports its
    message. *)
Definition run : Act unit :=
  guard
    (openaiKey <- requiredInput "openai_key" ;;
     githubToken <- requiredInput "github_token" ;;
     let databaseUrl :=
       if String.eqb (getInput host "database_url") "" then None
       else Some (getInput host "database_url") in
     let similarityThreshold :=
       parseFloat host (string_or (getInput host "similarity_threshold") "0.85") in
     let maxCandidates :=
       parseInt rt (string_or (getInput host "max_candidates") "20") in
     let enablePrReview := String.eqb (getInput host "enable_pr_review") "true" in
     let enableDedupe := String.eqb (getInput host "enable_dedupe") "true" in
     let labelDuplicate :=
       string_or (getInput host "label_duplicate") "possible-duplicate" in
     let labelNeedsTests :=
       string_or (getInput host "label_needs_tests") "needs-tests" in
     let labelHighRisk := string_or (getInput host "label_high_risk") "high-risk" in
     let labelReady := string_or (getInput host "label_ready") "ready-for-review" in
     let client := context_repo host in
     match databaseUrl with
     | Some url => db <- getDatabase url ;; initializeDatabase sv db
     | None => done tt
     end ;;
     note (Base (core_info ("Event: " ++ eventName host))) ;;
     flow <-
       (if String.eqb (eventName host) "issues" && enableDedupe
        then handleIssue client databaseUrl similarityThreshold maxCandidates
               labelDuplicate
        else done Continue) ;;
     match flow with
     | Return => done tt
     | Continue =>
         flow <-
           (if String.eqb (eventName host) "pull_request"
               || String.eqb (eventName host) "pull_request_target"
            then handlePullRequest client databaseUrl similarityThreshold
                   maxCandidates enablePrReview enableDedupe labelDuplicate
                   labelNeedsTests labelHighRisk labelReady
            else done Continue) ;;
         match flow with
         | Return => done tt
         | Continue =>
             note (Base (core_info "AI Triage Action completed successfully"))
         end
     end)
    (fun error => note (SetFailed (error_message error))).
End Router.

(** ** prompts.ts: the templates and [String.prototype.replace] *)

Definition doubleQuote : string := String (ascii_of_nat 34) EmptyString.

(** The three templates, line by line as in the source. *)
Definition SUMMARY_PROMPT_text : string :=
  "You are an expert at analyzing GitHub issues and pull requests." ++
    newline ++
  newline ++
  "Given the following content, generate a structured summary in strict JSON format:" ++ newline ++
  newline ++
  "{" ++ newline ++
  "  " ++ doubleQuote ++ "problem_statement" ++ doubleQuote ++ ": " ++
    doubleQuote ++ "Brief description of the problem or change" ++
    doubleQuote ++ "," ++ newline ++
  "  " ++ doubleQuote ++ "scope" ++ doubleQuote ++ ": " ++ doubleQuote ++
    "Scope of the change (e.g., backend, frontend, database)" ++
    doubleQuote ++ "," ++ newline ++
  "  " ++ doubleQuote ++ "key_entities" ++ doubleQuote ++ ": [" ++
    doubleQuote ++ "list" ++ doubleQuote ++ ", " ++ doubleQuote ++ "of" ++
    doubleQuote ++ ", " ++ doubleQuote ++ "relevant" ++ doubleQuote ++
    ", " ++ doubleQuote ++ "entities" ++ doubleQuote ++ "]," ++ newline ++
  "  " ++ doubleQuote ++ "affected_files" ++ doubleQuote ++ ": [" ++
    doubleQuote ++ "list" ++ doubleQuote ++ ", " ++ doubleQuote ++ "of" ++
    doubleQuote ++ ", " ++ doubleQuote ++ "affected" ++ doubleQuote ++
    ", " ++ doubleQuote ++ "file" ++ doubleQuote ++ ", " ++ doubleQuote ++
    "paths" ++ doubleQuote ++ "]" ++ newline ++
  "}" ++ newline ++
  newline ++
  "Content:" ++ newline ++
  "Title: {title}" ++ newline ++
  "Body: {body}" ++ newline ++
  "{files}" ++ newline ++
  newline ++
  "Respond ONLY with valid JSON. No markdown, no explanation.".

Definition DUPLICATE_DETECTION_PROMPT_text : string :=
  "You are an expert at identifying duplicate issues and pull requests." ++
    newline ++
  newline ++
  "Compare the current item with the candidate item and determine if they are duplicates." ++ newline ++
  newline ++
  "Current Item:" ++ newline ++
  "Title: {current_title}" ++ newline ++
  "Summary: {current_summary}" ++ newline ++
  newline ++
  "Candidate Item #{candidate_number}:" ++ newline ++
  "Title: {candidate_title}" ++ newline ++
  "Summary: {candidate_summary}" ++ newline ++
  newline ++
  "Respond in strict JSON format:" ++ newline ++
  "{" ++ newline ++
  "  " ++ doubleQuote ++ "classification" ++ doubleQuote ++ ": " ++
    doubleQuote ++ "duplicate | related | distinct" ++ doubleQuote ++ "," ++
    newline ++
  "  " ++ doubleQuote ++ "confidence" ++ doubleQuote ++ ": 0.0-1.0," ++
    newline ++
  "  " ++ doubleQuote ++ "canonical_item" ++ doubleQuote ++ ": " ++
    doubleQuote ++ "number or null" ++ doubleQuote ++ "," ++ newline ++
  "  " ++ doubleQuote ++ "reasoning" ++ doubleQuote ++ ": " ++ doubleQuote ++
    "brief explanation" ++ doubleQuote ++ newline ++
  "}" ++ newline ++
  newline ++
  "Classification guidelines:" ++ newline ++
  "- " ++ doubleQuote ++ "duplicate" ++ doubleQuote ++
    ": Essentially the same issue/PR" ++ newline ++
  "- " ++ doubleQuote ++ "related" ++ doubleQuote ++
    ": Similar topic but different scope" ++ newline ++
  "- " ++ doubleQuote ++ "distinct" ++ doubleQuote ++
    ": Completely different" ++ newline ++
  newline ++
  "Respond ONLY with valid JSON. No markdown, no explanation.".

Definition PR_REVIEW_PROMPT : string :=
  "You are an expert code reviewer analyzing a pull request." ++ newline ++
  newline ++
  "PR Details:" ++ newline ++
  "Title: {title}" ++ newline ++
  "Description: {description}" ++ newline ++
  "Changed Files: {file_count}" ++ newline ++
  "Additions: {additions}" ++ newline ++
  "Deletions: {deletions}" ++ newline ++
  newline ++
  "Diff Summary:" ++ newline ++
  "{diff_summary}" ++ newline ++
  newline ++
  "Analyze this PR and respond in strict JSON format:" ++ newline ++
  "{" ++ newline ++
  "  " ++ doubleQuote ++ "summary" ++ doubleQuote ++ ": " ++ doubleQuote ++
    "What the PR does in 1-2 sentences" ++ doubleQuote ++ "," ++ newline ++
  "  " ++ doubleQuote ++ "risk_level" ++ doubleQuote ++ ": " ++
    doubleQuote ++ "low | medium | high" ++ doubleQuote ++ "," ++ newline ++
  "  " ++ doubleQuote ++ "missing_elements" ++ doubleQuote ++ ": [" ++
    doubleQuote ++ "tests" ++ doubleQuote ++ ", " ++ doubleQuote ++ "docs" ++
    doubleQuote ++ ", " ++ doubleQuote ++ "benchmarks" ++ doubleQuote ++
    "]," ++ newline ++
  "  " ++ doubleQuote ++ "design_alignment" ++ doubleQuote ++ ": " ++
    doubleQuote ++ "aligned | partially_aligned | misaligned" ++
    doubleQuote ++ "," ++ newline ++
  "  " ++ doubleQuote ++ "readiness_score" ++ doubleQuote ++ ": 0-100" ++
    newline ++
  "}" ++ newline ++
  newline ++
  "Risk Level Guidelines:" ++ newline ++
  "- low: Minor changes, well-tested, no breaking changes" ++ newline ++
  "- medium: Moderate changes, some testing, potential side effects" ++
    newline ++
  "- high: Major changes, missing tests, breaking changes, or core system modifications" ++ newline ++
  newline ++
  "Missing Elements should include any of: tests, docs, benchmarks, migration scripts, security review" ++ newline ++
  newline ++
  "Readiness Score (0-100):" ++ newline ++
  "- 80-100: Ready for review" ++ newline ++
  "- 60-79: Needs minor improvements" ++ newline ++
  "- 40-59: Needs moderate work" ++ newline ++
  "- 0-39: Needs major work" ++ newline ++
  newline ++
  "Respond ONLY with valid JSON. No markdown, no explanation.".

(** [s.substring(n)]. *)
Fixpoint skip (n : nat) (s : string) : string :=
  match n, s with
  | O, _ => s
  | S n', String _ s' => skip n' s'
  | S _, EmptyString => EmptyString
  end.

(** The first occurrence of [pattern] in [s] ([s.indexOf(pattern)]), as
    the text before it and the text after it. *)
Fixpoint splitAtFirst (pattern s : string) : option (string * string) :=
  if hasPrefix pattern s then Some (EmptyString, skip (String.length pattern) s)
  else
    match s with
    | EmptyString => None
    | String c s' =>
        match splitAtFirst pattern s' with
        | Some (before, after) => Some (String c before, after)
        | None => None
        end
    end.

(** [GetSubstitution] of ECMAScript for a match without capture groups:
    in the replacement text, [$$] stands for a dollar sign, [$&] for the
    matched text, [$`] for the text before the match and [$'] for the text
    after it; a dollar sign followed by anything else stands for
    itself. *)
Fixpoint GetSubstitution (matched before after template : string) : string :=
  match template with
  | EmptyString => EmptyString
  | String c rest =>
      if Ascii.eqb c "$" then
        match rest with
        | String d rest' =>
            if Ascii.eqb d "$"
            then String "$" (GetSubstitution matched before after rest')
            else if Ascii.eqb d "&"
            then matched ++ GetSubstitution matched before after rest'
            else if Ascii.eqb d "`"
            then before ++ GetSubstitution matched before after rest'
            else if Ascii.eqb d "'"
            then after ++ GetSubstitution matched before after rest'
            else String c (GetSubstitution matched before after rest)
        | EmptyString => String c EmptyString
        end
      else String c (GetSubstitution matched before after rest)
  end.

(** [s.replace(pattern, replacement)] for a string [pattern]: the first
    occurrence only. *)
Definition String_prototype_replace (s pattern replacement : string) : string :=
  match splitAtFirst pattern s with
  | None => s
  | Some (before, after) =>
      before ++ GetSubstitution pattern before after replacement ++ after
  end.

(** A runtime with the [replace] of JavaScript and the templates of
    [prompts.ts]; the other built-ins are those of [rt]. *)
Definition javascript (rt : Runtime) : Runtime :=
  {| JSON_parse := JSON_parse rt;
     String_replace := String_prototype_replace;
     Number_toString := Number_toString rt;
     parseInt := parseInt rt;
     ToString_object := ToString_object rt;
     SUMMARY_PROMPT := SUMMARY_PROMPT_text;
     DUPLICATE_DETECTION_PROMPT := DUPLICATE_DETECTION_PROMPT_text |}.

(** [formatSummaryPrompt] with the files section of the source,
    [files.join('\n')] over all the files. ([formatSummaryPrompt] above
    joins the files after the first one; the two agree when there is no
    file, and no statement above depends on the text of a prompt.) *)
Definition formatSummaryPromptWithFiles (rt : Runtime) (title body : string)
    (files : option (list string)) : string :=
  let filesSection :=
    match files with
    | Some (file :: rest) =>
        newline ++ "Affected Files:" ++ newline
        ++ String.concat newline (file :: rest)
    | _ => ""
    end in
  String_replace rt
    (String_replace rt
       (String_replace rt (SUMMARY_PROMPT rt) "{title}" title)
       "{body}" (string_or body "No description provided"))
    "{files}" filesSection.

Definition formatReviewPrompt (rt : Runtime) (title description : string)
    (fileCount additions deletions : float) (diffSummary : string) : string :=
  String_replace rt
    (String_replace rt
       (String_replace rt
          (String_replace rt
             (String_replace rt
                (String_replace rt PR_REVIEW_PROMPT "{title}" title)
                "{description}" (string_or description "No description provided"))
             "{file_count}" (Number_toString rt fileCount))
          "{additions}" (Number_toString rt additions))
       "{deletions}" (Number_toString rt deletions))
    "{diff_summary}" diffSummary.

(** ** Vocabulary of the further statements *)

(** The order of binary64 values other than NaN, by a key compared
    lexicographically: the class and sign, then the exponent, then the
    mantissa. *)
Definition floatKey (x : spec_float) : Z * Z * Z :=
  match x with
  | S754_nan | S754_zero _ => (0, 0, 0)
  | S754_infinity false => (2, 0, 0)
  | S754_infinity true => (-2, 0, 0)
  | S754_finite false m e => (1, e, Z.pos m)
  | S754_finite true m e => (-1, - e, Z.neg m)
  end.

Definition keyLt (a b : Z * Z * Z) : Prop :=
  let '(a1, a2, a3) := a in
  let '(b1, b2, b3) := b in
  a1 < b1 \/ (a1 = b1 /\ (a2 < b2 \/ (a2 = b2 /\ a3 < b3))).

(** Record updates for the remaining factors. *)
Definition set_ciPassing (v : option bool) (f : ScoringFactors) : ScoringFactors :=
  {| ciPassing := v; testsAdded := testsAdded f; diffSize := diffSize f;
     descriptionLength := descriptionLength f;
     highRiskModules := highRiskModules f; hasTests := hasTests f |}.

Definition set_highRiskModules (v : option bool) (f : ScoringFactors)
    : ScoringFactors :=
  {| ciPassing := ciPassing f; testsAdded := testsAdded f; diffSize := diffSize f;
     descriptionLength := descriptionLength f;
     highRiskModules := v; hasTests := hasTests f |}.

Definition set_descriptionLength (d : float) (f : ScoringFactors)
    : ScoringFactors :=
  {| ciPassing := ciPassing f; testsAdded := testsAdded f; diffSize := diffSize f;
     descriptionLength := d;
     highRiskModules := highRiskModules f; hasTests := hasTests f |}.

(** The keywords [detectHighRiskModules] looks for. *)
Definition highRiskKeywords : list string :=
  ["auth"; "security"; "payment"; "billing"; "database"; "migration";
   "schema"; "config"; "env"; "deployment"; "infra"].

Definition number_eqb (a b : number) : bool :=
  match a, b with
  | NaN, NaN | NegInfinity, NegInfinity | Infinity, Infinity => true
  | Num x, Num y => x =? y
  | _, _ => false
  end.

(** The number a logged line names: the signed integer after ["Score "]
    in a static line (0 when there is none), the adjustment or the score
    of the two interpolated lines. *)
Fixpoint digitsValue (s : string) (acc : Z) : Z :=
  match s with
  | String c rest =>
      let n := Z.of_nat (nat_of_ascii c) in
      if (48 <=? n) && (n <=? 57) then digitsValue rest (10 * acc + (n - 48))
      else acc
  | EmptyString => acc
  end.

Definition signedValue (s : string) : Z :=
  match s with
  | String "+" rest => digitsValue rest 0
  | String "-" rest => - digitsValue rest 0
  | _ => 0
  end.

Definition lineValue (line : LogEntry) : number :=
  match line with
  | info message =>
      if hasPrefix "Score " message
      then Num (signedValue (String.substring 6 (String.length message - 6) message))
      else Num 0
  | info_adjustment adjustment => adjustment
  | info_final _ => Num 0
  end.

(** The sum of the numbers named by a list of lines, from a start value. *)
Definition sumLines (start : number) (lines : list LogEntry) : number :=
  fold_left (fun acc line => number_add acc (lineValue line)) lines start.

(** Kinds of events, and how many events of a kind a list holds. *)
Definition isDatabaseCall (ev : Event) : bool :=
  match ev with
  | DbUpsert _ _ _ _ _ _ | DbSelect _ _ _ _ => true
  | _ => false
  end.

Definition isListingCall (ev : Event) : bool :=
  match ev with
  | IssuesListForRepo _ | PullsList _ => true
  | _ => false
  end.

Definition isOpenAICall (ev : Event) : bool :=
  match ev with
  | ChatCreate _ _ | EmbeddingsCreate _ => true
  | _ => false
  end.

Definition countEvents (p : Event -> bool) (h : History) : nat :=
  List.length (filter p h).

(** [costs p n m]: whatever the history, [m] only adds events to it, and
    at most [n] of the added events satisfy [p]. *)
Definition costs {A} (p : Event -> bool) (n : nat) (m : M A) : Prop :=
  forall h, exists new,
    snd (m h) = (new ++ h)%list /\ (countEvents p new <= n)%nat.

(** The part of [detectDuplicates] between the embedding of the current
    item and the sort: the candidates of the selected mode. *)
Definition gatherCandidates (rt : Runtime) (w : World) (client : GitHubClient)
    (itemNumber : float) (itemTitle : string) (itemType : ItemType)
    (maxCandidates similarityThreshold : float) (databaseUrl : option string)
    (currentSummary : ItemSummary) (currentEmbedding : list float)
    : M (list Candidate) :=
  (if stateful databaseUrl then
     emit (core_info "Using stateful mode (database)") ;;
     storeSimilarityItem w (repoKey client) (Number_toString rt itemNumber)
       itemType itemTitle (ToString rt (problem_statement currentSummary))
       currentEmbedding ;;
     similarItems <- findSimilarItems rt w currentEmbedding (repoKey client)
                       itemType maxCandidates ;;
     ret (map (fun item =>
                 {| cand_number := parseInt rt (si_github_id item);
                    cand_title := si_title item;
                    cand_summary := JStr (si_summary item);
                    cand_similarity := number_or_zero (si_similarity item) |})
              (filter (fun item =>
                         negb (String.eqb (si_github_id item)
                                 (Number_toString rt itemNumber)))
                      similarItems))
   else
     emit (core_info "Using stateless mode (GitHub API)") ;;
     items <- (match itemType with
               | issue => getRecentIssues w client maxCandidates
               | pr => getRecentPullRequests w client maxCandidates
               end) ;;
     scanItems rt w currentEmbedding itemNumber similarityThreshold items [])%monad.

(** What a kept candidate of the stateless scan satisfies. *)
Definition keptCandidate (itemNumber similarityThreshold : float)
    (items : list Item) (c : Candidate) : Prop :=
  PrimFloat.leb similarityThreshold (cand_similarity c) = true /\
  cand_similarity c <> nan /\
  PrimFloat.eqb (cand_number c) itemNumber = false /\
  exists item, In item items /\ cand_number c = item_number item
                /\ cand_title c = item_title item.

(** The fetched items the stateless scan does not skip. *)
Definition otherItems (itemNumber : float) (items : list Item) : list Item :=
  filter (fun item => negb (PrimFloat.eqb (item_number item) itemNumber)) items.

(** A bound on the number of entries a listing request returns. *)
Definition listingBounded (w : World) (bound : nat) : Prop :=
  forall h,
    match issues_listForRepo w h with
    | Ok data => (List.length data <= bound)%nat
    | Throw _ => True
    end /\
    match pulls_list w h with
    | Ok data => (List.length data <= bound)%nat
    | Throw _ => True
    end.

(** A world whose database holds one earlier issue, number 12, returned
    by every similarity query with similarity 0.25. *)
Definition storedWorld : World :=
  {| chat_completions_create := fun _ => Ok [Some "{}"];
     embeddings_create := fun _ => Ok [[1%float; 0%float]];
     issues_listForRepo := fun _ => Ok [];
     pulls_list := fun _ => Ok [];
     db_upsert := fun _ => Ok tt;
     db_select := fun _ =>
       Ok [ {| row_github_id := "12";
               row_title := "Safari login broken";
               row_summary := "Login does not work in Safari";
               row_embedding := JArr [JNum 1%float; JNum 0%float];
               row_similarity := Some 0.25%float |} ] |}.

(** The label requests among the effects [t], oldest first: the names
    looked up, the labels created, and the label lists attached. *)
Definition lookedUp (t : Trace) : list string :=
  flat_map (fun ev => match ev with IssuesGetLabel name => [name] | _ => [] end)
           (rev t).

Definition createdLabels (t : Trace) : list (string * LabelColor) :=
  flat_map (fun ev => match ev with
                      | IssuesCreateLabel name color => [(name, color)]
                      | _ => []
                      end)
           (rev t).

Definition attached (t : Trace) : list (float * list string) :=
  flat_map (fun ev => match ev with
                      | IssuesAddLabels issue_number labels => [(issue_number, labels)]
                      | _ => []
                      end)
           (rev t).




(** A service record in which every request succeeds, except that the
    label [missing] does not exist yet. *)
Definition labelMissing (missing : string) : Services :=
  {| search_issuesAndPullRequests := fun _ => Ok [];
     pulls_get := fun _ => Throw networkError;
     pulls_listFiles := fun _ => Ok [];
     issues_createComment := fun _ => Ok tt;
     issues_getLabel := fun t =>
       match t with
       | IssuesGetLabel name :: _ =>
           if String.eqb name missing then Throw (Error "Not Found") else Ok tt
       | _ => Ok tt
       end;
     issues_createLabel := fun _ => Ok tt;
     issues_addLabels := fun _ => Ok tt;
     pool_connect := fun _ => Ok tt;
     client_query := fun t =>
       match t with
       | ClientQuery CreateTable :: _ => Throw (Error "permission denied")
       | _ => Ok tt
       end;
     client_release := fun _ => Ok tt;
     pool_end := fun _ => Ok tt |}.



(** ** Vocabulary of the statements about [run] *)




(** The comments posted among the effects [t], oldest first. *)
Definition commented (t : Trace) : list (float * string) :=
  flat_map (fun ev => match ev with
                      | IssuesCreateComment issue_number body => [(issue_number, body)]
                      | _ => []
                      end)
           (rev t).

(** A workflow run for an [issues] event: issue 7 was opened; the two
    keys are supplied and duplicate detection is enabled. *)
Definition issueOpened : Host :=
  {| input := fun name =>
       if String.eqb name "openai_key" then "sk-test"
       else if String.eqb name "github_token" then "ghs-test"
       else if String.eqb name "enable_dedupe" then "true"
       else "";
     String_trim := fun s => s;
     eventName := "issues";
     payload_action := Some "opened";
     payload_issue := Some {| payload_issue_number := 7%float;
                              payload_issue_title := "Login fails on Safari";
                              payload_issue_body := Some "Safari users cannot log in" |};
     payload_pull_request := None;
     context_repo := scenarioClient;
     parseFloat := fun _ => 0.5%float;
     toPercent := fun _ => "0" |}.


Definition withInput (changed value : string) (host : Host) : Host :=
  {| input := fun name =>
       if String.eqb name changed then value else input host name;
     String_trim := String_trim host;
     eventName := eventName host;
     payload_action := payload_action host;
     payload_issue := payload_issue host;
     payload_pull_request := payload_pull_request host;
     context_repo := context_repo host;
     parseFloat := parseFloat host;
     toPercent := toPercent host |}.

(** Services whose database cannot be reached. *)
Definition databaseDown : Services :=
  {| search_issuesAndPullRequests := fun _ => Ok [];
     pulls_get := fun _ => Throw networkError;
     pulls_listFiles := fun _ => Ok [];
     issues_createComment := fun _ => Ok tt;
     issues_getLabel := fun _ => Ok tt;
     issues_createLabel := fun _ => Ok tt;
     issues_addLabels := fun _ => Ok tt;
     pool_connect := fun _ => Throw (Error "connect ECONNREFUSED");
     client_query := fun _ => Ok tt;
     client_release := fun _ => Ok tt;
     pool_end := fun _ => Ok tt |}.

(** [adds p m]: whatever the trace, [m] only adds effects to it, and none
    of the added effects satisfies [p]. *)
Definition adds {A} (p : Effect -> bool) (m : Act A) : Prop :=
  forall t, exists new, snd (m t) = (new ++ t)%list /\ filter p new = [].

(** The comments and the attached labels are the writes of a run. *)
Definition isWrite (ev : Effect) : bool :=
  match ev with
  | IssuesCreateComment _ _ | IssuesAddLabels _ _ => true
  | _ => false
  end.

(** What [run] writes when the review step does not run: at most one
    comment; and either no label, or the duplicate label attached to the
    item on which the one comment was posted, the request for that
    comment having succeeded. *)
Definition duplicateWritesOnly (sv : Services) (labelDuplicate : string)
    (new : Trace) : Prop :=
  (List.length (commented new) <= 1)%nat /\
  (attached new = [] \/
   exists number body t',
     attached new = [(number, [labelDuplicate])] /\
     commented new = [(number, body)] /\
     issues_createComment sv (IssuesCreateComment number body :: t') = Ok tt).

(** A review step that fails, and a run in which it is disabled. *)
Definition noReview : GitHubClient -> float -> string -> string -> float ->
    float -> float -> list PRFile -> Act PRReviewResult :=
  fun _ _ _ _ _ _ _ _ => raise (Error "review is disabled").

(** A world whose embeddings are all [(1, 0)], whose listing holds issue
    12, and whose chat completions classify every pair as a duplicate of
    it; and a runtime that parses that answer. *)
Definition duplicateAnswer : JSValue :=
  JObj [("classification", JStr "duplicate"); ("confidence", JNum 0.5%float);
        ("canonical_item", JNum 12%float); ("reasoning", JStr "Same report")].

Definition parsingRuntime : Runtime :=
  {| JSON_parse := fun _ => Ok duplicateAnswer;
     String_replace := fun s _ _ => s;
     Number_toString := fun _ => "7";
     parseInt := fun _ => 20%float;
     ToString_object := fun _ => "12";
     SUMMARY_PROMPT := "{title} {body} {files}";
     DUPLICATE_DETECTION_PROMPT := "{current_title} {candidate_title}" |}.

Definition duplicateWorld : World :=
  {| chat_completions_create := fun _ => Ok [Some "{}"];
     embeddings_create := fun _ => Ok [[1%float; 0%float]];
     issues_listForRepo := fun _ =>
       Ok [ {| api_number := 12%float;
               api_title := "Safari login broken";
               api_body := Some "Login does not work in Safari";
               api_pull_request := false |} ];
     pulls_list := fun _ => Ok [];
     db_upsert := fun _ => Ok tt;
     db_select := fun _ => Ok [] |}.

(** [writesOnly sv label m]: [m] only adds effects, and what it adds
    obeys [duplicateWritesOnly]. *)
Definition writesOnly {A} (sv : Services) (labelDuplicate : string)
    (m : Act A) : Prop :=
  forall t, exists r new,
    m t = (r, (new ++ t)%list) /\ duplicateWritesOnly sv labelDuplicate new.







(** ** Vocabulary of the statements about the prompts *)

(** [avoids c s]: the character [c] does not occur in [s]. A plain text
    holds no dollar sign and no opening brace. *)
Fixpoint avoids (c : ascii) (s : string) : bool :=
  match s with
  | EmptyString => true
  | String d s' => negb (Ascii.eqb c d) && avoids c s'
  end.

Definition plain (s : string) : bool := avoids "$" s && avoids "{" s.

(** The template with its placeholders filled in one pass from left to
    right: each placeholder is looked for after the previous one, and a
    value that was put in is not looked at again. *)
Fixpoint fill (template : string) (bindings : list (string * string)) : string :=
  match bindings with
  | [] => template
  | (placeholder, value) :: rest =>
      match splitAtFirst placeholder template with
      | Some (before, after) => before ++ value ++ fill after rest
      | None => fill template rest
      end
  end.

(** [clearb placeholder s]: no occurrence of [placeholder] can start
    inside [s], whatever follows [s]. *)
Fixpoint clearb (placeholder s : string) : bool :=
  match s with
  | EmptyString => true
  | String _ s' =>
      negb (hasPrefix placeholder s || hasPrefix s placeholder)
      && clearb placeholder s'
  end.

(** [fillable template placeholders]: the placeholders start with a brace
    and occur in the template in this order, and no later placeholder can
    start inside the text before an earlier one. *)
Fixpoint fillable (template : string) (placeholders : list string) : bool :=
  match placeholders with
  | [] => true
  | placeholder :: rest =>
      hasPrefix "{" placeholder
      && match splitAtFirst placeholder template with
         | Some (before, after) =>
             forallb (fun later => hasPrefix "{" later && clearb later before) rest
             && fillable after rest
         | None => false
         end
  end.

(** The text before and after the first occurrence of a placeholder. *)
Definition beforeFirst (placeholder template : string) : string :=
  match splitAtFirst placeholder template with
  | Some (before, _) => before
  | None => template
  end.

Definition afterFirst (placeholder template : string) : string :=
  match splitAtFirst placeholder template with
  | Some (_, after) => after
  | None => EmptyString
  end.

(** [filesSection] of [formatSummaryPrompt]. *)
Definition filesSection (files : list string) : string :=
  match files with
  | [] => EmptyString
  | _ :: _ => newline ++ "Affected Files:" ++ newline ++ String.concat newline files
  end.

(** [clearOf placeholder s]: the search for [placeholder] passes over [s],
    whatever follows it. *)
Definition clearOf (placeholder s : string) : Prop :=
  forall rest,
    splitAtFirst placeholder (s ++ rest) =
    match splitAtFirst placeholder rest with
    | Some (before, after) => Some (s ++ before, after)
    | None => None
    end.

(** [s.replace(p1, v1).replace(p2, v2)...]. *)
Definition replaceAll (s : string) (bindings : list (string * string)) : string :=
  fold_left (fun s binding => String_prototype_replace s (fst binding) (snd binding))
            bindings s.

(* ================================================================= *)
(** * Properties of the scorer *)

Lemma fst_when_bump c d message st :
  fst (when c (bump d message) st) =
  number_add (fst st) (Num (if c then d else 0)).
Proof.
  destruct c; simpl; [reflexivity|].
  destruct (fst st); simpl; try reflexivity. f_equal. lia.
Qed.

Lemma accumulateScore_fst f r :
  fst (accumulateScore f r) =
  match r with
  | Some rr => number_add (Num (staticScore f)) (llmAdjustment rr)
  | None => Num (staticScore f)
  end.
Proof.
  assert (H : forall st, fst (match r with
                              | Some rr =>
                                  (number_add (fst st) (llmAdjustment rr),
                                   (snd st ++ [info_adjustment (llmAdjustment rr)])%list)
                              | None => st
                              end)
                         = match r with
                           | Some rr => number_add (fst st) (llmAdjustment rr)
                           | None => fst st
                           end)
    by (intros st; destruct r; reflexivity).
  unfold accumulateScore. rewrite H, !fst_when_bump. unfold staticScore.
  cbv [fst number_add].
  destruct (flag_set (ciPassing f)), (flag_set (testsAdded f)),
    (PrimFloat.ltb (diffSize f) 300), (PrimFloat.ltb 300 (descriptionLength f)),
    (flag_set (highRiskModules f)), (flag_set (hasTests f)),
    (PrimFloat.ltb 1000 (diffSize f)); destruct r; reflexivity.
Qed.

Lemma calculateScore_clamp f r :
  calculateScore f r = clamp (fst (accumulateScore f r)).
Proof. reflexivity. Qed.

Lemma clamp_Num (x : Z) : clamp (Num x) = Num (Z.max 0 (Z.min 100 x)).
Proof.
  unfold clamp, Math_max, Math_min. simpl.
  destruct (Z.ltb_spec x 100); simpl.
  - destruct (Z.ltb_spec 0 x); f_equal; lia.
  - f_equal; lia.
Qed.

Lemma number_le_Num (x y : Z) : x <= y -> number_le (Num x) (Num y).
Proof.
  intros H. destruct (Z.eq_dec x y) as [->|Hne]; [left; reflexivity|].
  right. simpl. apply Z.ltb_lt. lia.
Qed.

Lemma clamp_mono_static (a b : Z) (adj : number) :
  a <= b ->
  number_le (clamp (number_add (Num a) adj)) (clamp (number_add (Num b) adj)).
Proof.
  intros Hab. destruct adj as [| |z|]; simpl; try (left; reflexivity).
  rewrite !clamp_Num. apply number_le_Num. lia.
Qed.

Lemma clamp_mono_none (a b : Z) :
  a <= b -> number_le (clamp (Num a)) (clamp (Num b)).
Proof. intros Hab. rewrite !clamp_Num. apply number_le_Num. lia. Qed.

Lemma calculateScore_mono_static f f' r :
  staticScore f <= staticScore f' ->
  number_le (calculateScore f r) (calculateScore f' r).
Proof.
  intros H. rewrite !calculateScore_clamp, !accumulateScore_fst.
  destruct r; [apply clamp_mono_static | apply clamp_mono_none]; exact H.
Qed.

(** Comparisons of a double with the constants of the scorer. *)
Lemma above_1000_not_below_300 d :
  PrimFloat.ltb 1000%float d = true -> PrimFloat.ltb d 300%float = false.
Proof.
  rewrite !ltb_spec.
  change (Prim2SF 1000%float) with (S754_finite false 8796093022208000 (-43)).
  change (Prim2SF 300%float) with (S754_finite false 5277655813324800 (-44)).
  unfold SFltb, SFcompare.
  destruct (Prim2SF d) as [s|s| |s m e]; try destruct s;
    try discriminate; try reflexivity.
  destruct (Z.compare_spec (-43) e) as [<-|Hlt|Hgt]; intros H;
    try discriminate H.
  - reflexivity.
  - destruct (Z.compare_spec e (-44)); try lia; reflexivity.
Qed.

(** ** NaN through the LLM adjustment *)

Lemma shr_1_nonneg mrs : 0 <= shr_m mrs -> 0 <= shr_m (shr_1 mrs).
Proof.
  destruct mrs as [m r s]. simpl.
  destruct m as [|p|p]; [| destruct p | ]; simpl; lia.
Qed.

Lemma iter_shr_1_nonneg p : forall mrs,
  0 <= shr_m mrs -> 0 <= shr_m (SpecFloat.iter_pos shr_1 p mrs).
Proof.
  induction p as [p IH|p IH|]; intros mrs H; simpl.
  - apply IH, IH, shr_1_nonneg, H.
  - apply IH, IH, H.
  - apply shr_1_nonneg, H.
Qed.

Lemma shr_fexp_nonneg pr em m e l :
  0 <= m -> 0 <= shr_m (fst (shr_fexp pr em m e l)).
Proof.
  intros H. unfold shr_fexp, shr.
  assert (H0 : 0 <= shr_m (shr_record_of_loc m l))
    by (destruct l as [|[]]; simpl; exact H).
  destruct (fexp pr em (Zdigits2 m + e) - e); simpl; auto.
  apply iter_shr_1_nonneg, H0.
Qed.

Lemma round_nearest_even_nonneg m l : 0 <= m -> 0 <= round_nearest_even m l.
Proof.
  intros H. unfold round_nearest_even.
  destruct l as [|[]]; try destruct (Z.even m); lia.
Qed.

Lemma binary_round_aux_not_nan pr em sx mx ex lx :
  0 <= mx -> binary_round_aux pr em sx mx ex lx <> S754_nan.
Proof.
  intros H. unfold binary_round_aux.
  pose proof (shr_fexp_nonneg pr em mx ex lx H) as H1.
  destruct (shr_fexp pr em mx ex lx) as [mrs' e']. simpl in H1.
  pose proof (shr_fexp_nonneg pr em _ e' loc_Exact
                (round_nearest_even_nonneg _ (loc_of_shr_record mrs') H1)) as H2.
  destruct (shr_fexp pr em (round_nearest_even (shr_m mrs') (loc_of_shr_record mrs'))
              e' loc_Exact) as [mrs'' e''].
  simpl in H2. destruct (shr_m mrs''); try lia; try discriminate.
  destruct (e'' <=? em - pr); discriminate.
Qed.

Lemma binary_normalize_not_nan pr em m e sz :
  binary_normalize pr em m e sz <> S754_nan.
Proof.
  unfold binary_normalize, binary_round.
  destruct m as [|p|p]; try discriminate;
    destruct (shl_align _ _ _) as [mz ez];
    apply binary_round_aux_not_nan; lia.
Qed.

Lemma Prim2SF_nan_iff x : Prim2SF x = S754_nan <-> x = nan.
Proof.
  split; intros H.
  - rewrite <- (SF2Prim_Prim2SF x), H. reflexivity.
  - subst x. reflexivity.
Qed.

Lemma sub_finite_nan x sy my ey :
  SFsub prec emax x (S754_finite sy my ey) = S754_nan -> x = S754_nan.
Proof.
  destruct x as [s|s| |s m e]; simpl; auto; try discriminate.
  intros H. exfalso. revert H. apply binary_normalize_not_nan.
Qed.

Lemma mul_finite_nan x sy my ey :
  SFmul prec emax x (S754_finite sy my ey) = S754_nan -> x = S754_nan.
Proof.
  destruct x as [s|s| |s m e]; simpl; auto; try discriminate.
  intros H. exfalso. revert H. apply binary_round_aux_not_nan. lia.
Qed.

Lemma Math_round_nan x : Math_round x = NaN <-> x = nan.
Proof.
  rewrite <- Prim2SF_nan_iff. unfold Math_round.
  destruct (Prim2SF x) as [s|s| |s m e]; try destruct s;
    try destruct (0 <=? e); split; intros H; try discriminate; reflexivity.
Qed.

Lemma llmAdjustment_nan r :
  llmAdjustment r = NaN <-> readiness_score r = nan.
Proof.
  unfold llmAdjustment. rewrite Math_round_nan. split; intros H.
  - apply Prim2SF_nan_iff in H. rewrite mul_spec in H.
    change (Prim2SF 0x1.3333333333333p-2%float)
      with (S754_finite false 5404319552844595 (-54)) in H.
    apply mul_finite_nan in H. rewrite sub_spec in H.
    change (Prim2SF 50%float) with (S754_finite false 7036874417766400 (-47)) in H.
    apply sub_finite_nan in H. apply Prim2SF_nan_iff, H.
  - rewrite H. reflexivity.
Qed.

(** ** Substring matching *)

Lemma hasPrefix_spec p : forall s,
  hasPrefix p s = true <-> exists suf, s = p ++ suf.
Proof.
  induction p as [|c p IH]; intros s; simpl.
  - split; [intros _; exists s; reflexivity | reflexivity].
  - destruct s as [|d s].
    + split; [discriminate | intros [suf H]; discriminate].
    + rewrite andb_true_iff, Ascii.eqb_eq, IH. split.
      * intros [-> [suf ->]]. exists suf. reflexivity.
      * intros [suf H]. injection H as -> ->. split; [reflexivity | eauto].
Qed.

Lemma includes_spec p : forall s, includes p s = true <-> occurs p s.
Proof.
  unfold occurs. induction s as [|d s IH]; simpl.
  - rewrite orb_false_r, hasPrefix_spec. split.
    + intros [suf H]. exists "", suf. exact H.
    + intros [pre [suf H]]. destruct pre; [eauto | discriminate].
  - rewrite orb_true_iff, hasPrefix_spec, IH. split.
    + intros [[suf H] | [pre [suf H]]].
      * exists "", suf. exact H.
      * exists (String d pre), suf. simpl. rewrite H. reflexivity.
    + intros [pre [suf H]]. destruct pre as [|c pre].
      * left. exists suf. exact H.
      * right. simpl in H. injection H as _ H. eauto.
Qed.

Lemma anyPattern_spec patterns file :
  anyPattern patterns file = true <->
  exists pattern, In pattern patterns /\ RegExp_test pattern file = true.
Proof.
  induction patterns as [|p ps IH]; simpl.
  - split; [discriminate | intros [? [[] _]]].
  - destruct (RegExp_test p file) eqn:E.
    + split; [intros _; exists p; auto | reflexivity].
    + rewrite IH. split.
      * intros [q [Hq Ht]]. exists q. auto.
      * intros [q [[<-|Hq] Ht]]; [congruence | eauto].
Qed.

Lemma anyFile_spec patterns files :
  anyFile patterns files = true <->
  exists file, In file files /\ anyPattern patterns file = true.
Proof.
  induction files as [|f fs IH]; simpl.
  - split; [discriminate | intros [? [[] _]]].
  - destruct (anyPattern patterns f) eqn:E.
    + split; [intros _; exists f; auto | reflexivity].
    + rewrite IH. split.
      * intros [g [Hg Ht]]. exists g. auto.
      * intros [g [[<-|Hg] Ht]]; [congruence | eauto].
Qed.

Lemma detectTests_spec files :
  detectTests files = true <->
  exists file marker,
    In file files /\ In marker testMarkers /\ occurs marker file.
Proof.
  unfold detectTests. rewrite anyFile_spec. split.
  - intros [file [Hin H]]. apply anyPattern_spec in H.
    destruct H as [pattern [Hp Ht]]. unfold testPatterns in Hp.
    apply in_map_iff in Hp. destruct Hp as [marker [<- Hm]].
    unfold RegExp_test in Ht. simpl in Ht. apply includes_spec in Ht.
    exists file, marker. auto.
  - intros [file [marker [Hin [Hm Ho]]]]. exists file. split; [exact Hin|].
    apply anyPattern_spec. exists (mkRegExp marker false). split.
    + unfold testPatterns. apply in_map_iff. exists marker. auto.
    + unfold RegExp_test. simpl. apply includes_spec, Ho.
Qed.

Lemma snd_when_bump c d message st :
  snd (when c (bump d message) st) =
  (snd st ++ (if c then [info message] else []))%list.
Proof. destruct c; simpl; [reflexivity | symmetry; apply app_nil_r]. Qed.

Lemma in_optional_line (line message : string) (c : bool) :
  In (info line) (if c then [info message] else []) <->
  c = true /\ message = line.
Proof.
  destruct c; simpl.
  - split.
    + intros [H | []]. injection H as ->. auto.
    + intros [_ ->]. auto.
  - split; [contradiction | intros [H _]; discriminate H].
Qed.

Lemma accumulateScore_snd f r :
  snd (accumulateScore f r) = (staticLines f ++ adjustmentLine r)%list.
Proof.
  unfold accumulateScore. cbv zeta.
  match goal with
  | |- snd match r with Some _ => _ | None => ?st end = _ =>
      remember st as st0 eqn:Est
  end.
  assert (H : snd st0 = staticLines f).
  { subst st0. rewrite !snd_when_bump. unfold staticLines, optionalLine.
    cbn [snd app]. rewrite <- !app_assoc. reflexivity. }
  destruct r; simpl; rewrite H; [reflexivity | symmetry; apply app_nil_r].
Qed.

Lemma noTestsLine_logged f r :
  In noTestsLine (snd (calculateScore_logged f r)) <->
  flag_set (hasTests f) = false.
Proof.
  unfold calculateScore_logged, noTestsLine. cbv zeta. cbn [snd].
  rewrite accumulateScore_snd. unfold staticLines, optionalLine.
  rewrite !in_app_iff, !in_optional_line.
  split.
  - intros [[H | H] | H].
    + repeat (destruct H as [H | H]); try contradiction;
        destruct H as [H1 H2]; try discriminate H2.
      apply negb_true_iff, H1.
    + destruct r; [destruct H as [H | []]; discriminate H | contradiction].
    + destruct H as [H | []]. discriminate H.
  - intros H. left. left. do 5 right. left. split; [rewrite H|]; reflexivity.
Qed.

(** ** The test-path predicate as the specification words it *)

Lemma string_app_assoc (a b c : string) : (a ++ b) ++ c = a ++ b ++ c.
Proof. induction a as [|x a IH]; simpl; [reflexivity | rewrite IH; reflexivity]. Qed.

Lemma occurs_cons c p s : occurs p s -> occurs p (String c s).
Proof.
  intros [pre [suf ->]]. exists (String c pre), suf. reflexivity.
Qed.

Lemma splitSlash_nonempty s : splitSlash s <> [].
Proof.
  destruct s as [|c s]; simpl; [discriminate|].
  destruct (Ascii.eqb c "/"); [discriminate|].
  destruct (splitSlash s); discriminate.
Qed.

Lemma splitSlash_head s : forall seg next rest,
  splitSlash s = seg :: next :: rest -> exists t, s = seg ++ "/" ++ t.
Proof.
  induction s as [|c s IH]; intros seg next rest H; simpl in H.
  - discriminate.
  - destruct (Ascii.eqb c "/") eqn:E.
    + apply Ascii.eqb_eq in E. subst c. injection H as <- _.
      exists s. reflexivity.
    + destruct (splitSlash s) as [|seg0 l] eqn:Es; [discriminate|].
      injection H as <- ->.
      destruct (IH seg0 next rest eq_refl) as [t ->].
      exists t. reflexivity.
Qed.

Lemma directorySegment_occurs s : forall seg,
  In seg (directorySegments s) -> occurs (seg ++ "/") s.
Proof.
  unfold directorySegments.
  induction s as [|c s IH]; intros seg H; simpl in H.
  - contradiction.
  - destruct (Ascii.eqb c "/") eqn:E.
    + apply Ascii.eqb_eq in E. subst c.
      destruct (splitSlash s) as [|x l] eqn:Es;
        [exfalso; exact (splitSlash_nonempty s Es)|].
      destruct H as [<- | H].
      * exists "", s. reflexivity.
      * apply occurs_cons, IH. exact H.
    + destruct (splitSlash s) as [|seg0 l] eqn:Es;
        [exfalso; exact (splitSlash_nonempty s Es)|].
      destruct l as [|next rest]; [contradiction|].
      destruct H as [<- | H].
      * destruct (splitSlash_head s seg0 next rest Es) as [t ->].
        exists "", t. simpl. rewrite string_app_assoc. reflexivity.
      * apply occurs_cons, IH. simpl. right. exact H.
Qed.

Lemma spec_testLikePath_detected file :
  spec_testLikePath file = true -> anyPattern testPatterns file = true.
Proof.
  unfold spec_testLikePath. rewrite !orb_true_iff, existsb_exists.
  intros H. apply anyPattern_spec.
  assert (Hm : forall marker, In marker testMarkers -> occurs marker file ->
               exists pattern, In pattern testPatterns
                               /\ RegExp_test pattern file = true).
  { intros marker Hin Ho. exists (mkRegExp marker false). split.
    - unfold testPatterns. apply in_map_iff. exists marker. auto.
    - unfold RegExp_test. simpl. apply includes_spec, Ho. }
  destruct H as [[H | H] | [seg [Hin Hs]]].
  - apply (Hm ".test."); [simpl; auto | apply includes_spec, H].
  - apply (Hm ".spec."); [simpl; auto | apply includes_spec, H].
  - apply directorySegment_occurs in Hin.
    rewrite !orb_true_iff, !String.eqb_eq in Hs.
    destruct Hs as [[-> | ->] | ->].
    + apply (Hm "test/"); [simpl; auto 7 | exact Hin].
    + apply (Hm "tests/"); [simpl; auto 7 | exact Hin].
    + apply (Hm "spec/"); [simpl; auto 7 | exact Hin].
Qed.

(** ** Claims about the scorer *)

(** C2, as stated, fails: with [diffSize = 0], [descriptionLength = 0],
    every flag false and no review result, [calculateScore] does not
    return 30. *)
Lemma calculateScore_empty_not_30 :
  calculateScore emptyFactors None <> Num 30.
Proof. vm_compute. discriminate. Qed.

(** C2, amended: with [diffSize = 0], [descriptionLength = 0], every flag
    false and no review result, [calculateScore] returns 40: the base 50,
    plus 10 because a diff of 0 lines is below 300, minus 20 for the
    missing tests; and it logs exactly these two terms and the final
    score. *)
Theorem calculateScore_empty_is_40 :
  calculateScore emptyFactors None = Num 40 /\
  snd (calculateScore_logged emptyFactors None) =
    [info "Score +10: Small diff (< 300 lines)"; info "Score -20: No tests";
     info_final (Num 40)].
Proof. split; vm_compute; reflexivity. Qed.

(** C3, as stated, fails: with a review result whose readiness score is
    NaN the result is NaN, which is not in [0, 100]. *)
Lemma calculateScore_nan_review_not_clamped :
  calculateScore emptyFactors (Some nanReview) = NaN /\
  ~ (exists z, calculateScore emptyFactors (Some nanReview) = Num z
               /\ 0 <= z <= 100).
Proof.
  assert (H : calculateScore emptyFactors (Some nanReview) = NaN)
    by (vm_compute; reflexivity).
  split; [exact H|]. intros [z [Hz _]]. rewrite H in Hz. discriminate Hz.
Qed.

(** C3, amended: holding the other factors and the review result fixed,
    (1) setting [testsAdded] never decreases the result;
    (2) no diff size above 1000 gives a higher result than a smaller diff
        size;
    (3) the result is an integer in [0, 100] whenever no review result is
        supplied or its readiness score is not NaN;
    (4) when the readiness score is NaN the result is NaN. *)
Theorem calculateScore_monotone_and_clamped :
  (forall f r,
     flag_set (testsAdded f) = false ->
     number_le (calculateScore f r)
               (calculateScore (set_testsAdded (Some true) f) r)) /\
  (forall f r d d',
     PrimFloat.leb d d' = true ->
     PrimFloat.ltb 1000%float d' = true ->
     number_le (calculateScore (set_diffSize d' f) r)
               (calculateScore (set_diffSize d f) r)) /\
  (forall f r,
     match r with Some rr => readiness_score rr <> nan | None => True end ->
     exists z, calculateScore f r = Num z /\ 0 <= z <= 100) /\
  (forall f rr,
     readiness_score rr = nan -> calculateScore f (Some rr) = NaN).
Proof.
  repeat split.
  - intros f r H. apply calculateScore_mono_static.
    unfold staticScore, set_testsAdded. simpl. rewrite H.
    destruct (flag_set (ciPassing f)), (PrimFloat.ltb (diffSize f) 300),
      (PrimFloat.ltb 300 (descriptionLength f)), (flag_set (highRiskModules f)),
      (flag_set (hasTests f)), (PrimFloat.ltb 1000 (diffSize f)); lia.
  - intros f r d d' _ H. apply calculateScore_mono_static.
    unfold staticScore, set_diffSize. simpl.
    rewrite H, (above_1000_not_below_300 d' H).
    destruct (flag_set (ciPassing f)), (flag_set (testsAdded f)),
      (PrimFloat.ltb d 300), (PrimFloat.ltb 300 (descriptionLength f)),
      (flag_set (highRiskModules f)), (flag_set (hasTests f)),
      (PrimFloat.ltb 1000 d); lia.
  - intros f r H. rewrite calculateScore_clamp, accumulateScore_fst.
    destruct r as [rr|].
    + destruct (llmAdjustment rr) as [| |a|] eqn:E.
      * exfalso. apply H, llmAdjustment_nan, E.
      * exists 0. split; [reflexivity | lia].
      * simpl. rewrite clamp_Num. eexists. split; [reflexivity | lia].
      * exists 100. split; [reflexivity | lia].
    + rewrite clamp_Num. eexists. split; [reflexivity | lia].
  - intros f rr H. rewrite calculateScore_clamp, accumulateScore_fst.
    apply llmAdjustment_nan in H. rewrite H. reflexivity.
Qed.

Lemma calculateScore_monotone_and_clamped_witness :
  number_le (calculateScore emptyFactors (Some goodReview))
            (calculateScore (set_testsAdded (Some true) emptyFactors)
                            (Some goodReview)) /\
  number_le (calculateScore (set_diffSize 1001%float emptyFactors) None)
            (calculateScore (set_diffSize 1000%float emptyFactors) None) /\
  (exists z, calculateScore emptyFactors (Some goodReview) = Num z
             /\ 0 <= z <= 100) /\
  calculateScore emptyFactors (Some nanReview) = NaN.
Proof.
  destruct calculateScore_monotone_and_clamped as [H1 [H2 [H3 H4]]].
  split; [| split; [| split]].
  - apply H1. reflexivity.
  - apply H2; reflexivity.
  - apply H3. simpl. intros H. discriminate H.
  - apply H4. reflexivity.
Defined.


(** C4, as stated, fails: [latest/index.ts] has no [.test.] or [.spec.]
    and no directory segment named [test], [tests] or [spec], yet
    [detectTests] returns true on it, because [test/] occurs in
    [latest/]; likewise for a [__tests__] directory. *)
Lemma detectTests_not_segment_based :
  detectTests ["latest/index.ts"] = true /\
  existsb spec_testLikePath ["latest/index.ts"] = false /\
  detectTests ["__tests__/a.js"] = true /\
  existsb spec_testLikePath ["__tests__/a.js"] = false.
Proof. repeat split; vm_compute; reflexivity. Qed.

(** C4, amended: [detectTests(files)] returns true if and only if some
    path contains one of the character sequences [.test.], [.spec.],
    [__tests__/], [test/], [tests/], [spec/] anywhere; in particular it
    returns true for every path that contains [.test.] or [.spec.] or has
    a directory segment named [test], [tests] or [spec].
    [calculateScore] applies (and logs) the -20 term exactly when its
    [hasTests] factor is not set, which for the factors [run] builds is
    exactly when [detectTests] returned false, and the term lowers the
    unclamped score by 20. *)
Theorem detectTests_substring_and_penalty :
  (forall files,
     detectTests files = true <->
     exists file marker,
       In file files /\ In marker testMarkers /\ occurs marker file) /\
  (forall files,
     existsb spec_testLikePath files = true -> detectTests files = true) /\
  (forall f r,
     In noTestsLine (snd (calculateScore_logged f r)) <->
     flag_set (hasTests f) = false) /\
  (forall files additions deletions bodyLength r,
     In noTestsLine
        (snd (calculateScore_logged
                (pullRequestFactors files additions deletions bodyLength) r)) <->
     detectTests files = false) /\
  (forall f r,
     fst (accumulateScore (set_hasTests (Some false) f) r) =
     number_add (fst (accumulateScore (set_hasTests (Some true) f) r))
                (Num (-20))).
Proof.
  split; [exact detectTests_spec|].
  split.
  { intros files H. apply existsb_exists in H. destruct H as [file [Hin H]].
    unfold detectTests. apply anyFile_spec. exists file.
    split; [exact Hin | apply spec_testLikePath_detected, H]. }
  split; [exact noTestsLine_logged|].
  split.
  { intros. rewrite noTestsLine_logged. reflexivity. }
  intros f r. rewrite !accumulateScore_fst.
  assert (H : staticScore (set_hasTests (Some false) f)
              = staticScore (set_hasTests (Some true) f) - 20).
  { unfold staticScore, set_hasTests. simpl. lia. }
  rewrite H. destruct r as [rr|]; simpl.
  - destruct (llmAdjustment rr); simpl; try reflexivity. f_equal. lia.
  - reflexivity.
Qed.

Lemma detectTests_substring_and_penalty_witness :
  detectTests ["tests/session.test.ts"] = true /\
  In noTestsLine (snd (calculateScore_logged emptyFactors None)).
Proof.
  destruct detectTests_substring_and_penalty as [_ [H2 [H3 _]]].
  split.
  - apply H2. reflexivity.
  - apply H3. reflexivity.
Defined.

(* ================================================================= *)
(** * Properties of the cosine similarity *)

Section CosineFacts.
Context {T : Type} (A : Arith T).


Hypothesis mul_comm : forall x y, mul A x y = mul A y x.

Lemma cosineSums_swap (a : list T) : forall b d na nb,
  cosineSums A b a (d, nb, na) =
  (let '(d', na', nb') := cosineSums A a b (d, na, nb) in (d', nb', na')).
Proof.
  induction a as [|x a IH]; intros [|y b] d na nb; simpl; try reflexivity.
  rewrite (mul_comm y x). apply IH.
Qed.

Lemma cosine_over_symmetric (a b : list T) :
  calculateCosineSimilarity_over A a b = calculateCosineSimilarity_over A b a.
Proof.
  unfold calculateCosineSimilarity_over.
  rewrite (Nat.eqb_sym (List.length b) (List.length a)).
  destruct (Nat.eqb (List.length a) (List.length b)); simpl; [|reflexivity].
  rewrite (cosineSums_swap a b).
  destruct (cosineSums A a b (zero A, zero A, zero A)) as [[d na] nb].
  rewrite (orb_comm (is_zero A (sqrt A nb))), (mul_comm (sqrt A nb)).
  reflexivity.
Qed.
End CosineFacts.

(** ** Binary64 *)

Lemma SFmul_comm pr em x y : SFmul pr em x y = SFmul pr em y x.
Proof.
  destruct x as [sx|sx| |sx mx ex], y as [sy|sy| |sy my ey]; simpl;
    try reflexivity; rewrite (xorb_comm sx sy); try reflexivity.
  rewrite (Pos.mul_comm mx my), (Z.add_comm ex ey). reflexivity.
Qed.

Lemma float_mul_comm (x y : float) : PrimFloat.mul x y = PrimFloat.mul y x.
Proof.
  apply Prim2SF_inj. rewrite !mul_spec. apply SFmul_comm.
Qed.





(** ** Exact arithmetic *)

Section ExactCosine.
Local Open Scope R_scope.







End ExactCosine.

(** ** Claims about the cosine similarity *)




(** C10: for equal-length vectors [a] and [b],
    [calculateCosineSimilarity(a, b)] and [calculateCosineSimilarity(b, a)]
    are the same binary64 value. *)
Theorem calculateCosineSimilarity_symmetric (a b : list float) :
  List.length a = List.length b ->
  calculateCosineSimilarity a b = calculateCosineSimilarity b a.
Proof.
  intros _. unfold calculateCosineSimilarity.
  apply cosine_over_symmetric. exact float_mul_comm.
Qed.

Lemma calculateCosineSimilarity_symmetric_witness :
  calculateCosineSimilarity [1%float; 2%float] [3%float; 4%float] =
  calculateCosineSimilarity [3%float; 4%float] [1%float; 2%float].
Proof.
  apply calculateCosineSimilarity_symmetric. reflexivity.
Defined.

(* ================================================================= *)
(** * Properties of the LLM calls *)

Section LLMCalls.
Variables (rt : Runtime) (w : World).

Lemma generateSummary_unfold title body files h :
  generateSummary rt w title body files h =
  let prompt := formatSummaryPrompt rt title body files in
  let h1 := ChatCreate summarySystemMessage prompt :: h in
  let fallback e :=
    (Ok {| problem_statement := JStr title;
           scope := JStr "Unknown";
           key_entities := [];
           affected_files := match files with
                             | Some fs => map JStr fs
                             | None => []
                             end |},
     core_warning ("Failed to generate summary: " ++ error_toString e) :: h1) in
  match chatJson rt w summarySystemMessage prompt h with
  | Throw e => fallback e
  | Ok summary =>
      match get summary "problem_statement" with
      | Throw e => fallback e
      | Ok ps =>
          match get summary "scope", get summary "key_entities",
                get summary "affected_files" with
          | Ok sc, Ok ke, Ok af =>
              (Ok {| problem_statement := js_or ps (JStr "No problem statement");
                     scope := js_or sc (JStr "Unknown");
                     key_entities := array_or_empty ke;
                     affected_files := array_or_empty af |}, h1)
          | Throw e, _, _ | _, Throw e, _ | _, _, Throw e => fallback e
          end
      end
  end.
Proof.
  unfold generateSummary, chatJson, try_catch, bind, request, lift, emit, ret.
  cbv zeta.
  destruct (chat_completions_create w _) as [response|e]; [|reflexivity].
  destruct (first_content response) as [content|e]; [|reflexivity].
  destruct (JSON_parse rt content) as [summary|e]; [|reflexivity].
  destruct summary; reflexivity.
Qed.

Lemma classifyDuplicate_unfold currentTitle currentSummary candidateNumber
    candidateTitle candidateSummary h :
  classifyDuplicate rt w currentTitle currentSummary candidateNumber
    candidateTitle candidateSummary h =
  let prompt := formatDuplicatePrompt rt currentTitle currentSummary
                  candidateNumber candidateTitle candidateSummary in
  let h1 := ChatCreate classifySystemMessage prompt :: h in
  let fallback e :=
    (Ok {| classification := JStr "distinct";
           confidence := JNum 0%float;
           canonical_item := JNull;
           reasoning := JStr "Classification failed" |},
     core_warning ("Failed to classify duplicate: " ++ error_toString e) :: h1) in
  match chatJson rt w classifySystemMessage prompt h with
  | Throw e => fallback e
  | Ok result =>
      match get result "classification" with
      | Throw e => fallback e
      | Ok cl =>
          match get result "confidence", get result "canonical_item",
                get result "reasoning" with
          | Ok co, Ok ca, Ok re =>
              (Ok {| classification := js_or cl (JStr "distinct");
                     confidence := js_or co (JNum 0%float);
                     canonical_item := js_or ca JNull;
                     reasoning := js_or re (JStr "No reasoning provided") |}, h1)
          | Throw e, _, _ | _, Throw e, _ | _, _, Throw e => fallback e
          end
      end
  end.
Proof.
  unfold classifyDuplicate, chatJson, try_catch, bind, request, lift, emit, ret.
  cbv zeta.
  destruct (chat_completions_create w _) as [response|e]; [|reflexivity].
  destruct (first_content response) as [content|e]; [|reflexivity].
  destruct (JSON_parse rt content) as [result|e]; [|reflexivity].
  destruct result; reflexivity.
Qed.

Lemma generateSummary_total title body files h :
  exists s new,
    generateSummary rt w title body files h = (Ok s, (new ++ h)%list) /\
    classifyInvoked new = false.
Proof.
  rewrite generateSummary_unfold. cbv zeta.
  destruct (chatJson rt w _ _ h) as [summary|e].
  - destruct summary; simpl;
      try (eexists; eexists [_]; split; reflexivity);
      try (eexists; eexists [_; _]; split; reflexivity).
  - eexists. eexists [_; _]. split; reflexivity.
Qed.

Lemma classifyDuplicate_total currentTitle currentSummary candidateNumber
    candidateTitle candidateSummary h :
  exists r h',
    classifyDuplicate rt w currentTitle currentSummary candidateNumber
      candidateTitle candidateSummary h = (Ok r, h') /\
    classifyInvoked h' = true.
Proof.
  assert (C : forall p l,
             classifyInvoked (l ++ ChatCreate classifySystemMessage p :: h)%list
             = true).
  { intros p l. unfold classifyInvoked. rewrite existsb_app.
    cbn [existsb isClassifyCall]. rewrite String.eqb_refl. apply orb_true_r. }
  rewrite classifyDuplicate_unfold. cbv zeta.
  destruct (chatJson rt w _ _ h) as [result|e].
  - destruct result; simpl;
      try (eexists; eexists; split; [reflexivity | apply (C _ [])]);
      try (eexists; eexists; split; [reflexivity | apply (C _ [_])]).
  - eexists. eexists. split; [reflexivity | apply (C _ [_])].
Qed.
End LLMCalls.

(** ** Claims about [generateSummary] and [classifyDuplicate] *)

(** C8, as stated, fails: when the LLM call fails for an item with files,
    the default summary lists those files as affected and has the scope
    ['Unknown']; its other fields are not all empty or absent. *)
Lemma generateSummary_default_keeps_files :
  exists s,
    fst (generateSummary stubRuntime failingWorld "Login fails" "Safari"
           (Some ["src/auth/session.ts"]) []) = Ok s /\
    problem_statement s = JStr "Login fails" /\
    affected_files s = [JStr "src/auth/session.ts"] /\
    affected_files s <> [] /\
    scope s = JStr "Unknown".
Proof.
  eexists. split; [vm_compute; reflexivity|].
  repeat split. discriminate.
Qed.

(** C8, amended: [generateSummary] never throws. Whenever the chat request
    fails, the response has no first choice, the content is not valid JSON
    or parses to [null], it returns the default summary: the problem
    statement is the raw title, the scope is ['Unknown'], the key entities
    are empty, and the affected files are the files it was given (empty
    when none were given). *)
Theorem generateSummary_never_throws_default :
  forall rt w title body files h,
    (exists s h', generateSummary rt w title body files h = (Ok s, h')) /\
    ((exists e, chatJson rt w summarySystemMessage
                  (formatSummaryPrompt rt title body files) h = Throw e) \/
     chatJson rt w summarySystemMessage
       (formatSummaryPrompt rt title body files) h = Ok JNull ->
     exists s,
       fst (generateSummary rt w title body files h) = Ok s /\
       problem_statement s = JStr title /\
       scope s = JStr "Unknown" /\
       key_entities s = [] /\
       affected_files s = match files with
                          | Some fs => map JStr fs
                          | None => []
                          end).
Proof.
  intros rt w title body files h. split.
  - destruct (generateSummary_total rt w title body files h) as [s [new [E _]]].
    eauto.
  - rewrite generateSummary_unfold. cbv zeta.
    intros [[e E] | E]; rewrite E; simpl; eexists; repeat split.
Qed.

Lemma generateSummary_never_throws_default_witness :
  exists s,
    fst (generateSummary stubRuntime failingWorld "Login fails" "Safari"
           (Some ["src/auth/session.ts"]) []) = Ok s /\
    problem_statement s = JStr "Login fails" /\
    scope s = JStr "Unknown" /\
    key_entities s = [] /\
    affected_files s = map JStr ["src/auth/session.ts"].
Proof.
  apply (generateSummary_never_throws_default stubRuntime failingWorld
           "Login fails" "Safari" (Some ["src/auth/session.ts"]) []).
  left. exists networkError. reflexivity.
Defined.

(** C9: [classifyDuplicate] always returns a [DuplicateResult], it never
    throws; whenever the chat request fails, the response has no first
    choice or the content is not valid JSON, the result is ['distinct']
    with confidence 0 and no canonical item. *)
Theorem classifyDuplicate_never_throws_distinct :
  forall rt w currentTitle currentSummary candidateNumber candidateTitle
         candidateSummary h,
    (exists r h',
       classifyDuplicate rt w currentTitle currentSummary candidateNumber
         candidateTitle candidateSummary h = (Ok r, h')) /\
    ((exists e,
        chatJson rt w classifySystemMessage
          (formatDuplicatePrompt rt currentTitle currentSummary candidateNumber
             candidateTitle candidateSummary) h = Throw e) ->
     exists r,
       fst (classifyDuplicate rt w currentTitle currentSummary candidateNumber
              candidateTitle candidateSummary h) = Ok r /\
       classification r = JStr "distinct" /\
       confidence r = JNum 0%float /\
       canonical_item r = JNull).
Proof.
  intros rt w ct cs cn ctl csm h. split.
  - destruct (classifyDuplicate_total rt w ct cs cn ctl csm h) as [r [h' [E _]]].
    eauto.
  - rewrite classifyDuplicate_unfold. cbv zeta.
    intros [e E]. rewrite E. simpl. eexists. repeat split.
Qed.

Lemma classifyDuplicate_never_throws_distinct_witness :
  exists r,
    fst (classifyDuplicate stubRuntime failingWorld "Login fails" "Safari"
           12%float "Safari login broken" "Safari" []) = Ok r /\
    classification r = JStr "distinct" /\
    confidence r = JNum 0%float /\
    canonical_item r = JNull.
Proof.
  apply (classifyDuplicate_never_throws_distinct stubRuntime failingWorld
           "Login fails" "Safari" 12%float "Safari login broken" "Safari" []).
  exists networkError. reflexivity.
Defined.

(* ================================================================= *)
(** * Properties of duplicate detection *)

Lemma classifyInvoked_app (a b : History) :
  classifyInvoked (a ++ b)%list = classifyInvoked a || classifyInvoked b.
Proof. apply existsb_app. Qed.

(** [s < t] excludes [s >= t]. *)
Lemma float_ltb_not_geb (s t : float) :
  PrimFloat.ltb s t = true -> PrimFloat.leb t s = false.
Proof.
  rewrite ltb_spec, leb_spec. unfold SFltb, SFleb, SFcompare.
  destruct (Prim2SF s) as [a|a| |a ms es], (Prim2SF t) as [b|b| |b mt et];
    try destruct a; try destruct b; try discriminate; try reflexivity.
  - rewrite (Z.compare_antisym et es).
    replace (Pos.compare_cont Eq ms mt) with (CompOpp (Pos.compare_cont Eq mt ms))
      by apply Pos.compare_cont_antisym.
    destruct (et ?= es); simpl; try discriminate; try reflexivity.
    destruct (Pos.compare_cont Eq mt ms); simpl; try discriminate; reflexivity.
  - rewrite (Z.compare_antisym et es).
    replace (Pos.compare_cont Eq ms mt) with (CompOpp (Pos.compare_cont Eq mt ms))
      by apply Pos.compare_cont_antisym.
    destruct (et ?= es); simpl; try discriminate; try reflexivity.
    destruct (Pos.compare_cont Eq mt ms); simpl; try discriminate; reflexivity.
Qed.

Lemma sortCandidates_nil : sortCandidates [] = [].
Proof. reflexivity. Qed.

Section Detection.
Variables (rt : Runtime) (w : World).

Lemma generateEmbedding_unfold text h :
  generateEmbedding w text h =
  let h1 := EmbeddingsCreate text :: h in
  let rethrow e :=
    (Throw e,
     core_error ("Failed to generate embedding: " ++ error_toString e) :: h1) in
  match embeddings_create w h1 with
  | Throw e => rethrow e
  | Ok response =>
      match first_embedding response with
      | Throw e => rethrow e
      | Ok embedding => (Ok embedding, h1)
      end
  end.
Proof.
  unfold generateEmbedding, try_catch, bind, request, lift, emit, throw.
  cbv zeta.
  destruct (embeddings_create w _) as [response|e]; [|reflexivity].
  destruct (first_embedding response); reflexivity.
Qed.

Lemma generateEmbedding_quiet text h :
  exists r new,
    generateEmbedding w text h = (r, (new ++ h)%list) /\
    classifyInvoked new = false.
Proof.
  rewrite generateEmbedding_unfold. cbv zeta.
  destruct (embeddings_create w _) as [response|e].
  - destruct (first_embedding response).
    + eexists. exists [EmbeddingsCreate text]. split; reflexivity.
    + eexists. eexists [_; _]. split; reflexivity.
  - eexists. eexists [_; _]. split; reflexivity.
Qed.

Lemma getRecentIssues_total client n h :
  exists items new,
    getRecentIssues w client n h = (Ok items, (new ++ h)%list) /\
    classifyInvoked new = false.
Proof.
  unfold getRecentIssues, try_catch, bind, request, emit, ret.
  destruct (issues_listForRepo w _).
  - eexists. eexists [_]. split; reflexivity.
  - eexists. eexists [_; _]. split; reflexivity.
Qed.

Lemma getRecentPullRequests_total client n h :
  exists items new,
    getRecentPullRequests w client n h = (Ok items, (new ++ h)%list) /\
    classifyInvoked new = false.
Proof.
  unfold getRecentPullRequests, try_catch, bind, request, emit, ret.
  destruct (pulls_list w _).
  - eexists. eexists [_]. split; reflexivity.
  - eexists. eexists [_; _]. split; reflexivity.
Qed.

Lemma embedCurrent_quiet title body files h :
  exists r new,
    embedCurrent rt w title body files h = (r, (new ++ h)%list) /\
    classifyInvoked new = false.
Proof.
  unfold embedCurrent, bind, ret.
  destruct (generateSummary_total rt w title body (Some files) h)
    as [s [n1 [E1 Q1]]].
  rewrite E1.
  destruct (generateEmbedding_quiet
              (title ++ " " ++ ToString rt (problem_statement s)) (n1 ++ h)%list)
    as [r [n2 [E2 Q2]]].
  rewrite E2.
  destruct r as [v|e]; eexists; exists (n2 ++ n1)%list;
    rewrite <- app_assoc, classifyInvoked_app, Q1, Q2; split; reflexivity.
Qed.

(** The scan pushes nothing when every similarity it computes is strictly
    below the threshold. *)
Lemma scanItems_below_threshold cur itemNumber thr :
  forall items candidates h,
  exists r new,
    scanItems rt w cur itemNumber thr items candidates h
      = (r, (new ++ h)%list) /\
    classifyInvoked new = false /\
    (Forall (fun s => PrimFloat.ltb s thr = true)
            (scannedSimilarities rt w cur itemNumber items h) ->
     forall cs, r = Ok cs -> cs = candidates).
Proof.
  induction items as [|item items IH]; intros candidates h.
  - exists (Ok candidates), []. simpl. unfold ret.
    repeat split. intros _ cs H. injection H as <-. reflexivity.
  - simpl. destruct (PrimFloat.eqb (item_number item) itemNumber).
    + apply IH.
    + unfold bind at 1.
      destruct (generateSummary_total rt w (item_title item)
                  (match item_body item with Some b => b | None => "" end)
                  (Some []) h) as [s [n1 [E1 Q1]]].
      rewrite E1. unfold bind at 1.
      match goal with
      | |- context [generateEmbedding w ?text _] =>
          destruct (generateEmbedding_quiet text (n1 ++ h)%list)
            as [r [n2 [E2 Q2]]]
      end.
      rewrite E2.
      destruct r as [v|e].
      * unfold bind at 1, lift.
        destruct (calculateCosineSimilarity cur v) as [sim|e] eqn:Ec.
        -- destruct (IH candidates (n2 ++ n1 ++ h)%list) as [r [n3 [E3 [Q3 R3]]]].
           destruct (PrimFloat.leb thr sim) eqn:Ege.
           ++ destruct (IH (candidates ++
                              [{| cand_number := item_number item;
                                  cand_title := item_title item;
                                  cand_summary := problem_statement s;
                                  cand_similarity := sim |}])%list
                          (n2 ++ n1 ++ h)%list) as [r' [n3' [E3' [Q3' _]]]].
              rewrite E3'. exists r', (n3' ++ n2 ++ n1)%list.
              rewrite <- !app_assoc, !classifyInvoked_app, Q1, Q2, Q3'.
              repeat split. intros Hall. inversion Hall as [|x l Hx Hl]; subst.
              apply float_ltb_not_geb in Hx. congruence.
           ++ rewrite E3. exists r, (n3 ++ n2 ++ n1)%list.
              rewrite <- !app_assoc, !classifyInvoked_app, Q1, Q2, Q3.
              repeat split. intros Hall. inversion Hall as [|x l Hx Hl]; subst.
              apply R3, Hl.
        -- exists (Throw e), (n2 ++ n1)%list.
           rewrite <- !app_assoc, !classifyInvoked_app, Q1, Q2.
           repeat split. discriminate.
      * exists (Throw e), (n2 ++ n1)%list.
        rewrite <- !app_assoc, !classifyInvoked_app, Q1, Q2.
        repeat split. discriminate.
Qed.

Lemma recentItems_total client itemType n h :
  exists items new,
    recentItems w client itemType n h = (Ok items, (new ++ h)%list) /\
    classifyInvoked new = false.
Proof.
  destruct itemType;
    [apply getRecentIssues_total | apply getRecentPullRequests_total].
Qed.

Lemma detectDuplicates_total client itemNumber title body itemType files
    maxCandidates thr databaseUrl h :
  exists r h',
    detectDuplicates rt w client itemNumber title body itemType files
      maxCandidates thr databaseUrl h = (Ok r, h').
Proof.
  unfold detectDuplicates, try_catch.
  match goal with |- context [match ?body h with _ => _ end] =>
    destruct (body h) as [[r|e] h'] end.
  - eauto.
  - unfold bind, emit, ret. eauto.
Qed.

Lemma embedCurrent_unfold title body files h :
  embedCurrent rt w title body files h =
  match generateSummary rt w title body (Some files) h with
  | (Ok s, h1) =>
      match generateEmbedding w
              (title ++ " " ++ ToString rt (problem_statement s)) h1 with
      | (Ok v, h2) => (Ok (s, v), h2)
      | (Throw e, h2) => (Throw e, h2)
      end
  | (Throw e, h1) => (Throw e, h1)
  end.
Proof.
  unfold embedCurrent, bind, ret.
  destruct (generateSummary rt w title body (Some files) h) as [[s|e] h1];
    [|reflexivity].
  destruct (generateEmbedding w _ h1) as [[v|e] h2]; reflexivity.
Qed.

Lemma detectDuplicates_embedCurrent_throws client itemNumber title body itemType
    files maxCandidates thr databaseUrl h e h1 :
  embedCurrent rt w title body files h = (Throw e, h1) ->
  detectDuplicates rt w client itemNumber title body itemType files
    maxCandidates thr databaseUrl h =
  (Ok None, core_error ("Failed to detect duplicates: " ++ error_toString e) :: h1).
Proof.
  intros E. unfold detectDuplicates, try_catch. unfold bind at 1.
  rewrite E. reflexivity.
Qed.

Lemma detectDuplicates_embedding_failure client itemNumber title body itemType
    files maxCandidates thr databaseUrl h s h1 e :
  generateSummary rt w title body (Some files) h = (Ok s, h1) ->
  embeddings_create w
    (EmbeddingsCreate (title ++ " " ++ ToString rt (problem_statement s)) :: h1)
    = Throw e ->
  detectDuplicates rt w client itemNumber title body itemType files
    maxCandidates thr databaseUrl h =
  (Ok None,
   core_error ("Failed to detect duplicates: " ++ error_toString e)
   :: core_error ("Failed to generate embedding: " ++ error_toString e)
   :: EmbeddingsCreate (title ++ " " ++ ToString rt (problem_statement s))
   :: h1).
Proof.
  intros Es Ee. apply detectDuplicates_embedCurrent_throws.
  rewrite embedCurrent_unfold, Es, generateEmbedding_unfold. cbv zeta.
  rewrite Ee. reflexivity.
Qed.

(** In stateless mode, when every candidate similarity is strictly below
    the threshold, the result is [null] and the classification request is
    not among the effects. *)
Lemma detectDuplicates_stateless_below client itemNumber title body itemType
    files maxCandidates thr databaseUrl h :
  stateful databaseUrl = false ->
  Forall (fun s => PrimFloat.ltb s thr = true)
         (candidateSimilarities rt w client itemNumber title body itemType
            files maxCandidates h) ->
  exists new,
    detectDuplicates rt w client itemNumber title body itemType files
      maxCandidates thr databaseUrl h = (Ok None, (new ++ h)%list) /\
    classifyInvoked new = false.
Proof.
  intros Hmode Hbelow. unfold candidateSimilarities in Hbelow.
  destruct (embedCurrent_quiet title body files h) as [r0 [n0 [E0 Q0]]].
  rewrite E0 in Hbelow.
  destruct r0 as [[cs cur]|e].
  - unfold detectDuplicates, try_catch. unfold bind at 1. rewrite E0.
    cbv beta iota. rewrite Hmode. unfold bind at 1. unfold bind at 1.
    unfold emit at 1.
    change (match itemType with
            | issue => getRecentIssues w client maxCandidates
            | pr => getRecentPullRequests w client maxCandidates
            end) with (recentItems w client itemType maxCandidates).
    destruct (recentItems_total client itemType maxCandidates
                (core_info "Using stateless mode (GitHub API)" :: n0 ++ h)%list)
      as [items [n1 [E1 Q1]]].
    rewrite E1 in Hbelow. unfold bind at 1. rewrite E1.
    destruct (scanItems_below_threshold cur itemNumber thr items []
                (n1 ++ core_info "Using stateless mode (GitHub API)" :: n0 ++ h)%list)
      as [r2 [n2 [E2 [Q2 R2]]]].
    rewrite E2.
    destruct r2 as [cands|e].
    + rewrite (R2 Hbelow cands eq_refl). rewrite sortCandidates_nil.
      unfold bind, emit, ret.
      exists (core_info "No similar items found above threshold"
              :: n2 ++ n1 ++ core_info "Using stateless mode (GitHub API)" :: n0)%list.
      split.
      * simpl. rewrite <- !app_assoc. reflexivity.
      * simpl. rewrite !classifyInvoked_app. simpl.
        rewrite Q2, Q1. exact Q0.
    + unfold bind, emit, ret.
      exists (core_error ("Failed to detect duplicates: " ++ error_toString e)
              :: n2 ++ n1 ++ core_info "Using stateless mode (GitHub API)" :: n0)%list.
      split.
      * simpl. rewrite <- !app_assoc. reflexivity.
      * simpl. rewrite !classifyInvoked_app. simpl.
        rewrite Q2, Q1. exact Q0.
  - rewrite (detectDuplicates_embedCurrent_throws _ _ _ _ _ _ _ _ _ _ _ _ E0).
    exists (core_error ("Failed to detect duplicates: " ++ error_toString e) :: n0).
    split; [reflexivity | exact Q0].
Qed.
End Detection.

(** ** Claims about [detectDuplicates] *)

(** C1, as stated, fails: when the embedding endpoint fails,
    [generateEmbedding] throws, but [detectDuplicates] returns [null]
    instead of passing the error on. *)
Lemma detectDuplicates_swallows_embedding_error :
  fst (generateEmbedding failingWorld "Login fails on Safari" [])
    = Throw networkError /\
  fst (detectDuplicates stubRuntime failingWorld scenarioClient 7%float
         "Login fails on Safari" "Safari users cannot log in" issue []
         20%float 0x1.b333333333333p-1%float None [])
    = Ok None.
Proof. split; vm_compute; reflexivity. Qed.

(** C1, amended: when the embedding endpoint call throws,
    [generateEmbedding] logs the error and throws it again to its caller.
    [detectDuplicates] itself never throws: its [catch] logs the error and
    returns [null]. In particular, when the embedding call for the current
    item fails, [detectDuplicates] returns [null], after logging the error
    once in [generateEmbedding] and once in its own handler. *)
Theorem detectDuplicates_embedding_error_caught :
  forall rt w,
    (forall text h e,
       embeddings_create w (EmbeddingsCreate text :: h) = Throw e ->
       generateEmbedding w text h =
       (Throw e,
        core_error ("Failed to generate embedding: " ++ error_toString e)
        :: EmbeddingsCreate text :: h)) /\
    (forall client itemNumber title body itemType files maxCandidates thr
            databaseUrl h,
       exists r h',
         detectDuplicates rt w client itemNumber title body itemType files
           maxCandidates thr databaseUrl h = (Ok r, h')) /\
    (forall client itemNumber title body itemType files maxCandidates thr
            databaseUrl h s h1 e,
       generateSummary rt w title body (Some files) h = (Ok s, h1) ->
       embeddings_create w
         (EmbeddingsCreate (title ++ " " ++ ToString rt (problem_statement s)) :: h1)
         = Throw e ->
       detectDuplicates rt w client itemNumber title body itemType files
         maxCandidates thr databaseUrl h =
       (Ok None,
        core_error ("Failed to detect duplicates: " ++ error_toString e)
        :: core_error ("Failed to generate embedding: " ++ error_toString e)
        :: EmbeddingsCreate (title ++ " " ++ ToString rt (problem_statement s))
        :: h1)).
Proof.
  intros rt w. split; [| split].
  - intros text h e E. rewrite generateEmbedding_unfold. cbv zeta.
    rewrite E. reflexivity.
  - intros. apply detectDuplicates_total.
  - intros. apply detectDuplicates_embedding_failure; assumption.
Qed.

Lemma detectDuplicates_embedding_error_caught_witness :
  generateEmbedding failingWorld "Login fails on Safari" [] =
    (Throw networkError,
     [core_error "Failed to generate embedding: Error: Connection error.";
      EmbeddingsCreate "Login fails on Safari"]) /\
  (exists r h',
     detectDuplicates stubRuntime failingWorld scenarioClient 7%float
       "Login fails on Safari" "Safari users cannot log in" issue []
       20%float 0x1.b333333333333p-1%float None [] = (Ok r, h')).
Proof.
  destruct (detectDuplicates_embedding_error_caught stubRuntime failingWorld)
    as [H1 [H2 _]].
  split.
  - apply (H1 "Login fails on Safari" [] networkError). reflexivity.
  - apply H2.
Defined.

(** C7: in stateless mode, if the similarity of every candidate to the
    current item is strictly below the threshold, [detectDuplicates]
    returns [null] and the classification request of [classifyDuplicate]
    is not among the effects it performed; and every call of
    [classifyDuplicate] does leave that request among the effects. *)
Theorem detectDuplicates_below_threshold_is_null :
  forall rt w client itemNumber title body itemType files maxCandidates thr
         databaseUrl h,
    stateful databaseUrl = false ->
    Forall (fun s => PrimFloat.ltb s thr = true)
           (candidateSimilarities rt w client itemNumber title body itemType
              files maxCandidates h) ->
    (exists new,
       detectDuplicates rt w client itemNumber title body itemType files
         maxCandidates thr databaseUrl h = (Ok None, (new ++ h)%list) /\
       classifyInvoked new = false) /\
    (forall currentTitle currentSummary candidateNumber candidateTitle
            candidateSummary h0,
       classifyInvoked
         (snd (classifyDuplicate rt w currentTitle currentSummary
                 candidateNumber candidateTitle candidateSummary h0)) = true).
Proof.
  intros rt w client itemNumber title body itemType files maxCandidates thr
    databaseUrl h Hmode Hbelow.
  split.
  - apply detectDuplicates_stateless_below; assumption.
  - intros ct cs cn ctl csm h0.
    destruct (classifyDuplicate_total rt w ct cs cn ctl csm h0) as [r [h' [E C]]].
    rewrite E. exact C.
Qed.

Lemma detectDuplicates_below_threshold_is_null_witness :
  candidateSimilarities stubRuntime dissimilarWorld scenarioClient 7%float
    "Login fails on Safari" "Safari users cannot log in" issue [] 20%float []
    = [0x1.999999999999ap-1%float] /\
  exists new,
    detectDuplicates stubRuntime dissimilarWorld scenarioClient 7%float
      "Login fails on Safari" "Safari users cannot log in" issue []
      20%float 0x1.b333333333333p-1%float None [] = (Ok None, (new ++ [])%list) /\
    classifyInvoked new = false.
Proof.
  split; [vm_compute; reflexivity|].
  apply (detectDuplicates_below_threshold_is_null stubRuntime dissimilarWorld
           scenarioClient 7%float "Login fails on Safari"
           "Safari users cannot log in" issue [] 20%float
           0x1.b333333333333p-1%float None []).
  - reflexivity.
  - vm_compute. repeat constructor.
Defined.

(* ================================================================= *)
(** * Further properties *)

(** ** The order of binary64 values *)

Lemma SFcompare_key x y :
  x <> S754_nan -> y <> S754_nan ->
  match SFcompare x y with
  | Some Lt => keyLt (floatKey x) (floatKey y)
  | Some Eq => floatKey x = floatKey y
  | Some Gt => keyLt (floatKey y) (floatKey x)
  | None => False
  end.
Proof.
  intros Hx Hy.
  destruct x as [sx|sx| |sx mx ex], y as [sy|sy| |sy my ey];
    try contradiction; try destruct sx; try destruct sy;
    simpl; try lia; try reflexivity.
  - change (Pos.compare_cont Eq mx my) with (Pos.compare mx my).
    destruct (Z.compare_spec ex ey); try lia.
    destruct (Pos.compare_spec mx my); simpl; subst; try reflexivity; lia.
  - change (Pos.compare_cont Eq mx my) with (Pos.compare mx my).
    destruct (Z.compare_spec ex ey); try lia.
    destruct (Pos.compare_spec mx my); simpl; subst; try reflexivity; lia.
Qed.

Lemma floatKey_lt_compare x y :
  x <> S754_nan -> y <> S754_nan ->
  keyLt (floatKey x) (floatKey y) -> SFcompare x y = Some Lt.
Proof.
  intros Hx Hy H. pose proof (SFcompare_key x y Hx Hy) as K.
  destruct (SFcompare x y) as [[| |]|]; try contradiction; try reflexivity.
  - rewrite K in H. unfold keyLt in H. destruct (floatKey y) as [[a b] c]. lia.
  - unfold keyLt in *. destruct (floatKey x) as [[a b] c],
      (floatKey y) as [[a' b'] c']. lia.
Qed.

Lemma SFltb_inv x y :
  SFltb x y = true ->
  x <> S754_nan /\ y <> S754_nan /\ keyLt (floatKey x) (floatKey y).
Proof.
  unfold SFltb. intros H.
  assert (Hx : x <> S754_nan) by (intros ->; discriminate H).
  assert (Hy : y <> S754_nan)
    by (intros ->; destruct x as [| | |]; discriminate H).
  pose proof (SFcompare_key x y Hx Hy) as K.
  destruct (SFcompare x y) as [[| |]|]; try discriminate H. auto.
Qed.

Lemma SFleb_inv x y :
  SFleb x y = true ->
  x <> S754_nan /\ y <> S754_nan /\
  (keyLt (floatKey x) (floatKey y) \/ floatKey x = floatKey y).
Proof.
  unfold SFleb. intros H.
  assert (Hx : x <> S754_nan) by (intros ->; discriminate H).
  assert (Hy : y <> S754_nan)
    by (intros ->; destruct x as [| | |]; discriminate H).
  pose proof (SFcompare_key x y Hx Hy) as K.
  destruct (SFcompare x y) as [[| |]|]; try discriminate H; auto.
Qed.

Lemma float_lt_le_trans (a b c : float) :
  PrimFloat.ltb a b = true -> PrimFloat.leb b c = true ->
  PrimFloat.ltb a c = true.
Proof.
  rewrite !ltb_spec, leb_spec. intros H1 H2.
  apply SFltb_inv in H1. apply SFleb_inv in H2.
  destruct H1 as [Ha [_ H1]], H2 as [_ [Hc H2]].
  unfold SFltb. rewrite floatKey_lt_compare; auto.
  unfold keyLt in *.
  destruct (floatKey (Prim2SF a)) as [[a1 a2] a3],
    (floatKey (Prim2SF b)) as [[b1 b2] b3],
    (floatKey (Prim2SF c)) as [[c1 c2] c3].
  destruct H2 as [H2 | H2]; [lia | injection H2 as <- <- <-; exact H1].
Qed.

Lemma float_le_lt_trans (a b c : float) :
  PrimFloat.leb a b = true -> PrimFloat.ltb b c = true ->
  PrimFloat.ltb a c = true.
Proof.
  rewrite !ltb_spec, leb_spec. intros H1 H2.
  apply SFleb_inv in H1. apply SFltb_inv in H2.
  destruct H1 as [Ha [_ H1]], H2 as [_ [Hc H2]].
  unfold SFltb. rewrite floatKey_lt_compare; auto.
  unfold keyLt in *.
  destruct (floatKey (Prim2SF a)) as [[a1 a2] a3],
    (floatKey (Prim2SF b)) as [[b1 b2] b3],
    (floatKey (Prim2SF c)) as [[c1 c2] c3].
  destruct H1 as [H1 | H1]; [lia | injection H1 as -> -> ->; exact H2].
Qed.

(** ** The scorer: all factors, the adjustment and the log *)

Lemma staticScore_bounds f : 5 <= staticScore f <= 105.
Proof.
  unfold staticScore.
  destruct (PrimFloat.ltb 1000 (diffSize f)) eqn:E.
  - rewrite (above_1000_not_below_300 _ E).
    destruct (flag_set (ciPassing f)), (flag_set (testsAdded f)),
      (PrimFloat.ltb 300 (descriptionLength f)), (flag_set (highRiskModules f)),
      (flag_set (hasTests f)); lia.
  - destruct (flag_set (ciPassing f)), (flag_set (testsAdded f)),
      (PrimFloat.ltb (diffSize f) 300),
      (PrimFloat.ltb 300 (descriptionLength f)), (flag_set (highRiskModules f)),
      (flag_set (hasTests f)); lia.
Qed.

(** X1: holding everything else fixed, [calculateScore] never decreases
    when CI is reported passing, when tests are present or when the
    description gets longer, and never increases when a high-risk module is
    touched or when the diff gets larger (for any two diff sizes, not only
    beyond 1000). *)
Theorem calculateScore_monotone_in_every_factor :
  (forall f r,
     flag_set (ciPassing f) = false ->
     number_le (calculateScore f r)
               (calculateScore (set_ciPassing (Some true) f) r)) /\
  (forall f r,
     flag_set (hasTests f) = false ->
     number_le (calculateScore f r)
               (calculateScore (set_hasTests (Some true) f) r)) /\
  (forall f r,
     flag_set (highRiskModules f) = false ->
     number_le (calculateScore (set_highRiskModules (Some true) f) r)
               (calculateScore f r)) /\
  (forall f r d d',
     PrimFloat.leb d d' = true ->
     number_le (calculateScore (set_diffSize d' f) r)
               (calculateScore (set_diffSize d f) r)) /\
  (forall f r l l',
     PrimFloat.leb l l' = true ->
     number_le (calculateScore (set_descriptionLength l f) r)
               (calculateScore (set_descriptionLength l' f) r)).
Proof.
  repeat split.
  - intros f r H. apply calculateScore_mono_static.
    unfold staticScore, set_ciPassing. simpl. rewrite H.
    destruct (flag_set (testsAdded f)), (PrimFloat.ltb (diffSize f) 300),
      (PrimFloat.ltb 300 (descriptionLength f)), (flag_set (highRiskModules f)),
      (flag_set (hasTests f)), (PrimFloat.ltb 1000 (diffSize f)); lia.
  - intros f r H. apply calculateScore_mono_static.
    unfold staticScore, set_hasTests. simpl. rewrite H.
    destruct (flag_set (ciPassing f)), (flag_set (testsAdded f)),
      (PrimFloat.ltb (diffSize f) 300),
      (PrimFloat.ltb 300 (descriptionLength f)), (flag_set (highRiskModules f)),
      (PrimFloat.ltb 1000 (diffSize f)); lia.
  - intros f r H. apply calculateScore_mono_static.
    unfold staticScore, set_highRiskModules. simpl. rewrite H.
    destruct (flag_set (ciPassing f)), (flag_set (testsAdded f)),
      (PrimFloat.ltb (diffSize f) 300),
      (PrimFloat.ltb 300 (descriptionLength f)), (flag_set (hasTests f)),
      (PrimFloat.ltb 1000 (diffSize f)); lia.
  - intros f r d d' H. apply calculateScore_mono_static.
    unfold staticScore, set_diffSize. simpl.
    pose proof (float_le_lt_trans d d' 300%float H) as H1.
    pose proof (fun G => float_lt_le_trans 1000%float d d' G H) as H2.
    destruct (PrimFloat.ltb d' 300) eqn:E1;
      [rewrite (H1 eq_refl) | clear H1];
      (destruct (PrimFloat.ltb 1000 d) eqn:E2;
        [rewrite (H2 eq_refl) | clear H2]);
      destruct (flag_set (ciPassing f)), (flag_set (testsAdded f)),
        (PrimFloat.ltb 300 (descriptionLength f)),
        (flag_set (highRiskModules f)), (flag_set (hasTests f));
      try destruct (PrimFloat.ltb d 300); try destruct (PrimFloat.ltb 1000 d');
      lia.
  - intros f r l l' H. apply calculateScore_mono_static.
    unfold staticScore, set_descriptionLength. simpl.
    pose proof (fun G => float_lt_le_trans 300%float l l' G H) as H1.
    destruct (PrimFloat.ltb 300 l) eqn:E1; [rewrite (H1 eq_refl) | clear H1];
      destruct (flag_set (ciPassing f)), (flag_set (testsAdded f)),
        (PrimFloat.ltb (diffSize f) 300), (flag_set (highRiskModules f)),
        (flag_set (hasTests f)), (PrimFloat.ltb 1000 (diffSize f));
      try destruct (PrimFloat.ltb 300 l'); lia.
Qed.

Lemma calculateScore_monotone_in_every_factor_witness :
  number_le (calculateScore emptyFactors (Some goodReview))
            (calculateScore (set_ciPassing (Some true) emptyFactors)
                            (Some goodReview)) /\
  number_le (calculateScore (set_diffSize 300%float emptyFactors) None)
            (calculateScore (set_diffSize 299%float emptyFactors) None) /\
  number_le (calculateScore (set_descriptionLength 300%float emptyFactors) None)
            (calculateScore (set_descriptionLength 301%float emptyFactors) None).
Proof.
  destruct calculateScore_monotone_in_every_factor as [H1 [_ [_ [H4 H5]]]].
  split; [| split].
  - apply H1. reflexivity.
  - apply H4. reflexivity.
  - apply H5. reflexivity.
Defined.

Lemma adjustment_table :
  forallb (fun k =>
             number_eqb
               (Math_round (PrimFloat.mul
                              (PrimFloat.sub (integerValue (Z.of_nat k)) 50%float)
                              0x1.3333333333333p-2%float))
               (Num ((3 * (Z.of_nat k - 50) + 5) / 10)))
          (seq 0 101) = true.
Proof. vm_compute. reflexivity. Qed.

Lemma number_eqb_eq a b : number_eqb a b = true -> a = b.
Proof.
  destruct a, b; simpl; intros H; try discriminate; try reflexivity.
  apply Z.eqb_eq in H. subst. reflexivity.
Qed.

Lemma llmAdjustment_of_integer r n :
  0 <= n <= 100 ->
  readiness_score r = integerValue n ->
  llmAdjustment r = Num ((3 * (n - 50) + 5) / 10) /\
  -15 <= (3 * (n - 50) + 5) / 10 <= 15.
Proof.
  intros Hn Hr. split.
  - unfold llmAdjustment. rewrite Hr.
    pose proof adjustment_table as T. rewrite forallb_forall in T.
    specialize (T (Z.to_nat n)). rewrite Z2Nat.id in T by lia.
    apply number_eqb_eq, T. apply in_seq. lia.
  - split.
    + apply Z.div_le_lower_bound; lia.
    + apply Z.lt_succ_r. apply Z.div_lt_upper_bound; lia.
Qed.

(** X2: for a readiness score that is an integer from 0 to 100, the LLM
    adjustment is 0.3 * (score - 50) rounded to the nearest integer, halves
    upwards, and lies between -15 and +15. *)
Theorem llmAdjustment_integer_scores r n :
  0 <= n <= 100 ->
  readiness_score r = integerValue n ->
  llmAdjustment r = Num ((3 * (n - 50) + 5) / 10) /\
  -15 <= (3 * (n - 50) + 5) / 10 <= 15.
Proof. apply llmAdjustment_of_integer. Qed.

Lemma llmAdjustment_integer_scores_witness :
  llmAdjustment goodReview = Num ((3 * (85 - 50) + 5) / 10) /\
  -15 <= (3 * (85 - 50) + 5) / 10 <= 15.
Proof.
  apply (llmAdjustment_integer_scores goodReview 85); [lia | reflexivity].
Defined.

(** X3: a pull request without any test-like path never scores 80 or
    more, whatever its other properties, when the review's readiness score
    is an integer from 0 to 100: the score [run] computes for it is at most
    65. *)
Theorem score_without_tests_below_ready files additions deletions bodyLength r n :
  detectTests files = false ->
  0 <= n <= 100 ->
  readiness_score r = integerValue n ->
  exists z,
    calculateScore (pullRequestFactors files additions deletions bodyLength)
                   (Some r) = Num z /\
    0 <= z <= 65.
Proof.
  intros Ht Hn Hr.
  destruct (llmAdjustment_of_integer r n Hn Hr) as [Ha Hb].
  rewrite calculateScore_clamp, accumulateScore_fst, Ha. unfold number_add.
  rewrite clamp_Num. eexists. split; [reflexivity|].
  assert (Hs : staticScore (pullRequestFactors files additions deletions bodyLength)
               <= 50).
  { unfold staticScore, pullRequestFactors. simpl. rewrite Ht. simpl.
    match goal with |- context [PrimFloat.ltb 1000 ?d] =>
      destruct (PrimFloat.ltb 1000 d) eqn:E;
      [rewrite (above_1000_not_below_300 _ E) | destruct (PrimFloat.ltb d 300)]
    end;
    destruct (PrimFloat.ltb 300 bodyLength), (detectHighRiskModules files); lia. }
  revert Hs Hb.
  generalize (staticScore (pullRequestFactors files additions deletions bodyLength)),
    ((3 * (n - 50) + 5) / 10).
  intros. lia.
Qed.

Lemma score_without_tests_below_ready_witness :
  exists z,
    calculateScore (pullRequestFactors ["src/auth/session.ts"] (Some 50%float)
                      (Some 10%float) 400%float)
                   (Some goodReview) = Num z /\
    0 <= z <= 65.
Proof.
  apply (score_without_tests_below_ready ["src/auth/session.ts"] (Some 50%float)
           (Some 10%float) 400%float goodReview 85);
    [reflexivity | lia | reflexivity].
Defined.

Lemma number_add_0 a : number_add a (Num 0) = a.
Proof. destruct a; simpl; try reflexivity. f_equal. lia. Qed.

Lemma sumLines_app start l1 l2 :
  sumLines start (l1 ++ l2) = sumLines (sumLines start l1) l2.
Proof. apply fold_left_app. Qed.

Lemma sumLines_optional c message d start :
  lineValue (info message) = Num d ->
  sumLines start (optionalLine c message)
  = number_add start (Num (if c then d else 0)).
Proof.
  intros H. destruct c; unfold optionalLine, sumLines; cbn [fold_left].
  - rewrite H. reflexivity.
  - symmetry. apply number_add_0.
Qed.

Lemma sumLines_static f :
  sumLines (Num 50) (staticLines f) = Num (staticScore f).
Proof.
  unfold staticLines. rewrite !sumLines_app.
  rewrite (sumLines_optional _ _ (-10)), (sumLines_optional _ _ (-20)),
    (sumLines_optional _ _ (-15)), (sumLines_optional _ _ 10),
    (sumLines_optional _ _ 10), (sumLines_optional _ _ 15),
    (sumLines_optional _ _ 20) by (vm_compute; reflexivity).
  unfold staticScore, number_add. f_equal.
  destruct (flag_set (ciPassing f)), (flag_set (testsAdded f)),
    (PrimFloat.ltb (diffSize f) 300), (PrimFloat.ltb 300 (descriptionLength f)),
    (flag_set (highRiskModules f)), (flag_set (hasTests f)),
    (PrimFloat.ltb 1000 (diffSize f)); reflexivity.
Qed.

(** X4: the log of [calculateScore] accounts for the score: the returned
    score is the clamp of 50 plus the signed numbers named in the logged
    lines (each static line names its own term, the adjustment line the
    adjustment), and the last line logged is the final score. *)
Theorem calculateScore_log_accounts_for_score f r :
  let '(score, log) := calculateScore_logged f r in
  score = clamp (sumLines (Num 50) log) /\
  last log (info "") = info_final score /\
  score = calculateScore f r.
Proof.
  unfold calculateScore, calculateScore_logged. cbv zeta.
  fold (clamp (fst (accumulateScore f r))).
  repeat split.
  - rewrite sumLines_app. unfold sumLines at 1. cbn [fold_left lineValue].
    rewrite number_add_0, accumulateScore_snd, sumLines_app, sumLines_static.
    rewrite accumulateScore_fst. destruct r; reflexivity.
  - apply last_last.
Qed.

(** ** Path detection *)

Lemma lower_ascii_idempotent c : lower_ascii (lower_ascii c) = lower_ascii c.
Proof. destruct c as [[] [] [] [] [] [] [] []]; reflexivity. Qed.

Lemma lower_idempotent s : lower (lower s) = lower s.
Proof.
  induction s as [|c s IH]; simpl; [reflexivity|].
  rewrite lower_ascii_idempotent, IH. reflexivity.
Qed.

Lemma highRiskKeywords_lower keyword :
  In keyword highRiskKeywords -> lower keyword = keyword.
Proof.
  unfold highRiskKeywords. simpl.
  intros H. repeat (destruct H as [<- | H]; [reflexivity|]). contradiction.
Qed.

Lemma anyFile_incl patterns files files' :
  incl files files' ->
  anyFile patterns files = true -> anyFile patterns files' = true.
Proof.
  intros Hincl H. apply anyFile_spec in H. destruct H as [file [Hin Hp]].
  apply anyFile_spec. exists file. split; [apply Hincl, Hin | exact Hp].
Qed.

(** X5: [detectHighRiskModules(files)] returns true if and only if some
    path, with its letters A-Z lowered, contains one of the eleven
    keywords anywhere; in particular the answer does not depend on the
    case of the paths. *)
Theorem detectHighRiskModules_case_insensitive_substring :
  (forall files,
     detectHighRiskModules files = true <->
     exists file keyword,
       In file files /\ In keyword highRiskKeywords /\
       occurs keyword (lower file)) /\
  (forall files,
     detectHighRiskModules (map lower files) = detectHighRiskModules files).
Proof.
  assert (Hchar : forall files,
             detectHighRiskModules files = true <->
             exists file keyword,
               In file files /\ In keyword highRiskKeywords /\
               occurs keyword (lower file)).
  { intros files. unfold detectHighRiskModules. rewrite anyFile_spec. split.
    - intros [file [Hin H]]. apply anyPattern_spec in H.
      destruct H as [pattern [Hp Ht]]. unfold highRiskPatterns in Hp.
      apply in_map_iff in Hp. destruct Hp as [keyword [<- Hk]].
      unfold RegExp_test in Ht. simpl in Ht.
      change (In keyword highRiskKeywords) in Hk.
      rewrite (highRiskKeywords_lower keyword Hk) in Ht.
      apply includes_spec in Ht. exists file, keyword. auto.
    - intros [file [keyword [Hin [Hk Ho]]]]. exists file. split; [exact Hin|].
      apply anyPattern_spec. exists (mkRegExp keyword true). split.
      + unfold highRiskPatterns. apply in_map_iff. exists keyword. auto.
      + unfold RegExp_test. simpl.
        rewrite (highRiskKeywords_lower keyword Hk). apply includes_spec, Ho. }
  split; [exact Hchar|].
  intros files.
  destruct (detectHighRiskModules files) eqn:E.
  - apply Hchar in E. destruct E as [file [keyword [Hin [Hk Ho]]]].
    apply Hchar. exists (lower file), keyword.
    split; [apply in_map, Hin|]. split; [exact Hk|].
    rewrite lower_idempotent. exact Ho.
  - destruct (detectHighRiskModules (map lower files)) eqn:E'; [|reflexivity].
    apply Hchar in E'. destruct E' as [file [keyword [Hin [Hk Ho]]]].
    apply in_map_iff in Hin. destruct Hin as [orig [<- Hin]].
    rewrite lower_idempotent in Ho.
    assert (detectHighRiskModules files = true)
      by (apply Hchar; exists orig, keyword; auto).
    congruence.
Qed.

(** X6: both detections only look for one matching path: if every path
    of [files] also occurs in [files'], a detection on [files] is also a
    detection on [files']. Adding, duplicating or reordering paths never
    turns a detection off, and an empty list is never detected. *)
Theorem detection_monotone_in_files files files' :
  incl files files' ->
  (detectTests files = true -> detectTests files' = true) /\
  (detectHighRiskModules files = true -> detectHighRiskModules files' = true) /\
  detectTests [] = false /\ detectHighRiskModules [] = false.
Proof.
  intros H. repeat split; try apply anyFile_incl; assumption.
Qed.

Lemma detection_monotone_in_files_witness :
  (detectTests ["tests/a.test.ts"] = true ->
   detectTests ["README.md"; "tests/a.test.ts"] = true) /\
  (detectHighRiskModules ["tests/a.test.ts"] = true ->
   detectHighRiskModules ["README.md"; "tests/a.test.ts"] = true) /\
  detectTests [] = false /\ detectHighRiskModules [] = false.
Proof.
  apply detection_monotone_in_files.
  intros x [<- | []]. simpl. auto.
Defined.

(** ** [summarizeText] *)






(* ================================================================= *)
(** * Further properties of duplicate detection *)

(** ** Counting events *)

Lemma countEvents_app p a b :
  countEvents p (a ++ b)%list = (countEvents p a + countEvents p b)%nat.
Proof. unfold countEvents. rewrite filter_app, length_app. reflexivity. Qed.

Lemma costs_ret {A} p (a : A) : costs p 0 (ret a).
Proof. intros h. exists []. split; [reflexivity | apply Nat.le_refl]. Qed.

Lemma costs_throw {A} p e : costs p 0 (@throw A e).
Proof. intros h. exists []. split; [reflexivity | apply Nat.le_refl]. Qed.

Lemma costs_lift {A} p (r : result A) : costs p 0 (lift r).
Proof. intros h. exists []. split; [reflexivity | apply Nat.le_refl]. Qed.

Lemma costs_emit p ev : costs p (if p ev then 1 else 0) (emit ev).
Proof.
  intros h. exists [ev]. split; [reflexivity|].
  unfold countEvents. simpl. destruct (p ev); apply Nat.le_refl.
Qed.

Lemma costs_request {A} p ev (answer : History -> result A) :
  costs p (if p ev then 1 else 0) (request ev answer).
Proof.
  intros h. exists [ev]. split; [reflexivity|].
  unfold countEvents. simpl. destruct (p ev); apply Nat.le_refl.
Qed.

Lemma costs_weaken {A} p n n' (m : M A) :
  (n <= n')%nat -> costs p n m -> costs p n' m.
Proof.
  intros Hle H h. destruct (H h) as [new [E C]]. exists new.
  split; [exact E | lia].
Qed.

Lemma costs_bind {A B} p n1 n2 (m : M A) (k : A -> M B) :
  costs p n1 m -> (forall a, costs p n2 (k a)) ->
  costs p (n1 + n2) (bind m k).
Proof.
  intros Hm Hk h. unfold bind. destruct (Hm h) as [new1 [E1 C1]].
  destruct (m h) as [[a|e] h1]; simpl in E1; subst h1.
  - destruct (Hk a (new1 ++ h)%list) as [new2 [E2 C2]].
    exists (new2 ++ new1)%list. rewrite E2, app_assoc, countEvents_app.
    split; [reflexivity | lia].
  - exists new1. split; [reflexivity | lia].
Qed.

Lemma costs_try_catch {A} p n1 n2 (body : M A) (handler : JSError -> M A) :
  costs p n1 body -> (forall e, costs p n2 (handler e)) ->
  costs p (n1 + n2) (try_catch body handler).
Proof.
  intros Hm Hk h. unfold try_catch. destruct (Hm h) as [new1 [E1 C1]].
  destruct (body h) as [[a|e] h1]; simpl in E1; subst h1.
  - exists new1. split; [reflexivity | lia].
  - destruct (Hk e (new1 ++ h)%list) as [new2 [E2 C2]].
    exists (new2 ++ new1)%list. rewrite E2, app_assoc, countEvents_app.
    split; [reflexivity | lia].
Qed.

Lemma costs_emit_free p ev : p ev = false -> costs p 0 (emit ev).
Proof. intros H. generalize (costs_emit p ev). rewrite H. auto. Qed.

Lemma costs_emit_one p ev : costs p 1 (emit ev).
Proof.
  eapply costs_weaken; [|apply costs_emit]. destruct (p ev); repeat constructor.
Qed.

Lemma costs_request_free {A} p ev (answer : History -> result A) :
  p ev = false -> costs p 0 (request ev answer).
Proof. intros H. generalize (costs_request p ev answer). rewrite H. auto. Qed.

Lemma costs_request_one {A} p ev (answer : History -> result A) :
  costs p 1 (request ev answer).
Proof.
  eapply costs_weaken; [|apply costs_request].
  destruct (p ev); repeat constructor.
Qed.

(** Bounds the cost of a computation built from the monad's operations:
    a step that provably does not satisfy the predicate is free, any other
    logging or request step counts for one. *)
Ltac cost_steps :=
  repeat match goal with
    | |- forall _, costs _ _ _ => intro
    | |- costs _ _ (ret _) => eapply costs_ret
    | |- costs _ _ (throw _) => eapply costs_throw
    | |- costs _ _ (lift _) => eapply costs_lift
    | |- costs _ _ (emit _) =>
        first [eapply costs_emit_free; reflexivity | eapply costs_emit_one]
    | |- costs _ _ (request _ _) =>
        first [eapply costs_request_free; reflexivity | eapply costs_request_one]
    | |- costs _ _ (bind _ _) => eapply costs_bind
    | |- costs _ _ (try_catch _ _) => eapply costs_try_catch
    end.

Ltac cost_of f :=
  eapply costs_weaken; cycle 1;
  [ unfold f; cbv zeta; cost_steps | vm_compute; repeat constructor ].

Section DetectionCosts.
Variables (rt : Runtime) (w : World).

Lemma costs_run {A} p n (m : M A) h :
  costs p n m ->
  exists r new, m h = (r, (new ++ h)%list) /\ (countEvents p new <= n)%nat.
Proof.
  intros H. destruct (H h) as [new [E C]].
  destruct (m h) as [r h'] eqn:Em. simpl in E. subst h'.
  exists r, new. auto.
Qed.

(** *** OpenAI requests *)

Lemma generateSummary_costs_openai title body files :
  costs isOpenAICall 1 (generateSummary rt w title body files).
Proof. cost_of generateSummary. Qed.

Lemma generateEmbedding_costs_openai text :
  costs isOpenAICall 1 (generateEmbedding w text).
Proof. cost_of generateEmbedding. Qed.

Lemma classifyDuplicate_costs_openai t s n ct cs :
  costs isOpenAICall 1 (classifyDuplicate rt w t s n ct cs).
Proof. cost_of classifyDuplicate. Qed.

Lemma getRecentIssues_costs_openai client n :
  costs isOpenAICall 0 (getRecentIssues w client n).
Proof. cost_of getRecentIssues. Qed.

Lemma getRecentPullRequests_costs_openai client n :
  costs isOpenAICall 0 (getRecentPullRequests w client n).
Proof. cost_of getRecentPullRequests. Qed.

Lemma storeSimilarityItem_costs_openai r i ty ti s e :
  costs isOpenAICall 0 (storeSimilarityItem w r i ty ti s e).
Proof. cost_of storeSimilarityItem. Qed.

Lemma findSimilarItems_costs_openai e r ty l :
  costs isOpenAICall 0 (findSimilarItems rt w e r ty l).
Proof. cost_of findSimilarItems. Qed.

(** *** Database calls *)

Lemma generateSummary_costs_database title body files :
  costs isDatabaseCall 0 (generateSummary rt w title body files).
Proof. cost_of generateSummary. Qed.

Lemma generateEmbedding_costs_database text :
  costs isDatabaseCall 0 (generateEmbedding w text).
Proof. cost_of generateEmbedding. Qed.

Lemma classifyDuplicate_costs_database t s n ct cs :
  costs isDatabaseCall 0 (classifyDuplicate rt w t s n ct cs).
Proof. cost_of classifyDuplicate. Qed.

Lemma getRecentIssues_costs_database client n :
  costs isDatabaseCall 0 (getRecentIssues w client n).
Proof. cost_of getRecentIssues. Qed.

Lemma getRecentPullRequests_costs_database client n :
  costs isDatabaseCall 0 (getRecentPullRequests w client n).
Proof. cost_of getRecentPullRequests. Qed.

(** *** Listing calls *)

Lemma generateSummary_costs_listing title body files :
  costs isListingCall 0 (generateSummary rt w title body files).
Proof. cost_of generateSummary. Qed.

Lemma generateEmbedding_costs_listing text :
  costs isListingCall 0 (generateEmbedding w text).
Proof. cost_of generateEmbedding. Qed.

Lemma classifyDuplicate_costs_listing t s n ct cs :
  costs isListingCall 0 (classifyDuplicate rt w t s n ct cs).
Proof. cost_of classifyDuplicate. Qed.

Lemma storeSimilarityItem_costs_listing r i ty ti s e :
  costs isListingCall 0 (storeSimilarityItem w r i ty ti s e).
Proof. cost_of storeSimilarityItem. Qed.

Lemma findSimilarItems_costs_listing e r ty l :
  costs isListingCall 0 (findSimilarItems rt w e r ty l).
Proof. cost_of findSimilarItems. Qed.

(** *** Classification requests *)

Lemma generateSummary_costs_classify title body files :
  costs isClassifyCall 0 (generateSummary rt w title body files).
Proof. cost_of generateSummary. Qed.

Lemma generateEmbedding_costs_classify text :
  costs isClassifyCall 0 (generateEmbedding w text).
Proof. cost_of generateEmbedding. Qed.

Lemma getRecentIssues_costs_classify client n :
  costs isClassifyCall 0 (getRecentIssues w client n).
Proof. cost_of getRecentIssues. Qed.

Lemma getRecentPullRequests_costs_classify client n :
  costs isClassifyCall 0 (getRecentPullRequests w client n).
Proof. cost_of getRecentPullRequests. Qed.

Lemma storeSimilarityItem_costs_classify r i ty ti s e :
  costs isClassifyCall 0 (storeSimilarityItem w r i ty ti s e).
Proof. cost_of storeSimilarityItem. Qed.

Lemma findSimilarItems_costs_classify e r ty l :
  costs isClassifyCall 0 (findSimilarItems rt w e r ty l).
Proof. cost_of findSimilarItems. Qed.
End DetectionCosts.

Section DetectionPhases.
Variables (rt : Runtime) (w : World).

Lemma scanItems_costs p a b cur itemNumber thr :
  (forall title body files, costs p a (generateSummary rt w title body files)) ->
  (forall text, costs p b (generateEmbedding w text)) ->
  forall items candidates,
    costs p ((a + b) * List.length (otherItems itemNumber items))
          (scanItems rt w cur itemNumber thr items candidates).
Proof.
  intros Hs He. induction items as [|item items IH]; intros candidates.
  - simpl. rewrite Nat.mul_0_r. apply costs_ret.
  - simpl. destruct (PrimFloat.eqb (item_number item) itemNumber); simpl.
    + apply IH.
    + eapply costs_weaken; cycle 1.
      * eapply costs_bind; [apply Hs | intro].
        eapply costs_bind; [apply He | intro].
        eapply costs_bind; [apply costs_lift | intro]. apply IH.
      * lia.
Qed.

Lemma embedCurrent_costs p a b title body files :
  (forall title body files, costs p a (generateSummary rt w title body files)) ->
  (forall text, costs p b (generateEmbedding w text)) ->
  costs p (a + b) (embedCurrent rt w title body files).
Proof.
  intros Hs He. unfold embedCurrent. eapply costs_weaken; cycle 1.
  - eapply costs_bind; [apply Hs | intro].
    eapply costs_bind; [apply He | intro]. apply costs_ret.
  - lia.
Qed.

Lemma detectDuplicates_phases client itemNumber title body itemType files
    maxCandidates thr databaseUrl :
  detectDuplicates rt w client itemNumber title body itemType files
    maxCandidates thr databaseUrl =
  try_catch
    (bind (embedCurrent rt w title body files)
       (fun current =>
          let '(currentSummary, currentEmbedding) := current in
          bind (gatherCandidates rt w client itemNumber title itemType
                  maxCandidates thr databaseUrl currentSummary currentEmbedding)
            (fun candidates =>
               match sortCandidates candidates with
               | [] =>
                   bind (emit (core_info "No similar items found above threshold"))
                        (fun _ => ret None)
               | topCandidate :: _ =>
                   bind (classifyDuplicate rt w title
                           (ToString rt (problem_statement currentSummary))
                           (cand_number topCandidate) (cand_title topCandidate)
                           (ToString rt (cand_summary topCandidate)))
                        (fun result => ret (Some result))
               end)))
    (fun error =>
       bind (emit (core_error ("Failed to detect duplicates: "
                                 ++ error_toString error)))
            (fun _ => ret None)).
Proof. reflexivity. Qed.

(** The candidates are gathered without any classification request. *)
Lemma gatherCandidates_costs_classify client itemNumber title itemType
    maxCandidates thr databaseUrl cs cur :
  costs isClassifyCall 0
    (gatherCandidates rt w client itemNumber title itemType maxCandidates thr
       databaseUrl cs cur).
Proof.
  unfold gatherCandidates. destruct (stateful databaseUrl).
  - eapply costs_weaken; cycle 1.
    + eapply costs_bind; [apply costs_emit_free; reflexivity | intro].
      eapply costs_bind; [apply storeSimilarityItem_costs_classify | intro].
      eapply costs_bind; [apply findSimilarItems_costs_classify | intro].
      apply costs_ret.
    + apply Nat.le_refl.
  - eapply costs_weaken; cycle 1.
    + eapply costs_bind; [apply costs_emit_free; reflexivity | intro].
      eapply costs_bind;
        [destruct itemType;
           [apply getRecentIssues_costs_classify
           | apply getRecentPullRequests_costs_classify]
        | intro].
      eapply costs_weaken; cycle 1.
      * apply (scanItems_costs isClassifyCall 0 0).
        -- apply generateSummary_costs_classify.
        -- apply generateEmbedding_costs_classify.
      * simpl. apply Nat.le_refl.
    + apply Nat.le_refl.
Qed.

Lemma classifyDuplicate_one_request t s n ct cs h :
  exists r new,
    classifyDuplicate rt w t s n ct cs h = (Ok r, (new ++ h)%list) /\
    countEvents isClassifyCall new = 1%nat.
Proof.
  rewrite classifyDuplicate_unfold. cbv zeta.
  destruct (chatJson rt w _ _ h) as [result|e].
  - destruct result; simpl;
      try (eexists; eexists [_]; split; reflexivity);
      try (eexists; eexists [_; _]; split; reflexivity).
  - eexists. eexists [_; _]. split; reflexivity.
Qed.
End DetectionPhases.

Section DetectionRuns.
Variables (rt : Runtime) (w : World).
Variables (client : GitHubClient) (itemNumber : float)
  (itemTitle itemBody : string) (itemType : ItemType) (files : list string)
  (maxCandidates similarityThreshold : float) (databaseUrl : option string).

Lemma embedCurrent_extends h :
  exists r new, embedCurrent rt w itemTitle itemBody files h = (r, (new ++ h)%list).
Proof.
  destruct (costs_run isOpenAICall 2 (embedCurrent rt w itemTitle itemBody files) h)
    as [r [new [E _]]].
  - apply (embedCurrent_costs rt w isOpenAICall 1 1).
    + apply generateSummary_costs_openai.
    + apply generateEmbedding_costs_openai.
  - eauto.
Qed.

Lemma gatherCandidates_extends cs cur h :
  exists r new,
    gatherCandidates rt w client itemNumber itemTitle itemType maxCandidates
      similarityThreshold databaseUrl cs cur h = (r, (new ++ h)%list) /\
    countEvents isClassifyCall new = 0%nat.
Proof.
  destruct (costs_run isClassifyCall 0
              (gatherCandidates rt w client itemNumber itemTitle itemType
                 maxCandidates similarityThreshold databaseUrl cs cur) h)
    as [r [new [E C]]].
  - apply gatherCandidates_costs_classify.
  - exists r, new. split; [exact E | lia].
Qed.

(** The four ways a run of [detectDuplicates] ends. *)
Lemma detectDuplicates_cases h :
  let run := detectDuplicates rt w client itemNumber itemTitle itemBody itemType
               files maxCandidates similarityThreshold databaseUrl h in
  (exists e h1,
      embedCurrent rt w itemTitle itemBody files h = (Throw e, h1) /\
      run = (Ok None,
             core_error ("Failed to detect duplicates: " ++ error_toString e) :: h1))
  \/
  (exists cs cur h1,
      embedCurrent rt w itemTitle itemBody files h = (Ok (cs, cur), h1) /\
      ((exists e h2,
           gatherCandidates rt w client itemNumber itemTitle itemType
             maxCandidates similarityThreshold databaseUrl cs cur h1
           = (Throw e, h2) /\
           run = (Ok None,
                  core_error ("Failed to detect duplicates: " ++ error_toString e)
                  :: h2))
       \/
       (exists candidates h2,
           gatherCandidates rt w client itemNumber itemTitle itemType
             maxCandidates similarityThreshold databaseUrl cs cur h1
           = (Ok candidates, h2) /\
           match sortCandidates candidates with
           | [] =>
               run = (Ok None,
                      core_info "No similar items found above threshold" :: h2)
           | topCandidate :: _ =>
               exists r h3,
                 classifyDuplicate rt w itemTitle
                   (ToString rt (problem_statement cs))
                   (cand_number topCandidate) (cand_title topCandidate)
                   (ToString rt (cand_summary topCandidate)) h2 = (Ok r, h3) /\
                 run = (Ok (Some r), h3)
           end))).
Proof.
  intros run. subst run. rewrite detectDuplicates_phases.
  unfold try_catch, bind. cbv beta.
  destruct (embedCurrent rt w itemTitle itemBody files h) as [[[cs cur]|e] h1].
  2:{ left. exists e, h1. split; reflexivity. }
  right. exists cs, cur, h1. split; [reflexivity|].
  destruct (gatherCandidates rt w client itemNumber itemTitle itemType
              maxCandidates similarityThreshold databaseUrl cs cur h1)
    as [[candidates|e] h2].
  2:{ left. exists e, h2. split; reflexivity. }
  right. exists candidates, h2. split; [reflexivity|].
  destruct (sortCandidates candidates) as [|top rest].
  - reflexivity.
  - destruct (classifyDuplicate_one_request rt w itemTitle
                (ToString rt (problem_statement cs)) (cand_number top)
                (cand_title top) (ToString rt (cand_summary top)) h2)
      as [r [new [E _]]].
    exists r, (new ++ h2)%list. split; [exact E|].
    rewrite E. reflexivity.
Qed.
End DetectionRuns.

Lemma costs_bind_when {A B} (Q : A -> Prop) p n1 n2 (m : M A) (k : A -> M B) :
  costs p n1 m ->
  (forall h a h', m h = (Ok a, h') -> Q a) ->
  (forall a, Q a -> costs p n2 (k a)) ->
  costs p (n1 + n2) (bind m k).
Proof.
  intros Hm HQ Hk h. unfold bind. destruct (Hm h) as [new1 [E1 C1]].
  destruct (m h) as [[a|e] h1] eqn:Em; simpl in E1; subst h1.
  - destruct (Hk a (HQ _ _ _ Em) (new1 ++ h)%list) as [new2 [E2 C2]].
    exists (new2 ++ new1)%list. rewrite E2, app_assoc, countEvents_app.
    split; [reflexivity | lia].
  - exists new1. split; [reflexivity | lia].
Qed.

Section DetectionBounds.
Variables (rt : Runtime) (w : World).
Variables (client : GitHubClient) (itemNumber : float)
  (itemTitle itemBody : string) (itemType : ItemType) (files : list string)
  (maxCandidates similarityThreshold : float) (databaseUrl : option string).

(** The cost of a run from the costs of its phases, for a kind of event
    that no log line belongs to. *)
Lemma detectDuplicates_costs p a b g c :
  (forall message, p (core_info message) = false) ->
  (forall message, p (core_error message) = false) ->
  (forall title body fs, costs p a (generateSummary rt w title body fs)) ->
  (forall text, costs p b (generateEmbedding w text)) ->
  (forall cs cur,
      costs p g (gatherCandidates rt w client itemNumber itemTitle itemType
                   maxCandidates similarityThreshold databaseUrl cs cur)) ->
  (forall t s n ct cs, costs p c (classifyDuplicate rt w t s n ct cs)) ->
  costs p (a + b + g + c)
    (detectDuplicates rt w client itemNumber itemTitle itemBody itemType files
       maxCandidates similarityThreshold databaseUrl).
Proof.
  intros Hinfo Herror Hs He Hg Hc. rewrite detectDuplicates_phases.
  eapply costs_weaken; cycle 1.
  - apply (costs_try_catch p (a + b + (g + c)) 0).
    + apply costs_bind.
      * apply embedCurrent_costs; assumption.
      * intros [cs cur]. apply costs_bind; [apply Hg|].
        intros candidates. destruct (sortCandidates candidates) as [|top rest].
        -- apply (costs_weaken p 0); [lia|].
           change 0%nat with (0 + 0)%nat. apply costs_bind.
           ++ apply costs_emit_free. apply Hinfo.
           ++ intros. apply costs_ret.
        -- replace c with (c + 0)%nat by lia. apply costs_bind.
           ++ apply Hc.
           ++ intros. apply costs_ret.
    + intros e. change 0%nat with (0 + 0)%nat. apply costs_bind.
      * apply costs_emit_free. apply Herror.
      * intros. apply costs_ret.
  - lia.
Qed.

Lemma gatherCandidates_stateful_costs_openai cs cur :
  stateful databaseUrl = true ->
  costs isOpenAICall 0
    (gatherCandidates rt w client itemNumber itemTitle itemType maxCandidates
       similarityThreshold databaseUrl cs cur).
Proof.
  intros Hs. unfold gatherCandidates. rewrite Hs.
  eapply costs_weaken; cycle 1.
  - eapply costs_bind; [apply costs_emit_free; reflexivity | intro].
    eapply costs_bind; [apply storeSimilarityItem_costs_openai | intro].
    eapply costs_bind; [apply findSimilarItems_costs_openai | intro].
    apply costs_ret.
  - apply Nat.le_refl.
Qed.

Lemma gatherCandidates_stateful_costs_listing cs cur :
  stateful databaseUrl = true ->
  costs isListingCall 0
    (gatherCandidates rt w client itemNumber itemTitle itemType maxCandidates
       similarityThreshold databaseUrl cs cur).
Proof.
  intros Hs. unfold gatherCandidates. rewrite Hs.
  eapply costs_weaken; cycle 1.
  - eapply costs_bind; [apply costs_emit_free; reflexivity | intro].
    eapply costs_bind; [apply storeSimilarityItem_costs_listing | intro].
    eapply costs_bind; [apply findSimilarItems_costs_listing | intro].
    apply costs_ret.
  - apply Nat.le_refl.
Qed.

Lemma storeSimilarityItem_costs_database r i ty ti s e :
  costs isDatabaseCall 1 (storeSimilarityItem w r i ty ti s e).
Proof. cost_of storeSimilarityItem. Qed.

Lemma findSimilarItems_costs_database e r ty l :
  costs isDatabaseCall 1 (findSimilarItems rt w e r ty l).
Proof. cost_of findSimilarItems. Qed.

Lemma getRecentIssues_costs_listing n :
  costs isListingCall 1 (getRecentIssues w client n).
Proof. cost_of getRecentIssues. Qed.

Lemma getRecentPullRequests_costs_listing n :
  costs isListingCall 1 (getRecentPullRequests w client n).
Proof. cost_of getRecentPullRequests. Qed.

Lemma gatherCandidates_stateful_costs_database cs cur :
  stateful databaseUrl = true ->
  costs isDatabaseCall 2
    (gatherCandidates rt w client itemNumber itemTitle itemType maxCandidates
       similarityThreshold databaseUrl cs cur).
Proof.
  intros Hs. unfold gatherCandidates. rewrite Hs.
  eapply costs_weaken; cycle 1.
  - eapply costs_bind; [apply costs_emit_free; reflexivity | intro].
    eapply costs_bind; [apply storeSimilarityItem_costs_database | intro].
    eapply costs_bind; [apply findSimilarItems_costs_database | intro].
    apply costs_ret.
  - apply Nat.le_refl.
Qed.

Lemma gatherCandidates_stateless_costs_database cs cur :
  stateful databaseUrl = false ->
  costs isDatabaseCall 0
    (gatherCandidates rt w client itemNumber itemTitle itemType maxCandidates
       similarityThreshold databaseUrl cs cur).
Proof.
  intros Hs. unfold gatherCandidates. rewrite Hs.
  eapply costs_weaken; cycle 1.
  - eapply costs_bind; [apply costs_emit_free; reflexivity | intro].
    eapply costs_bind;
      [destruct itemType;
         [apply getRecentIssues_costs_database
         | apply getRecentPullRequests_costs_database]
      | intro].
    eapply costs_weaken; cycle 1.
    + apply (scanItems_costs rt w isDatabaseCall 0 0).
      * apply generateSummary_costs_database.
      * apply generateEmbedding_costs_database.
    + simpl. apply Nat.le_refl.
  - apply Nat.le_refl.
Qed.

Lemma gatherCandidates_stateless_costs_listing cs cur :
  stateful databaseUrl = false ->
  costs isListingCall 1
    (gatherCandidates rt w client itemNumber itemTitle itemType maxCandidates
       similarityThreshold databaseUrl cs cur).
Proof.
  intros Hs. unfold gatherCandidates. rewrite Hs.
  eapply costs_weaken; cycle 1.
  - eapply costs_bind; [apply costs_emit_free; reflexivity | intro].
    eapply costs_bind;
      [destruct itemType;
         [apply getRecentIssues_costs_listing
         | apply getRecentPullRequests_costs_listing]
      | intro].
    eapply costs_weaken; cycle 1.
    + apply (scanItems_costs rt w isListingCall 0 0).
      * apply generateSummary_costs_listing.
      * apply generateEmbedding_costs_listing.
    + simpl. apply Nat.le_refl.
  - apply Nat.le_refl.
Qed.

(** X8: the two candidate sources are kept apart. With a connection string
    a run of [detectDuplicates] never lists issues or pull requests, sends
    at most two database statements and at most three OpenAI requests
    (summary, embedding, classification), however many rows the database
    returns; without one it never touches the database and lists the
    repository at most once. *)
Theorem detectDuplicates_mode_separation h :
  exists r new,
    detectDuplicates rt w client itemNumber itemTitle itemBody itemType files
      maxCandidates similarityThreshold databaseUrl h = (r, (new ++ h)%list) /\
    if stateful databaseUrl
    then countEvents isListingCall new = 0%nat /\
         (countEvents isDatabaseCall new <= 2)%nat /\
         (countEvents isOpenAICall new <= 3)%nat
    else countEvents isDatabaseCall new = 0%nat /\
         (countEvents isListingCall new <= 1)%nat.
Proof.
  set (run := detectDuplicates rt w client itemNumber itemTitle itemBody itemType
                files maxCandidates similarityThreshold databaseUrl).
  destruct (run h) as [r h'] eqn:Erun.
  destruct (stateful databaseUrl) eqn:Hs.
  - assert (L : costs isListingCall (0 + 0 + 0 + 0) run).
    { apply detectDuplicates_costs; try reflexivity; intros.
      - apply generateSummary_costs_listing.
      - apply generateEmbedding_costs_listing.
      - apply gatherCandidates_stateful_costs_listing, Hs.
      - apply classifyDuplicate_costs_listing. }
    assert (D : costs isDatabaseCall (0 + 0 + 2 + 0) run).
    { apply detectDuplicates_costs; try reflexivity; intros.
      - apply generateSummary_costs_database.
      - apply generateEmbedding_costs_database.
      - apply gatherCandidates_stateful_costs_database, Hs.
      - apply classifyDuplicate_costs_database. }
    assert (O : costs isOpenAICall (1 + 1 + 0 + 1) run).
    { apply detectDuplicates_costs; try reflexivity; intros.
      - apply generateSummary_costs_openai.
      - apply generateEmbedding_costs_openai.
      - apply gatherCandidates_stateful_costs_openai, Hs.
      - apply classifyDuplicate_costs_openai. }
    destruct (L h) as [new [E CL]]. destruct (D h) as [new' [E' CD]].
    destruct (O h) as [new'' [E'' CO]].
    rewrite Erun in E, E', E''. simpl in E, E', E''. subst h'.
    apply app_inv_tail in E'. apply app_inv_tail in E''. subst new' new''.
    exists r, new. simpl in *. repeat split; lia.
  - assert (D : costs isDatabaseCall (0 + 0 + 0 + 0) run).
    { apply detectDuplicates_costs; try reflexivity; intros.
      - apply generateSummary_costs_database.
      - apply generateEmbedding_costs_database.
      - apply gatherCandidates_stateless_costs_database, Hs.
      - apply classifyDuplicate_costs_database. }
    assert (L : costs isListingCall (0 + 0 + 1 + 0) run).
    { apply detectDuplicates_costs; try reflexivity; intros.
      - apply generateSummary_costs_listing.
      - apply generateEmbedding_costs_listing.
      - apply gatherCandidates_stateless_costs_listing, Hs.
      - apply classifyDuplicate_costs_listing. }
    destruct (L h) as [new [E CL]]. destruct (D h) as [new' [E' CD]].
    rewrite Erun in E, E'. simpl in E, E'. subst h'.
    apply app_inv_tail in E'. subst new'.
    exists r, new. simpl in *. repeat split; lia.
Qed.
End DetectionBounds.

Section DetectionOutcome.
Variables (rt : Runtime) (w : World).
Variables (client : GitHubClient) (itemNumber : float)
  (itemTitle itemBody : string) (itemType : ItemType) (files : list string)
  (maxCandidates similarityThreshold : float) (databaseUrl : option string).

Lemma embedCurrent_no_classification h :
  exists r new,
    embedCurrent rt w itemTitle itemBody files h = (r, (new ++ h)%list) /\
    countEvents isClassifyCall new = 0%nat.
Proof.
  destruct (costs_run isClassifyCall (0 + 0)
              (embedCurrent rt w itemTitle itemBody files) h) as [r [new [E C]]].
  - apply embedCurrent_costs.
    + apply generateSummary_costs_classify.
    + apply generateEmbedding_costs_classify.
  - exists r, new. split; [exact E | simpl in C; lia].
Qed.

(** X9: [detectDuplicates] never throws, asks for at most one
    classification, and returns a result exactly when it asked for one:
    every other way through the function, including every caught error,
    ends in [null]. *)
Theorem detectDuplicates_result_iff_classified h :
  exists r new,
    detectDuplicates rt w client itemNumber itemTitle itemBody itemType files
      maxCandidates similarityThreshold databaseUrl h = (Ok r, (new ++ h)%list) /\
    countEvents isClassifyCall new = match r with Some _ => 1%nat | None => 0%nat end.
Proof.
  destruct (detectDuplicates_cases rt w client itemNumber itemTitle itemBody
              itemType files maxCandidates similarityThreshold databaseUrl h)
    as [[e [h1 [E1 R]]] | [cs [cur [h1 [E1 H]]]]];
    destruct (embedCurrent_no_classification h) as [r1 [new1 [E1' C1]]];
    rewrite E1 in E1'; injection E1' as _ ->.
  - exists None, (core_error ("Failed to detect duplicates: " ++ error_toString e)
                    :: new1)%list.
    split; [exact R|]. unfold countEvents in *. simpl. exact C1.
  - destruct (gatherCandidates_extends rt w client itemNumber itemTitle itemType
                maxCandidates similarityThreshold databaseUrl cs cur
                (new1 ++ h)%list) as [r2 [new2 [E2' C2]]].
    destruct H as [[e [h2 [E2 R]]] | [candidates [h2 [E2 R]]]];
      rewrite E2 in E2'; injection E2' as _ ->.
    + exists None, (core_error ("Failed to detect duplicates: " ++ error_toString e)
                      :: new2 ++ new1)%list.
      split; [rewrite R; simpl; rewrite <- ?app_assoc; reflexivity|].
      change (countEvents isClassifyCall (new2 ++ new1)%list = 0%nat).
      rewrite countEvents_app. lia.
    + destruct (sortCandidates candidates) as [|top rest].
      * exists None, (core_info "No similar items found above threshold"
                        :: new2 ++ new1)%list.
        split; [rewrite R; simpl; rewrite <- ?app_assoc; reflexivity|].
        change (countEvents isClassifyCall (new2 ++ new1)%list = 0%nat).
        rewrite countEvents_app. lia.
      * destruct R as [r [h3 [E3 R]]].
        destruct (classifyDuplicate_one_request rt w itemTitle
                    (ToString rt (problem_statement cs)) (cand_number top)
                    (cand_title top) (ToString rt (cand_summary top))
                    (new2 ++ new1 ++ h)%list) as [r' [new3 [E3' C3]]].
        rewrite E3 in E3'. injection E3' as _ ->.
        exists (Some r), (new3 ++ new2 ++ new1)%list.
        split; [rewrite R; simpl; rewrite <- ?app_assoc; reflexivity|].
        rewrite !countEvents_app. lia.
Qed.
End DetectionOutcome.

Section StatelessCost.
Variables (rt : Runtime) (w : World).
Variables (client : GitHubClient) (itemNumber : float)
  (itemTitle itemBody : string) (itemType : ItemType) (files : list string)
  (maxCandidates similarityThreshold : float) (databaseUrl : option string).

Lemma recentItems_bounded bound h items h' :
  listingBounded w bound ->
  recentItems w client itemType maxCandidates h = (Ok items, h') ->
  (List.length items <= bound)%nat.
Proof.
  intros Hb. unfold recentItems, getRecentIssues, getRecentPullRequests,
    try_catch, bind, request, emit, ret.
  destruct itemType.
  - destruct (Hb (IssuesListForRepo maxCandidates :: h)) as [Hi _].
    destruct (issues_listForRepo w _) as [data|e]; intros E;
      injection E as <- _; simpl.
    + rewrite length_map.
      eapply Nat.le_trans; [apply filter_length_le | exact Hi].
    + lia.
  - destruct (Hb (PullsList maxCandidates :: h)) as [_ Hp].
    destruct (pulls_list w _) as [data|e]; intros E;
      injection E as <- _; simpl.
    + rewrite length_map. exact Hp.
    + lia.
Qed.

Lemma otherItems_length items :
  (List.length (otherItems itemNumber items) <= List.length items)%nat.
Proof. apply filter_length_le. Qed.

Lemma gatherCandidates_stateless_costs_openai bound cs cur :
  stateful databaseUrl = false ->
  listingBounded w bound ->
  costs isOpenAICall (2 * bound)
    (gatherCandidates rt w client itemNumber itemTitle itemType maxCandidates
       similarityThreshold databaseUrl cs cur).
Proof.
  intros Hs Hb. unfold gatherCandidates. rewrite Hs.
  eapply costs_weaken; cycle 1.
  - eapply costs_bind; [apply costs_emit_free; reflexivity | intros _].
    apply (costs_bind_when (fun items => (List.length items <= bound)%nat)
             isOpenAICall 0 (2 * bound)).
    + destruct itemType;
        [apply getRecentIssues_costs_openai
        | apply getRecentPullRequests_costs_openai].
    + intros h items h' E. eapply recentItems_bounded; [exact Hb | exact E].
    + intros items Hlen. eapply costs_weaken; cycle 1.
      * apply (scanItems_costs rt w isOpenAICall 1 1).
        -- apply generateSummary_costs_openai.
        -- apply generateEmbedding_costs_openai.
      * pose proof (otherItems_length items). lia.
  - lia.
Qed.

(** X10: without a connection string the number of OpenAI requests of a
    run is bounded by the size of the listing: when a listing request
    never returns more than [bound] entries, [detectDuplicates] sends at
    most [2 * bound + 3] requests to OpenAI (a summary and an embedding for
    the item and for each listed entry, and one classification). *)
Theorem stateless_openai_requests_bounded bound h :
  stateful databaseUrl = false ->
  listingBounded w bound ->
  exists r new,
    detectDuplicates rt w client itemNumber itemTitle itemBody itemType files
      maxCandidates similarityThreshold databaseUrl h = (r, (new ++ h)%list) /\
    (countEvents isOpenAICall new <= 2 * bound + 3)%nat.
Proof.
  intros Hs Hb.
  destruct (costs_run isOpenAICall (1 + 1 + 2 * bound + 1)
              (detectDuplicates rt w client itemNumber itemTitle itemBody
                 itemType files maxCandidates similarityThreshold databaseUrl) h)
    as [r [new [E C]]].
  - apply detectDuplicates_costs; try reflexivity; intros.
    + apply generateSummary_costs_openai.
    + apply generateEmbedding_costs_openai.
    + apply gatherCandidates_stateless_costs_openai; assumption.
    + apply classifyDuplicate_costs_openai.
  - exists r, new. split; [exact E | lia].
Qed.

(** With a connection string the similarity threshold plays no
    role: two runs that differ only in the threshold perform the same
    effects and return the same result. *)
Theorem stateful_ignores_threshold threshold threshold' h :
  stateful databaseUrl = true ->
  detectDuplicates rt w client itemNumber itemTitle itemBody itemType files
    maxCandidates threshold databaseUrl h =
  detectDuplicates rt w client itemNumber itemTitle itemBody itemType files
    maxCandidates threshold' databaseUrl h.
Proof.
  intros Hs. rewrite !detectDuplicates_phases.
  unfold gatherCandidates. rewrite Hs. reflexivity.
Qed.
End StatelessCost.

Lemma stateless_openai_requests_bounded_witness :
  exists r new,
    detectDuplicates stubRuntime dissimilarWorld scenarioClient 7%float
      "Login fails on Safari" "Safari users cannot log in" issue []
      20%float 0.85%float None [] = (r, (new ++ [])%list) /\
    (countEvents isOpenAICall new <= 2 * 1 + 3)%nat.
Proof.
  apply (stateless_openai_requests_bounded stubRuntime dissimilarWorld
           scenarioClient 7%float "Login fails on Safari"
           "Safari users cannot log in" issue [] 20%float 0.85%float None 1 []).
  - reflexivity.
  - intros h. simpl. split; lia.
Defined.

Lemma stateful_ignores_threshold_witness :
  detectDuplicates stubRuntime dissimilarWorld scenarioClient 7%float
    "Login fails on Safari" "Safari users cannot log in" issue []
    20%float 0%float (Some "postgres://db.example/triage") [] =
  detectDuplicates stubRuntime dissimilarWorld scenarioClient 7%float
    "Login fails on Safari" "Safari users cannot log in" issue []
    20%float 1%float (Some "postgres://db.example/triage") [].
Proof.
  apply stateful_ignores_threshold. reflexivity.
Defined.

(** ** The candidate that is classified *)

Lemma insertCandidate_permutation x sorted :
  Permutation (insertCandidate x sorted) (x :: sorted).
Proof.
  induction sorted as [|y rest IH]; simpl.
  - apply Permutation_refl.
  - destruct (sortsAfter y x).
    + apply Permutation_refl.
    + eapply Permutation_trans; [apply perm_skip, IH | apply perm_swap].
Qed.

Lemma sortCandidates_permutation candidates :
  Permutation (sortCandidates candidates) candidates.
Proof.
  unfold sortCandidates.
  assert (G : forall l acc,
             Permutation (fold_left (fun sorted x => insertCandidate x sorted) l acc)
                         (l ++ acc)%list).
  { induction l as [|x l IH]; intros acc; simpl.
    - apply Permutation_refl.
    - eapply Permutation_trans; [apply IH|].
      eapply Permutation_trans;
        [apply Permutation_app_head, insertCandidate_permutation|].
      apply Permutation_sym, Permutation_middle. }
  specialize (G candidates []). rewrite app_nil_r in G. exact G.
Qed.


Lemma countEvents_zero_not_in p new ev :
  countEvents p new = 0%nat -> In ev new -> p ev = false.
Proof.
  unfold countEvents. intros H Hin.
  destruct (p ev) eqn:E; [|reflexivity].
  assert (Hf : In ev (filter p new)) by (apply filter_In; auto).
  destruct (filter p new); [destruct Hf | discriminate].
Qed.

Lemma cons_app_inv_tail {A} (x : A) (a new h : list A) :
  (x :: a ++ h)%list = (new ++ h)%list -> new = (x :: a)%list.
Proof.
  intros H. symmetry. apply (app_inv_tail h). exact H.
Qed.

Lemma cons_app_app_inv_tail {A} (x : A) (a b new h : list A) :
  (x :: a ++ b ++ h)%list = (new ++ h)%list -> new = (x :: a ++ b)%list.
Proof.
  intros H. symmetry. apply (app_inv_tail h). simpl.
  rewrite <- app_assoc. exact H.
Qed.

Section ClassifiedCandidate.
Variables (rt : Runtime) (w : World).
Variables (client : GitHubClient) (itemNumber : float)
  (itemTitle itemBody : string) (itemType : ItemType) (files : list string)
  (maxCandidates similarityThreshold : float) (databaseUrl : option string).

Lemma keptCandidate_incl items items' c :
  incl items items' ->
  keptCandidate itemNumber similarityThreshold items c ->
  keptCandidate itemNumber similarityThreshold items' c.
Proof.
  intros Hi [H1 [H2 [H3 [item [Hin H4]]]]].
  repeat split; try assumption. exists item. split; [apply Hi, Hin | exact H4].
Qed.



Lemma classifyDuplicate_requests t s n ct cs h :
  exists r new,
    classifyDuplicate rt w t s n ct cs h = (Ok r, (new ++ h)%list) /\
    forall ev, In ev new -> isClassifyCall ev = true ->
      ev = ChatCreate classifySystemMessage (formatDuplicatePrompt rt t s n ct cs).
Proof.
  rewrite classifyDuplicate_unfold. cbv zeta.
  destruct (chatJson rt w _ _ h) as [result|e].
  - destruct result; simpl;
      try (eexists; eexists [_]; split; [reflexivity|];
           intros ev [<-|[]] _; reflexivity);
      try (eexists; eexists [_; _]; split; [reflexivity|];
           intros ev [<-|[<-|[]]] Hc; [discriminate Hc | reflexivity]).
  - eexists. eexists [_; _]. split; [reflexivity|].
    intros ev [<-|[<-|[]]] Hc; [discriminate Hc | reflexivity].
Qed.

(** Where a classification request of a run comes from: the candidates
    were gathered, and the request is about the first one after the
    sort. *)
Lemma classification_origin h r new prompt :
  detectDuplicates rt w client itemNumber itemTitle itemBody itemType files
    maxCandidates similarityThreshold databaseUrl h = (r, (new ++ h)%list) ->
  In (ChatCreate classifySystemMessage prompt) new ->
  exists cs cur h1 candidates h2 top,
    gatherCandidates rt w client itemNumber itemTitle itemType maxCandidates
      similarityThreshold databaseUrl cs cur h1 = (Ok candidates, h2) /\
    In top candidates /\
    prompt = formatDuplicatePrompt rt itemTitle
               (ToString rt (problem_statement cs)) (cand_number top)
               (cand_title top) (ToString rt (cand_summary top)).
Proof.
  intros Erun Hin.
  assert (Hcall : isClassifyCall (ChatCreate classifySystemMessage prompt) = true)
    by reflexivity.
  destruct (embedCurrent_no_classification rt w itemTitle itemBody files h)
    as [r1 [new1 [E1' C1]]].
  destruct (detectDuplicates_cases rt w client itemNumber itemTitle itemBody
              itemType files maxCandidates similarityThreshold databaseUrl h)
    as [[e [h1 [E1 R]]] | [cs [cur [h1 [E1 H]]]]];
    rewrite E1 in E1'; injection E1' as _ ->.
  - rewrite R in Erun. injection Erun as _ En.
    apply cons_app_inv_tail in En. subst new.
    destruct Hin as [Hin|Hin]; [discriminate Hin|].
    rewrite (countEvents_zero_not_in _ _ _ C1 Hin) in Hcall. discriminate.
  - destruct (gatherCandidates_extends rt w client itemNumber itemTitle itemType
                maxCandidates similarityThreshold databaseUrl cs cur
                (new1 ++ h)%list) as [r2 [new2 [E2' C2]]].
    destruct H as [[e [h2 [E2 R]]] | [candidates [h2 [E2 R]]]];
      rewrite E2 in E2'; injection E2' as _ ->.
    + rewrite R in Erun. injection Erun as _ En.
      apply cons_app_app_inv_tail in En. subst new.
      destruct Hin as [Hin|Hin]; [discriminate Hin|].
      apply in_app_or in Hin. destruct Hin as [Hin|Hin].
      * rewrite (countEvents_zero_not_in _ _ _ C2 Hin) in Hcall. discriminate.
      * rewrite (countEvents_zero_not_in _ _ _ C1 Hin) in Hcall. discriminate.
    + pose proof (sortCandidates_permutation candidates) as Hp.
      destruct (sortCandidates candidates) as [|top rest].
      * rewrite R in Erun. injection Erun as _ En.
        apply cons_app_app_inv_tail in En. subst new.
        destruct Hin as [Hin|Hin]; [discriminate Hin|].
        apply in_app_or in Hin. destruct Hin as [Hin|Hin].
        -- rewrite (countEvents_zero_not_in _ _ _ C2 Hin) in Hcall. discriminate.
        -- rewrite (countEvents_zero_not_in _ _ _ C1 Hin) in Hcall. discriminate.
      * destruct R as [r3 [h3 [E3 R]]].
        destruct (classifyDuplicate_requests itemTitle
                    (ToString rt (problem_statement cs)) (cand_number top)
                    (cand_title top) (ToString rt (cand_summary top))
                    (new2 ++ new1 ++ h)%list) as [r' [new3 [E3' Hev]]].
        rewrite E3 in E3'. injection E3' as _ ->.
        rewrite R in Erun. injection Erun as _ En.
        rewrite !app_assoc in En. apply app_inv_tail in En. subst new.
        exists cs, cur, (new1 ++ h)%list, candidates, (new2 ++ new1 ++ h)%list, top.
        split; [exact E2|].
        split; [eapply Permutation_in; [exact Hp | left; reflexivity]|].
        apply in_app_or in Hin. destruct Hin as [Hin|Hin].
        -- apply in_app_or in Hin. destruct Hin as [Hin|Hin].
           ++ specialize (Hev _ Hin Hcall). injection Hev as ->. reflexivity.
           ++ rewrite (countEvents_zero_not_in _ _ _ C2 Hin) in Hcall. discriminate.
        -- rewrite (countEvents_zero_not_in _ _ _ C1 Hin) in Hcall. discriminate.
Qed.

Lemma traverse_rowToItem rows : forall items,
  traverse (rowToItem rt) rows = Ok items ->
  forall item, In item items ->
    exists row, In row rows /\
      si_github_id item = row_github_id row /\
      si_title item = row_title row /\
      si_summary item = row_summary row /\
      si_similarity item = row_similarity row.
Proof.
  induction rows as [|row rows IH]; intros items E item Hin; simpl in E.
  - injection E as <-. destruct Hin.
  - unfold rowToItem at 1 in E.
    destruct (parseEmbedding rt (row_embedding row)) as [embedding|e];
      [|discriminate].
    destruct (traverse (rowToItem rt) rows) as [rest|e]; [|discriminate].
    injection E as <-. destruct Hin as [<-|Hin].
    + exists row. simpl. repeat split. left. reflexivity.
    + destruct (IH rest eq_refl item Hin) as [row' [Hr H]].
      exists row'. split; [right; exact Hr | exact H].
Qed.

Lemma findSimilarItems_rows embedding repoName type limit h items h' :
  findSimilarItems rt w embedding repoName type limit h = (Ok items, h') ->
  forall item, In item items ->
    exists rows row,
      db_select w (DbSelect embedding repoName (ItemType_toString type) limit :: h)
      = Ok rows /\
      In row rows /\
      si_github_id item = row_github_id row /\
      si_title item = row_title row /\
      si_summary item = row_summary row /\
      si_similarity item = row_similarity row.
Proof.
  unfold findSimilarItems, try_catch, bind, request, lift, emit, ret.
  destruct (db_select w _) as [rows|e] eqn:Es.
  - destruct (traverse (rowToItem rt) rows) as [l|e] eqn:Et; intros E;
      injection E as <- _; intros item Hin; [|destruct Hin].
    destruct (traverse_rowToItem rows l Et item Hin) as [row H].
    exists rows, row. split; [reflexivity | exact H].
  - intros E. injection E as <- _. intros item [].
Qed.

Lemma gatherCandidates_stateful_rows cs cur h candidates h' :
  stateful databaseUrl = true ->
  gatherCandidates rt w client itemNumber itemTitle itemType maxCandidates
    similarityThreshold databaseUrl cs cur h = (Ok candidates, h') ->
  forall c, In c candidates ->
    exists h1 rows row,
      db_select w (DbSelect cur (repoKey client) (ItemType_toString itemType)
                     maxCandidates :: h1) = Ok rows /\
      In row rows /\
      row_github_id row <> Number_toString rt itemNumber /\
      c = {| cand_number := parseInt rt (row_github_id row);
             cand_title := row_title row;
             cand_summary := JStr (row_summary row);
             cand_similarity := number_or_zero (row_similarity row) |}.
Proof.
  intros Hs. unfold gatherCandidates. rewrite Hs.
  unfold bind at 1, emit at 1. unfold bind at 1.
  destruct (storeSimilarityItem w _ _ _ _ _ _ _) as [[[]|e] h1]; [|discriminate].
  unfold bind at 1.
  destruct (findSimilarItems rt w cur (repoKey client) itemType maxCandidates h1)
    as [[items|e] h2] eqn:Ef; [|discriminate].
  unfold ret. intros E. injection E as <- _. intros c Hin.
  apply in_map_iff in Hin. destruct Hin as [item [<- Hin]].
  apply filter_In in Hin. destruct Hin as [Hin Hne].
  destruct (findSimilarItems_rows _ _ _ _ _ _ _ Ef item Hin)
    as [rows [row [Es [Hr [H1 [H2 [H3 H4]]]]]]].
  exists h1, rows, row. split; [exact Es|]. split; [exact Hr|]. split.
  - intros Heq. rewrite H1, Heq, String.eqb_refl in Hne. discriminate.
  - rewrite H1, H2, H3, H4. reflexivity.
Qed.


(** X12: with a connection string, a classification request is only ever
    about a row the similarity query returned whose [github_id] differs
    from the current item's number as a string: the item just stored is
    never classified against itself. The similarity of the row plays no
    role. *)
Theorem stateful_classifies_another_row h r new prompt :
  stateful databaseUrl = true ->
  detectDuplicates rt w client itemNumber itemTitle itemBody itemType files
    maxCandidates similarityThreshold databaseUrl h = (r, (new ++ h)%list) ->
  In (ChatCreate classifySystemMessage prompt) new ->
  exists h1 rows row summary,
    db_select w h1 = Ok rows /\
    In row rows /\
    row_github_id row <> Number_toString rt itemNumber /\
    prompt = formatDuplicatePrompt rt itemTitle summary
               (parseInt rt (row_github_id row)) (row_title row)
               (row_summary row).
Proof.
  intros Hs Erun Hin.
  destruct (classification_origin h r new prompt Erun Hin)
    as [cs [cur [h1 [candidates [h2 [top [Eg [Htop Hp]]]]]]]].
  destruct (gatherCandidates_stateful_rows _ _ _ _ _ Hs Eg top Htop)
    as [h3 [rows [row [Es [Hr [Hne Hc]]]]]].
  exists (DbSelect cur (repoKey client) (ItemType_toString itemType)
            maxCandidates :: h3), rows, row, (ToString rt (problem_statement cs)).
  split; [exact Es|]. split; [exact Hr|]. split; [exact Hne|].
  rewrite Hp, Hc. reflexivity.
Qed.
End ClassifiedCandidate.


Lemma stateful_classifies_another_row_witness :
  exists h1 rows row summary,
    db_select storedWorld h1 = Ok rows /\
    In row rows /\
    row_github_id row <> Number_toString stubRuntime 7%float /\
    "{current_title} {candidate_title}" =
    formatDuplicatePrompt stubRuntime "Login fails on Safari" summary
      (parseInt stubRuntime (row_github_id row)) (row_title row)
      (row_summary row).
Proof.
  apply (stateful_classifies_another_row stubRuntime storedWorld
           scenarioClient 7%float "Login fails on Safari"
           "Safari users cannot log in" issue [] 20%float 0.5%float
           (Some "postgres://db.example/triage") []
           (fst (detectDuplicates stubRuntime storedWorld scenarioClient
                   7%float "Login fails on Safari" "Safari users cannot log in"
                   issue [] 20%float 0.5%float
                   (Some "postgres://db.example/triage") []))
           (snd (detectDuplicates stubRuntime storedWorld scenarioClient
                   7%float "Login fails on Safari" "Safari users cannot log in"
                   issue [] 20%float 0.5%float
                   (Some "postgres://db.example/triage") []))).
  - reflexivity.
  - vm_compute. reflexivity.
  - vm_compute. right. left. reflexivity.
Defined.

(** ** The database statements of a run *)

Lemma countEvents_zero_filter p new :
  countEvents p new = 0%nat -> filter p new = [].
Proof.
  unfold countEvents. destruct (filter p new); [reflexivity | discriminate].
Qed.

Lemma costs_zero_filter {A} p (m : M A) h :
  costs p 0 m ->
  exists r new, m h = (r, (new ++ h)%list) /\ filter p new = [].
Proof.
  intros H. destruct (costs_run p 0 m h H) as [r [new [E C]]].
  exists r, new. split; [exact E|]. apply countEvents_zero_filter. lia.
Qed.

Section DatabaseTraffic.
Variables (rt : Runtime) (w : World).
Variables (client : GitHubClient) (itemNumber : float)
  (itemTitle itemBody : string) (itemType : ItemType) (files : list string)
  (maxCandidates similarityThreshold : float) (databaseUrl : option string).

Lemma storeSimilarityItem_run repoName github_id type title summary embedding h :
  exists new,
    storeSimilarityItem w repoName github_id type title summary embedding h
    = (Ok tt, (new ++ h)%list) /\
    filter isDatabaseCall new =
    [DbUpsert repoName github_id (ItemType_toString type) title summary embedding].
Proof.
  unfold storeSimilarityItem, try_catch, bind, request, emit.
  destruct (db_upsert w _) as [[]|e].
  - eexists [_; _]. split; reflexivity.
  - eexists [_; _]. split; reflexivity.
Qed.

Lemma findSimilarItems_run embedding repoName type limit h :
  exists items new,
    findSimilarItems rt w embedding repoName type limit h
    = (Ok items, (new ++ h)%list) /\
    filter isDatabaseCall new =
    [DbSelect embedding repoName (ItemType_toString type) limit].
Proof.
  unfold findSimilarItems, try_catch, bind, request, lift, emit, ret.
  destruct (db_select w _) as [rows|e].
  - destruct (traverse (rowToItem rt) rows) as [items|e].
    + eexists. eexists [_]. split; reflexivity.
    + eexists. eexists [_; _]. split; reflexivity.
  - eexists. eexists [_; _]. split; reflexivity.
Qed.

Lemma gatherCandidates_stateful_run cs cur h :
  stateful databaseUrl = true ->
  exists candidates new,
    gatherCandidates rt w client itemNumber itemTitle itemType maxCandidates
      similarityThreshold databaseUrl cs cur h = (Ok candidates, (new ++ h)%list) /\
    filter isDatabaseCall new =
    [DbSelect cur (repoKey client) (ItemType_toString itemType) maxCandidates;
     DbUpsert (repoKey client) (Number_toString rt itemNumber)
       (ItemType_toString itemType) itemTitle
       (ToString rt (problem_statement cs)) cur].
Proof.
  intros Hs. unfold gatherCandidates. rewrite Hs.
  unfold bind at 1, emit at 1. unfold bind at 1.
  destruct (storeSimilarityItem_run (repoKey client) (Number_toString rt itemNumber)
              itemType itemTitle (ToString rt (problem_statement cs)) cur
              (core_info "Using stateful mode (database)" :: h))
    as [new1 [E1 F1]].
  rewrite E1. unfold bind at 1.
  destruct (findSimilarItems_run cur (repoKey client) itemType maxCandidates
              (new1 ++ core_info "Using stateful mode (database)" :: h)%list)
    as [items [new2 [E2 F2]]].
  rewrite E2. unfold ret.
  eexists. exists (new2 ++ new1 ++ [core_info "Using stateful mode (database)"])%list.
  split.
  - rewrite <- !app_assoc. reflexivity.
  - rewrite !filter_app, F1, F2. reflexivity.
Qed.

(** X13: with a connection string, once the item has been summarized and
    embedded the run sends exactly two database statements: the upsert of
    the item, then the similarity query with the same embedding, repository
    key and kind. The query is sent whether or not the upsert succeeded, and
    nothing is sent when the embedding fails. *)
Theorem stateful_database_traffic h :
  stateful databaseUrl = true ->
  exists r new,
    detectDuplicates rt w client itemNumber itemTitle itemBody itemType files
      maxCandidates similarityThreshold databaseUrl h = (r, (new ++ h)%list) /\
    filter isDatabaseCall new =
    match fst (embedCurrent rt w itemTitle itemBody files h) with
    | Ok (cs, cur) =>
        [DbSelect cur (repoKey client) (ItemType_toString itemType) maxCandidates;
         DbUpsert (repoKey client) (Number_toString rt itemNumber)
           (ItemType_toString itemType) itemTitle
           (ToString rt (problem_statement cs)) cur]
    | Throw _ => []
    end.
Proof.
  intros Hs.
  destruct (costs_zero_filter isDatabaseCall
              (embedCurrent rt w itemTitle itemBody files) h)
    as [r1 [new1 [E1' F1]]].
  { apply (embedCurrent_costs rt w isDatabaseCall 0 0).
    - apply generateSummary_costs_database.
    - apply generateEmbedding_costs_database. }
  destruct (detectDuplicates_cases rt w client itemNumber itemTitle itemBody
              itemType files maxCandidates similarityThreshold databaseUrl h)
    as [[e [h1 [E1 R]]] | [cs [cur [h1 [E1 H]]]]];
    rewrite E1 in E1'; injection E1' as _ ->; rewrite E1; simpl fst; cbv iota beta.
  - eexists. exists (core_error ("Failed to detect duplicates: " ++ error_toString e)
                       :: new1)%list.
    split; [exact R|]. simpl. exact F1.
  - destruct (gatherCandidates_stateful_run cs cur (new1 ++ h)%list Hs)
      as [candidates [new2 [E2' F2]]].
    destruct H as [[e [h2 [E2 R]]] | [candidates' [h2 [E2 R]]]];
      rewrite E2 in E2'; [discriminate E2'|].
    injection E2' as -> ->.
    destruct (sortCandidates candidates) as [|top rest].
    + eexists. exists (core_info "No similar items found above threshold"
                         :: new2 ++ new1)%list.
      split; [rewrite R; simpl; rewrite <- app_assoc; reflexivity|].
      simpl. rewrite filter_app, F1, F2. reflexivity.
    + destruct R as [r3 [h3 [E3 R]]].
      destruct (costs_zero_filter isDatabaseCall
                  (classifyDuplicate rt w itemTitle
                     (ToString rt (problem_statement cs)) (cand_number top)
                     (cand_title top) (ToString rt (cand_summary top)))
                  (new2 ++ new1 ++ h)%list
                  (classifyDuplicate_costs_database rt w _ _ _ _ _))
        as [r' [new3 [E3' F3]]].
      rewrite E3 in E3'. injection E3' as _ ->.
      eexists. exists (new3 ++ new2 ++ new1)%list.
      split; [rewrite R, <- !app_assoc; reflexivity|].
      rewrite !filter_app, F1, F2, F3. reflexivity.
Qed.
End DatabaseTraffic.

Lemma stateful_database_traffic_witness :
  exists r new,
    detectDuplicates stubRuntime storedWorld scenarioClient 7%float
      "Login fails on Safari" "Safari users cannot log in" issue []
      20%float 0.5%float (Some "postgres://db.example/triage") []
    = (r, (new ++ [])%list) /\
    filter isDatabaseCall new =
    [DbSelect [1%float; 0%float] "octo/triage" "issue" 20%float;
     DbUpsert "octo/triage" "0" "issue" "Login fails on Safari"
       "Login fails on Safari" [1%float; 0%float]].
Proof.
  apply (stateful_database_traffic stubRuntime storedWorld scenarioClient
           7%float "Login fails on Safari" "Safari users cannot log in" issue []
           20%float 0.5%float (Some "postgres://db.example/triage") []).
  reflexivity.
Defined.

(* ================================================================= *)
(** * Properties of the database access *)

Section FindSimilarItems.
Variables (rt : Runtime) (w : World).




(** X15: the listing helpers never throw, send one listing request, and
    return no item with an empty body: an empty or missing body is
    [null]. For issues every returned item comes from an entry that is
    not a pull request, so the list may be shorter than the page. *)
Theorem recentItems_shape client itemType maxResults h :
  exists items new,
    recentItems w client itemType maxResults h = (Ok items, (new ++ h)%list) /\
    countEvents isListingCall new = 1%nat /\
    Forall (fun item => item_body item <> Some "") items /\
    match itemType with
    | issue =>
        match issues_listForRepo w (IssuesListForRepo maxResults :: h) with
        | Ok data =>
            (List.length items <= List.length data)%nat /\
            Forall (fun item =>
                      exists entry, In entry data /\
                        api_pull_request entry = false /\
                        item_number item = api_number entry /\
                        item_title item = api_title entry) items
        | Throw _ => items = []
        end
    | pr =>
        match pulls_list w (PullsList maxResults :: h) with
        | Ok data =>
            map item_number items = map api_number data /\
            map item_title items = map api_title data
        | Throw _ => items = []
        end
    end.
Proof.
  assert (Hbody : forall data, Forall (fun item => item_body item <> Some "")
                                      (map toItem data)).
  { intros data. apply Forall_forall. intros item Hin.
    apply in_map_iff in Hin. destruct Hin as [x [<- _]].
    unfold toItem, body_or_null. simpl.
    destruct (api_body x) as [s|]; [|discriminate].
    destruct (String.eqb s "") eqn:E; [discriminate|].
    intros H. injection H as ->. discriminate. }
  unfold recentItems, getRecentIssues, getRecentPullRequests,
    try_catch, bind, request, emit, ret.
  destruct itemType.
  - destruct (issues_listForRepo w _) as [data|e].
    + eexists. eexists [_]. split; [reflexivity|]. split; [reflexivity|].
      split; [apply Hbody|]. split.
      * rewrite length_map. apply filter_length_le.
      * apply Forall_forall. intros item Hin.
        apply in_map_iff in Hin. destruct Hin as [x [<- Hin]].
        apply filter_In in Hin. destruct Hin as [Hin Hp].
        exists x. split; [exact Hin|]. split.
        -- destruct (api_pull_request x); [discriminate | reflexivity].
        -- split; reflexivity.
    + eexists. eexists [_; _]. split; [reflexivity|]. split; [reflexivity|].
      split; [constructor | reflexivity].
  - destruct (pulls_list w _) as [data|e].
    + eexists. eexists [_]. split; [reflexivity|]. split; [reflexivity|].
      split; [apply Hbody|]. rewrite !map_map. split; reflexivity.
    + eexists. eexists [_; _]. split; [reflexivity|]. split; [reflexivity|].
      split; [constructor | reflexivity].
Qed.
End FindSimilarItems.

(* ================================================================= *)
(** * Properties of the GitHub writes and of the connection pool *)

Lemma lookedUp_app a b :
  lookedUp (a ++ b)%list = (lookedUp b ++ lookedUp a)%list.
Proof. unfold lookedUp. rewrite rev_app_distr, flat_map_app. reflexivity. Qed.

Lemma createdLabels_app a b :
  createdLabels (a ++ b)%list = (createdLabels b ++ createdLabels a)%list.
Proof. unfold createdLabels. rewrite rev_app_distr, flat_map_app. reflexivity. Qed.

Lemma attached_app a b :
  attached (a ++ b)%list = (attached b ++ attached a)%list.
Proof. unfold attached. rewrite rev_app_distr, flat_map_app. reflexivity. Qed.


Section Labels.
Variables (rt : Runtime) (sv : Services).

(** The look-up loop never throws; it looks every label up, in order,
    attaches nothing, and creates a label only after its look-up failed,
    with the colour [getDefaultLabelColor] gives it. *)
Lemma ensureLabels_run labels : forall t,
  exists new,
    ensureLabels sv labels t = (Ok tt, (new ++ t)%list) /\
    lookedUp new = labels /\
    attached new = [] /\
    Forall (fun created =>
              In (fst created) labels /\
              snd created = getDefaultLabelColor (fst created) /\
              exists t' e,
                issues_getLabel sv (IssuesGetLabel (fst created) :: t') = Throw e)
           (createdLabels new).
Proof.
  induction labels as [|label rest IH]; intros t.
  - exists []. repeat split. constructor.
  - cbn [ensureLabels]. unfold next at 1, guard at 1, call at 1.
    assert (Hweak : forall new',
              Forall (fun created =>
                        In (fst created) rest /\
                        snd created = getDefaultLabelColor (fst created) /\
                        exists t' e,
                          issues_getLabel sv (IssuesGetLabel (fst created) :: t')
                          = Throw e) new' ->
              Forall (fun created =>
                        In (fst created) (label :: rest) /\
                        snd created = getDefaultLabelColor (fst created) /\
                        exists t' e,
                          issues_getLabel sv (IssuesGetLabel (fst created) :: t')
                          = Throw e) new').
    { intros new' H. eapply Forall_impl; [|exact H].
      intros c [H1 H2]. split; [right; exact H1 | exact H2]. }
    destruct (issues_getLabel sv (IssuesGetLabel label :: t)) as [[]|e] eqn:Eg.
    + destruct (IH (IssuesGetLabel label :: t)) as [new [E [L [A C]]]].
      exists (new ++ [IssuesGetLabel label])%list.
      rewrite E, <- app_assoc. split; [reflexivity|].
      rewrite lookedUp_app, attached_app, createdLabels_app, L, A.
      repeat split. simpl. apply Hweak, C.
    + unfold guard at 1, next at 1, call at 1, note.
      destruct (issues_createLabel sv _) as [[]|ce].
      * destruct (IH (Base (core_info ("Created label: " ++ label))
                      :: IssuesCreateLabel label (getDefaultLabelColor label)
                      :: IssuesGetLabel label :: t)) as [new [E [L [A C]]]].
        exists (new ++ [Base (core_info ("Created label: " ++ label));
                        IssuesCreateLabel label (getDefaultLabelColor label);
                        IssuesGetLabel label])%list.
        rewrite E, <- app_assoc. split; [reflexivity|].
        rewrite lookedUp_app, attached_app, createdLabels_app, L, A.
        repeat split. simpl. constructor.
        -- simpl. split; [left; reflexivity|]. split; [reflexivity|].
           exists t, e. exact Eg.
        -- apply Hweak, C.
      * destruct (IH (Base (core_warning ("Failed to create label " ++ label ++ ": "
                                            ++ error_toString ce))
                      :: IssuesCreateLabel label (getDefaultLabelColor label)
                      :: IssuesGetLabel label :: t)) as [new [E [L [A C]]]].
        exists (new ++ [Base (core_warning ("Failed to create label " ++ label ++ ": "
                                              ++ error_toString ce));
                        IssuesCreateLabel label (getDefaultLabelColor label);
                        IssuesGetLabel label])%list.
        rewrite E, <- app_assoc. split; [reflexivity|].
        rewrite lookedUp_app, attached_app, createdLabels_app, L, A.
        repeat split. simpl. constructor.
        -- simpl. split; [left; reflexivity|]. split; [reflexivity|].
           exists t, e. exact Eg.
        -- apply Hweak, C.
Qed.

Lemma addLabels_run client issueNumber labels t :
  exists new,
    addLabels rt sv client issueNumber labels t = (Ok tt, (new ++ t)%list) /\
    lookedUp new = labels /\
    attached new = match labels with
                   | [] => []
                   | _ :: _ => [(issueNumber, labels)]
                   end /\
    Forall (fun created =>
              In (fst created) labels /\
              snd created = getDefaultLabelColor (fst created) /\
              exists t' e,
                issues_getLabel sv (IssuesGetLabel (fst created) :: t') = Throw e)
           (createdLabels new).
Proof.
  destruct labels as [|label rest].
  - exists []. repeat split. constructor.
  - unfold addLabels, guard, next.
    destruct (ensureLabels_run (label :: rest) t) as [new [E [L [A C]]]].
    rewrite E. unfold call at 1, note.
    destruct (issues_addLabels sv _) as [[]|e].
    + eexists (_ :: _ :: new)%list. split; [reflexivity|].
      match goal with
      | |- context [lookedUp (?a :: ?b :: new)] =>
          change (a :: b :: new)%list with ([a; b] ++ new)%list;
          rewrite lookedUp_app, attached_app, createdLabels_app, L, A;
          change (lookedUp [a; b]) with (@nil string);
          change (createdLabels [a; b]) with (@nil (string * LabelColor));
          change (attached [a; b]) with [(issueNumber, (label :: rest)%list)]
      end.
      rewrite !app_nil_r. repeat split. exact C.
    + eexists (_ :: _ :: new)%list. split; [reflexivity|].
      match goal with
      | |- context [lookedUp (?a :: ?b :: new)] =>
          change (a :: b :: new)%list with ([a; b] ++ new)%list;
          rewrite lookedUp_app, attached_app, createdLabels_app, L, A;
          change (lookedUp [a; b]) with (@nil string);
          change (createdLabels [a; b]) with (@nil (string * LabelColor));
          change (attached [a; b]) with [(issueNumber, (label :: rest)%list)]
      end.
      rewrite !app_nil_r. repeat split. exact C.
Qed.

(** X16: [addLabels] never throws, whatever the services answer. For a
    list that is not empty it looks every label up, in order, then sends
    one request attaching the whole list; for the empty list it does
    nothing. A label is created only after its look-up failed, and with
    the colour [getDefaultLabelColor] gives it, so labels that exist are
    left as they are. *)
Theorem addLabels_protocol client issueNumber labels t :
  exists new,
    addLabels rt sv client issueNumber labels t = (Ok tt, (new ++ t)%list) /\
    lookedUp new = labels /\
    attached new = match labels with
                   | [] => []
                   | _ :: _ => [(issueNumber, labels)]
                   end /\
    Forall (fun created =>
              In (fst created) labels /\
              snd created = getDefaultLabelColor (fst created) /\
              exists t' e,
                issues_getLabel sv (IssuesGetLabel (fst created) :: t') = Throw e)
           (createdLabels new).
Proof. apply addLabels_run. Qed.
End Labels.

Section Pool.
Variables (rt : Runtime) (sv : Services).


Lemma currentPool_created created t : currentPool (PoolCreate created :: t) = Some created.
Proof. reflexivity. Qed.

(** X18: the pool is a singleton and the first connection string wins:
    whatever string a later [getDatabase] is given, it returns the pool of
    the first call and creates nothing. A pool that is created connects to
    the string it was given, with TLS switched off exactly when
    ["localhost"] occurs somewhere in that string. *)
Theorem getDatabase_first_url_wins databaseUrl databaseUrl' t :
  exists db t1,
    getDatabase databaseUrl t = (Ok db, t1) /\
    getDatabase databaseUrl' t1 = (Ok db, t1) /\
    match currentPool t with
    | Some existing => db = existing /\ t1 = t
    | None =>
        t1 = PoolCreate db :: t /\
        connectionString db = databaseUrl /\
        (ssl_options db = None <-> occurs "localhost" databaseUrl) /\
        (ssl_options db = None \/ ssl_options db = Some false)
    end.
Proof.
  unfold getDatabase. destruct (currentPool t) as [existing|] eqn:Ec.
  - exists existing, t. rewrite Ec. repeat split.
  - eexists. eexists. split; [reflexivity|]. split; [reflexivity|].
    split; [reflexivity|]. split; [reflexivity|]. simpl.
    pose proof (includes_spec "localhost" databaseUrl) as Hi.
    destruct (includes "localhost" databaseUrl).
    + split; [|left; reflexivity]. split; [intros _; apply Hi; reflexivity | reflexivity].
    + split; [|right; reflexivity]. split; [discriminate|].
      intros Ho. apply Hi in Ho. discriminate.
Qed.

(** X19: [closeDatabase] forgets the pool only when ending it succeeds.
    After a successful close the next [getDatabase] creates a pool for the
    string it is given; when [end] throws, the error is thrown, the module
    keeps the pool, and the next [getDatabase] returns that pool again. *)
Theorem closeDatabase_resets_on_success db databaseUrl t :
  exists t1,
    snd (closeDatabase sv (Some db) t) = t1 /\
    match pool_end sv (PoolEnd :: t) with
    | Ok _ =>
        fst (closeDatabase sv (Some db) t) = Ok tt /\
        exists created,
          getDatabase databaseUrl t1 = (Ok created, PoolCreate created :: t1) /\
          connectionString created = databaseUrl
    | Throw e =>
        fst (closeDatabase sv (Some db) t) = Throw e /\
        currentPool t1 = currentPool t /\
        forall existing, currentPool t = Some existing ->
          getDatabase databaseUrl t1 = (Ok existing, t1)
    end.
Proof.
  eexists. split; [reflexivity|].
  unfold closeDatabase, next, call, note.
  destruct (pool_end sv (PoolEnd :: t)) as [[]|e]; simpl.
  - split; [reflexivity|]. eexists. split; reflexivity.
  - split; [reflexivity|]. split; [reflexivity|].
    intros existing He. unfold getDatabase. simpl. rewrite He. reflexivity.
Qed.
End Pool.

Section Searches.
Variables (rt : Runtime) (sv : Services).


End Searches.

Lemma ownColor_length labelName color :
  ownColor labelName labelColors = Some color -> String.length color = 6%nat.
Proof.
  unfold labelColors. cbn [ownColor].
  repeat match goal with
         | |- context [String.eqb ?a labelName] => destruct (String.eqb a labelName)
         end;
    intros H; try discriminate; injection H as <-; reflexivity.
Qed.

(** X21: [getDefaultLabelColor] gives a colour of six characters for every
    label name that [Object.prototype] does not define: a colour of the
    table, or ['0052CC']. For a name that [Object.prototype] defines, such
    as ["constructor"] or ["toString"], the look-up in the object literal
    finds the inherited member and the function returns it instead of a
    colour. *)
Theorem getDefaultLabelColor_hex_unless_inherited labelName :
  if existsb (String.eqb labelName) objectPrototypeKeys
  then getDefaultLabelColor labelName = InheritedMember labelName
  else exists hex,
         getDefaultLabelColor labelName = HexColor hex /\
         String.length hex = 6%nat /\
         (ownColor labelName labelColors = None -> hex = "0052CC").
Proof.
  unfold getDefaultLabelColor.
  destruct (existsb (String.eqb labelName) objectPrototypeKeys) eqn:Ei.
  - destruct (ownColor labelName labelColors) as [color|] eqn:Eo; [|reflexivity].
    exfalso. revert Eo. unfold labelColors. cbn [ownColor].
    repeat match goal with
           | |- context [String.eqb ?a labelName] =>
               destruct (String.eqb_spec a labelName) as [<-|_]
           end; try discriminate; intros _; revert Ei; vm_compute; discriminate.
  - destruct (ownColor labelName labelColors) as [color|] eqn:Eo.
    + exists color. split; [reflexivity|]. split; [|discriminate].
      eapply ownColor_length, Eo.
    + exists "0052CC". repeat split.
Qed.

(* ================================================================= *)
(** * Further properties of the cosine similarity *)

Section ExactCosineFormula.
Local Open Scope R_scope.







End ExactCosineFormula.




(** ** Effects a step does not perform *)

Lemma adds_done {A} p (a : A) : adds p (done a).
Proof. intros t. exists []. split; reflexivity. Qed.

Lemma adds_raise {A} p e : adds p (@raise A e).
Proof. intros t. exists []. split; reflexivity. Qed.

Lemma adds_note p ev : p ev = false -> adds p (note ev).
Proof. intros H t. exists [ev]. split; [reflexivity|]. simpl. rewrite H. reflexivity. Qed.

Lemma adds_call {A} p ev (answer : Trace -> result A) :
  p ev = false -> adds p (call ev answer).
Proof. intros H t. exists [ev]. split; [reflexivity|]. simpl. rewrite H. reflexivity. Qed.

Lemma adds_pure {A} p (r : result A) : adds p (fun t => (r, t)).
Proof. intros t. exists []. split; reflexivity. Qed.

Lemma adds_next {A B} p (m : Act A) (k : A -> Act B) :
  adds p m -> (forall a, adds p (k a)) -> adds p (next m k).
Proof.
  intros Hm Hk t. unfold next. destruct (Hm t) as [new1 [E1 F1]].
  destruct (m t) as [[a|e] t1]; simpl in E1; subst t1.
  - destruct (Hk a (new1 ++ t)%list) as [new2 [E2 F2]].
    exists (new2 ++ new1)%list. rewrite E2, app_assoc, filter_app, F1, F2.
    split; reflexivity.
  - exists new1. split; [reflexivity | exact F1].
Qed.

Lemma adds_guard {A} p (body : Act A) (handler : JSError -> Act A) :
  adds p body -> (forall e, adds p (handler e)) -> adds p (guard body handler).
Proof.
  intros Hm Hk t. unfold guard. destruct (Hm t) as [new1 [E1 F1]].
  destruct (body t) as [[a|e] t1]; simpl in E1; subst t1.
  - exists new1. split; [reflexivity | exact F1].
  - destruct (Hk e (new1 ++ t)%list) as [new2 [E2 F2]].
    exists (new2 ++ new1)%list. rewrite E2, app_assoc, filter_app, F1, F2.
    split; reflexivity.
Qed.

Lemma adds_finally {A} p (body : Act A) (cleanup : Act unit) :
  adds p body -> adds p cleanup -> adds p (finally body cleanup).
Proof.
  intros Hm Hc t. unfold finally. destruct (Hm t) as [new1 [E1 F1]].
  destruct (body t) as [r t1]; simpl in E1; subst t1.
  destruct (Hc (new1 ++ t)%list) as [new2 [E2 F2]].
  destruct (cleanup (new1 ++ t)%list) as [[[]|e] t2]; simpl in E2; subst t2;
    exists (new2 ++ new1)%list; rewrite app_assoc, filter_app, F1, F2;
    split; reflexivity.
Qed.

Lemma adds_run {A} p (m : Act A) t :
  adds p m -> exists r new, m t = (r, (new ++ t)%list) /\ filter p new = [].
Proof.
  intros H. destruct (H t) as [new [E F]].
  destruct (m t) as [r t'] eqn:Em. simpl in E. subst t'.
  exists r, new. auto.
Qed.

(** Discharges [adds p m] for a computation built from the operations of
    [Act], every effect of which is provably not a [p]. *)
Ltac adds_steps :=
  repeat match goal with
    | |- forall _, adds _ _ => intro
    | |- adds _ (done _) => apply adds_done
    | |- adds _ (raise _) => apply adds_raise
    | |- adds _ (note _) => apply adds_note; reflexivity
    | |- adds _ (call _ _) => apply adds_call; reflexivity
    | |- adds _ (next _ _) => apply adds_next
    | |- adds _ (guard _ _) => apply adds_guard
    | |- adds _ (finally _ _) => apply adds_finally
    end.

Section QuietSteps.
Variables (rt : Runtime) (w : World) (sv : Services).

Lemma getDatabase_adds p url :
  (forall created, p (PoolCreate created) = false) -> adds p (getDatabase url).
Proof.
  intros H t. unfold getDatabase. destruct (currentPool t).
  - exists []. split; reflexivity.
  - eexists [_]. split; [reflexivity|]. simpl. rewrite H. reflexivity.
Qed.


Lemma initializeDatabase_adds_write db : adds isWrite (initializeDatabase sv db).
Proof. unfold initializeDatabase. adds_steps. Qed.

Lemma getPullRequestFiles_adds_write client n :
  adds isWrite (getPullRequestFiles sv client n).
Proof. unfold getPullRequestFiles. adds_steps. Qed.

Lemma filter_map_Base p new :
  (forall ev, p (Base ev) = false) -> filter p (map Base new) = [].
Proof.
  intros H. induction new as [|ev new IH]; simpl; [reflexivity|].
  rewrite H. exact IH.
Qed.

Lemma liftM_run {A} (m : M A) t r new :
  m (baseEvents t) = (r, (new ++ baseEvents t)%list) ->
  liftM m t = (r, (map Base new ++ t)%list).
Proof.
  intros E. unfold liftM. rewrite E.
  rewrite length_app, Nat.add_sub, firstn_app, firstn_all, Nat.sub_diag.
  simpl. rewrite app_nil_r. reflexivity.
Qed.

Lemma classifyDuplicate_costs_classify t s n ct cs :
  costs isClassifyCall 1 (classifyDuplicate rt w t s n ct cs).
Proof. cost_of classifyDuplicate. Qed.

Lemma detectDuplicates_lifted client itemNumber itemTitle itemBody itemType
    files maxCandidates similarityThreshold databaseUrl t :
  exists r new,
    liftM (detectDuplicates rt w client itemNumber itemTitle itemBody itemType
             files maxCandidates similarityThreshold databaseUrl) t
    = (Ok r, (map Base new ++ t)%list).
Proof.
  destruct (costs_run isClassifyCall (0 + 0 + 0 + 1)
              (detectDuplicates rt w client itemNumber itemTitle itemBody
                 itemType files maxCandidates similarityThreshold databaseUrl)
              (baseEvents t)) as [r [new [E _]]].
  - apply detectDuplicates_costs; try reflexivity; intros.
    + apply generateSummary_costs_classify.
    + apply generateEmbedding_costs_classify.
    + apply gatherCandidates_costs_classify.
    + apply classifyDuplicate_costs_classify.
  - destruct (detectDuplicates_total rt w client itemNumber itemTitle itemBody
                itemType files maxCandidates similarityThreshold databaseUrl
                (baseEvents t)) as [r' [h' E']].
    rewrite E in E'. injection E' as -> _.
    exists r', new. apply liftM_run, E.
Qed.
End QuietSteps.

(* ================================================================= *)
(** * Properties of the event router *)

Section RouterProperties.
Variables (rt : Runtime) (w : World) (sv : Services) (host : Host).
Variable reviewPullRequest :
  GitHubClient -> float -> string -> string -> float -> float -> float ->
  list PRFile -> Act PRReviewResult.
Variable formatReviewComment : PRReviewResult -> result string.

(** X24: a missing key fails the run cleanly: when the input [openai_key]
    or [github_token] is not supplied, [run] does not throw, reports
    [Input required and not supplied: <name>] through [core.setFailed] and
    does nothing else: no log line, no database set-up, no request. *)
Theorem run_missing_key_fails_cleanly t :
  input host "openai_key" = "" \/ input host "github_token" = "" ->
  exists name,
    (name = "openai_key" \/ name = "github_token") /\
    input host name = "" /\
    run rt w sv host reviewPullRequest formatReviewComment t
    = (Ok tt, SetFailed ("Input required and not supplied: " ++ name) :: t).
Proof.
  intros H. unfold run, requiredInput, guard.
  destruct (String.eqb_spec (input host "openai_key") "") as [E1|N1].
  - exists "openai_key". split; [left; reflexivity|]. split; [exact E1|].
    reflexivity.
  - destruct H as [H|H]; [contradiction|].
    exists "github_token". split; [right; reflexivity|]. split; [exact H|].
    unfold next at 1, done at 1. rewrite H. reflexivity.
Qed.

Lemma run_returns t :
  fst (run rt w sv host reviewPullRequest formatReviewComment t) = Ok tt.
Proof.
  unfold run, guard.
  match goal with
  | |- fst (let (r, t') := ?body t in _) = _ => destruct (body t) as [[[]|e] t']
  end; reflexivity.
Qed.

Lemma requiredInput_adds p name : adds p (requiredInput host name).
Proof.
  unfold requiredInput. destruct (String.eqb _ _); [apply adds_raise | apply adds_done].
Qed.




End RouterProperties.

(** ** What a run writes *)

Lemma commented_app a b :
  commented (a ++ b)%list = (commented b ++ commented a)%list.
Proof. unfold commented. rewrite rev_app_distr, flat_map_app. reflexivity. Qed.

Lemma flat_map_nil_filter {B} (p : Effect -> bool) (f : Effect -> list B) l :
  (forall ev, p ev = false -> f ev = []) ->
  filter p l = [] -> flat_map f l = [].
Proof.
  intros H. induction l as [|ev l IH]; simpl; [reflexivity|].
  destruct (p ev) eqn:E; [discriminate|].
  intros F. rewrite (H ev E), (IH F). reflexivity.
Qed.

Lemma filter_rev_nil (p : Effect -> bool) l : filter p l = [] -> filter p (rev l) = [].
Proof.
  induction l as [|ev l IH]; simpl; [reflexivity|].
  destruct (p ev) eqn:E; [discriminate|].
  intros F. rewrite filter_app, (IH F). simpl. rewrite E. reflexivity.
Qed.

Lemma silent_commented new : filter isWrite new = [] -> commented new = [].
Proof.
  intros F. unfold commented.
  apply (flat_map_nil_filter isWrite); [|apply filter_rev_nil, F].
  intros [] H; try reflexivity; discriminate H.
Qed.

Lemma silent_attached new : filter isWrite new = [] -> attached new = [].
Proof.
  intros F. unfold attached.
  apply (flat_map_nil_filter isWrite); [|apply filter_rev_nil, F].
  intros [] H; try reflexivity; discriminate H.
Qed.

Lemma duplicateWritesOnly_silent sv label new :
  filter isWrite new = [] -> duplicateWritesOnly sv label new.
Proof.
  intros F. unfold duplicateWritesOnly.
  rewrite (silent_commented new F), (silent_attached new F).
  split; [simpl; lia | left; reflexivity].
Qed.

Lemma duplicateWritesOnly_app_l sv label silent new :
  filter isWrite silent = [] ->
  duplicateWritesOnly sv label new ->
  duplicateWritesOnly sv label (silent ++ new)%list.
Proof.
  intros F. unfold duplicateWritesOnly.
  rewrite commented_app, attached_app,
    (silent_commented silent F), (silent_attached silent F), !app_nil_r.
  auto.
Qed.

Lemma duplicateWritesOnly_app_r sv label silent new :
  filter isWrite silent = [] ->
  duplicateWritesOnly sv label new ->
  duplicateWritesOnly sv label (new ++ silent)%list.
Proof.
  intros F. unfold duplicateWritesOnly.
  rewrite commented_app, attached_app,
    (silent_commented silent F), (silent_attached silent F).
  auto.
Qed.

Section Writes.
Variables (rt : Runtime) (w : World) (sv : Services) (host : Host).
Variable reviewPullRequest :
  GitHubClient -> float -> string -> string -> float -> float -> float ->
  list PRFile -> Act PRReviewResult.
Variable formatReviewComment : PRReviewResult -> result string.
Variable labelDuplicate : string.

Lemma writesOnly_silent {A} (m : Act A) :
  adds isWrite m -> writesOnly sv labelDuplicate m.
Proof.
  intros H t. destruct (adds_run _ _ t H) as [r [new [E F]]].
  exists r, new. split; [exact E | apply duplicateWritesOnly_silent, F].
Qed.

Lemma writesOnly_next_silent {A B} (m : Act A) (k : A -> Act B) :
  adds isWrite m -> (forall a, writesOnly sv labelDuplicate (k a)) ->
  writesOnly sv labelDuplicate (next m k).
Proof.
  intros Hm Hk t. unfold next. destruct (adds_run _ _ t Hm) as [r [new1 [E1 F1]]].
  rewrite E1. destruct r as [a|e].
  - destruct (Hk a (new1 ++ t)%list) as [r2 [new2 [E2 W2]]].
    exists r2, (new2 ++ new1)%list. rewrite E2, app_assoc.
    split; [reflexivity | apply duplicateWritesOnly_app_r; assumption].
  - exists (Throw e), new1. split; [reflexivity|].
    apply duplicateWritesOnly_silent, F1.
Qed.

Lemma writesOnly_next_then_silent {A B} (m : Act A) (k : A -> Act B) :
  writesOnly sv labelDuplicate m -> (forall a, adds isWrite (k a)) ->
  writesOnly sv labelDuplicate (next m k).
Proof.
  intros Hm Hk t. unfold next. destruct (Hm t) as [r [new1 [E1 W1]]].
  rewrite E1. destruct r as [a|e].
  - destruct (adds_run _ _ (new1 ++ t)%list (Hk a)) as [r2 [new2 [E2 F2]]].
    exists r2, (new2 ++ new1)%list. rewrite E2, app_assoc.
    split; [reflexivity | apply duplicateWritesOnly_app_l; assumption].
  - exists (Throw e), new1. split; [reflexivity | exact W1].
Qed.

Lemma writesOnly_guard_silent {A} (body : Act A) (handler : JSError -> Act A) :
  writesOnly sv labelDuplicate body -> (forall e, adds isWrite (handler e)) ->
  writesOnly sv labelDuplicate (guard body handler).
Proof.
  intros Hm Hk t. unfold guard. destruct (Hm t) as [r [new1 [E1 W1]]].
  rewrite E1. destruct r as [a|e].
  - exists (Ok a), new1. split; [reflexivity | exact W1].
  - destruct (adds_run _ _ (new1 ++ t)%list (Hk e)) as [r2 [new2 [E2 F2]]].
    exists r2, (new2 ++ new1)%list. rewrite E2, app_assoc.
    split; [reflexivity | apply duplicateWritesOnly_app_l; assumption].
Qed.

Lemma ensureLabels_adds_comment labels :
  adds (fun ev => match ev with IssuesCreateComment _ _ => true | _ => false end)
       (ensureLabels sv labels).
Proof.
  induction labels as [|label rest IH]; [apply adds_done|].
  cbn [ensureLabels]. apply adds_next; [|intros _; exact IH]. adds_steps.
Qed.

Lemma addLabels_adds_comment client n labels :
  adds (fun ev => match ev with IssuesCreateComment _ _ => true | _ => false end)
       (addLabels rt sv client n labels).
Proof.
  unfold addLabels. destruct labels as [|label rest]; [apply adds_done|].
  apply adds_guard; [|adds_steps].
  apply adds_next; [apply ensureLabels_adds_comment|]. adds_steps.
Qed.

Lemma no_comment_commented new :
  filter (fun ev => match ev with IssuesCreateComment _ _ => true | _ => false end)
         new = [] ->
  commented new = [].
Proof.
  intros F. unfold commented.
  apply (flat_map_nil_filter
           (fun ev => match ev with IssuesCreateComment _ _ => true | _ => false end));
    [|apply filter_rev_nil, F].
  intros [] H; try reflexivity; discriminate H.
Qed.

(** A comment followed, when it was posted, by the duplicate label. *)
Lemma comment_then_label {B} client number body (after : Act B) :
  adds isWrite after ->
  writesOnly sv labelDuplicate
    (next (createComment rt sv client number body)
       (fun _ => next (addLabels rt sv client number [labelDuplicate])
                      (fun _ => after))).
Proof.
  intros Ha t. unfold next at 1, createComment, guard, next at 1, call, note.
  destruct (issues_createComment sv (IssuesCreateComment number body :: t))
    as [[]|e] eqn:Ec.
  - unfold next at 1.
    destruct (addLabels_run rt sv client number [labelDuplicate]
                (Base (core_info ("Comment posted to #" ++ Number_toString rt number))
                 :: IssuesCreateComment number body :: t))
      as [new2 [E2 [_ [A2 _]]]].
    destruct (adds_run _ _ (Base (core_info ("Comment posted to #"
                                               ++ Number_toString rt number))
                            :: IssuesCreateComment number body :: t)
                (addLabels_adds_comment client number [labelDuplicate]))
      as [r2' [new2' [E2' F2]]].
    rewrite E2 in E2'. injection E2' as _ E2'. apply app_inv_tail in E2'. subst new2'.
    rewrite E2.
    destruct (adds_run _ _ (new2 ++ Base (core_info ("Comment posted to #"
                                                       ++ Number_toString rt number))
                            :: IssuesCreateComment number body :: t)%list Ha)
      as [r3 [new3 [E3 F3]]].
    rewrite E3. exists r3.
    exists (new3 ++ new2
            ++ [Base (core_info ("Comment posted to #" ++ Number_toString rt number));
                IssuesCreateComment number body])%list.
    split; [rewrite <- !app_assoc; reflexivity|].
    unfold duplicateWritesOnly.
    rewrite !commented_app, !attached_app, (silent_commented new3 F3),
      (silent_attached new3 F3), (no_comment_commented new2 F2), A2, !app_nil_r.
    split; [simpl; lia|]. right. exists number, body, t. repeat split. exact Ec.
  - exists (Throw e). eexists [_; _]. split; [reflexivity|].
    split; [simpl; lia | left; reflexivity].
Qed.

Lemma comment_only client number body :
  writesOnly sv labelDuplicate (createComment rt sv client number body).
Proof.
  intros t. unfold createComment, guard, next, call, note, raise.
  destruct (issues_createComment sv (IssuesCreateComment number body :: t))
    as [[]|e].
  - eexists. eexists [_; _]. split; [reflexivity|].
    split; [simpl; lia | left; reflexivity].
  - eexists. eexists [_; _]. split; [reflexivity|].
    split; [simpl; lia | left; reflexivity].
Qed.

Lemma liftM_detect_adds client itemNumber itemTitle itemBody itemType files
    maxCandidates similarityThreshold databaseUrl :
  adds isWrite
    (liftM (detectDuplicates rt w client itemNumber itemTitle itemBody itemType
              files maxCandidates similarityThreshold databaseUrl)).
Proof.
  intros t.
  destruct (detectDuplicates_lifted rt w client itemNumber itemTitle itemBody
              itemType files maxCandidates similarityThreshold databaseUrl t)
    as [r [new E]].
  exists (map Base new). rewrite E. split; [reflexivity|].
  apply filter_map_Base. reflexivity.
Qed.

Lemma handleIssue_writes client databaseUrl similarityThreshold maxCandidates :
  writesOnly sv labelDuplicate
    (handleIssue rt w sv host client databaseUrl similarityThreshold
       maxCandidates labelDuplicate).
Proof.
  unfold handleIssue. destruct (payload_issue host) as [issuePayload|];
    [|apply writesOnly_silent; adds_steps].
  destruct (_ && _); [apply writesOnly_silent; adds_steps|].
  apply writesOnly_next_silent; [apply adds_note; reflexivity | intros _].
  apply writesOnly_next_silent; [apply liftM_detect_adds | intros duplicateResult].
  apply writesOnly_next_then_silent; [|intros; apply adds_done].
  destruct duplicateResult as [r|]; [|apply writesOnly_silent; adds_steps].
  destruct (strictly_equals (classification r) "duplicate").
  - apply comment_then_label. apply adds_note. reflexivity.
  - destruct (strictly_equals (classification r) "related").
    + apply comment_only.
    + apply writesOnly_silent. adds_steps.
Qed.

Lemma writesOnly_ext {A} (m m' : Act A) :
  (forall t, m t = m' t) -> writesOnly sv labelDuplicate m' ->
  writesOnly sv labelDuplicate m.
Proof. intros E H t. rewrite E. apply H. Qed.

Lemma setup_adds_write (databaseUrl : option string) :
  adds isWrite
    (match databaseUrl with
     | Some url => next (getDatabase url) (fun db => initializeDatabase sv db)
     | None => done tt
     end).
Proof.
  destruct databaseUrl as [url|]; [|apply adds_done].
  apply adds_next; [apply getDatabase_adds; reflexivity|].
  intros db. apply initializeDatabase_adds_write.
Qed.

Lemma handlePullRequest_writes client databaseUrl similarityThreshold
    maxCandidates enableDedupe labelNeedsTests labelHighRisk labelReady :
  writesOnly sv labelDuplicate
    (handlePullRequest rt w sv host reviewPullRequest formatReviewComment client
       databaseUrl similarityThreshold maxCandidates false enableDedupe
       labelDuplicate labelNeedsTests labelHighRisk labelReady).
Proof.
  unfold handlePullRequest. destruct (payload_pull_request host) as [pullRequest|];
    [|apply writesOnly_silent; adds_steps].
  destruct (_ && _); [apply writesOnly_silent; adds_steps|].
  cbv zeta.
  apply writesOnly_next_silent; [apply adds_note; reflexivity | intros _].
  apply writesOnly_next_silent; [apply getPullRequestFiles_adds_write | intros files].
  unfold detectDuplicatePullRequest, reviewAndScore. cbv zeta.
  destruct enableDedupe;
    [|apply (writesOnly_ext _ (done Continue));
      [intros t; reflexivity | apply writesOnly_silent, adds_done]].
  match goal with
  | |- writesOnly _ _ (next (next (liftM ?d) ?k1) ?k2) =>
      apply (writesOnly_ext _ (next (liftM d) (fun r => next (k1 r) k2)))
  end.
  { intros t. unfold next. destruct (liftM _ t) as [[r|e] t']; reflexivity. }
  apply writesOnly_next_silent; [apply liftM_detect_adds | intros duplicateResult].
  destruct duplicateResult as [r|];
    [|apply (writesOnly_ext _ (done Continue));
      [intros t; reflexivity | apply writesOnly_silent, adds_done]].
  destruct (strictly_equals (classification r) "duplicate");
    [|apply (writesOnly_ext _ (done Continue));
      [intros t; reflexivity | apply writesOnly_silent, adds_done]].
  eapply writesOnly_ext;
    [|apply (comment_then_label client (payload_pr_number pullRequest)
               (duplicatePullRequestComment rt host r) (done Continue));
      apply adds_done].
  intros t. unfold next.
  destruct (createComment rt sv client _ _ t) as [[[]|e] t1]; [|reflexivity].
  unfold done.
  destruct (addLabels rt sv client _ _ t1) as [[[]|e] t2]; reflexivity.
Qed.

End Writes.

Section RunWrites.
Variables (rt : Runtime) (w : World) (sv : Services) (host : Host).
Variable reviewPullRequest :
  GitHubClient -> float -> string -> string -> float -> float -> float ->
  list PRFile -> Act PRReviewResult.
Variable formatReviewComment : PRReviewResult -> result string.

(** X26: what [run] writes when the review step does not run, that is, on
    every event other than a pull request event and on pull request events
    with [enable_pr_review] off. It never throws and posts at most one
    comment. It attaches labels at most once, and then only the duplicate
    label ([label_duplicate], by default [possible-duplicate]), to the item
    on which that comment was posted, and only after the request for the
    comment succeeded: when the comment cannot be posted the run fails
    without labelling. *)
Theorem run_without_review_writes t :
  eventName host = "issues" \/ getInput host "enable_pr_review" <> "true" ->
  exists new,
    run rt w sv host reviewPullRequest formatReviewComment t
    = (Ok tt, (new ++ t)%list) /\
    duplicateWritesOnly sv
      (string_or (getInput host "label_duplicate") "possible-duplicate") new.
Proof.
  intros H.
  assert (Q : writesOnly sv
                (string_or (getInput host "label_duplicate") "possible-duplicate")
                (run rt w sv host reviewPullRequest formatReviewComment)).
  { unfold run.
    apply writesOnly_guard_silent; [|intros e; apply adds_note; reflexivity].
    apply writesOnly_next_silent; [apply requiredInput_adds | intros openaiKey].
    apply writesOnly_next_silent; [apply requiredInput_adds | intros githubToken].
    cbv zeta.
    apply writesOnly_next_silent; [apply setup_adds_write | intros _].
    apply writesOnly_next_silent; [apply adds_note; reflexivity | intros _].
    destruct (String.eqb (eventName host) "issues") eqn:Ei.
    - apply String.eqb_eq in Ei. rewrite Ei.
      change (String.eqb "issues" "pull_request"
              || String.eqb "issues" "pull_request_target") with false.
      cbv iota.
      apply writesOnly_next_then_silent.
      + destruct (_ && _); [apply handleIssue_writes | apply writesOnly_silent, adds_done].
      + intros [|]; [|apply adds_done].
        apply adds_next; [apply adds_done|].
        intros [|]; adds_steps.
    - cbn [andb].
      apply writesOnly_next_silent; [apply adds_done | intros [|]];
        [|apply writesOnly_silent, adds_done].
      apply writesOnly_next_then_silent; [|intros [|]; adds_steps].
      destruct (_ || _); [|apply writesOnly_silent, adds_done].
      destruct H as [H|H]; [rewrite H in Ei; discriminate Ei|].
      apply String.eqb_neq in H. rewrite H. apply handlePullRequest_writes. }
  destruct (Q t) as [r [new [E W]]]. exists new. split; [|exact W].
  pose proof (run_returns rt w sv host reviewPullRequest formatReviewComment t) as R.
  rewrite E in R. simpl in R. rewrite R in E. exact E.
Qed.

End RunWrites.

Lemma run_missing_key_fails_cleanly_witness :
  exists name,
    (name = "openai_key" \/ name = "github_token") /\
    input (withInput "github_token" "" issueOpened) name = "" /\
    run stubRuntime failingWorld databaseDown
      (withInput "github_token" "" issueOpened) noReview (fun _ => Ok "review") []
    = (Ok tt, [SetFailed ("Input required and not supplied: " ++ name)]).
Proof.
  apply (run_missing_key_fails_cleanly stubRuntime failingWorld databaseDown
           (withInput "github_token" "" issueOpened) noReview
           (fun _ => Ok "review") []).
  right. reflexivity.
Defined.


Lemma run_without_review_writes_witness :
  exists new,
    run parsingRuntime duplicateWorld (labelMissing "possible-duplicate")
      issueOpened noReview (fun _ => Ok "review") []
    = (Ok tt, (new ++ [])%list) /\
    duplicateWritesOnly (labelMissing "possible-duplicate")
      (string_or (getInput issueOpened "label_duplicate") "possible-duplicate") new.
Proof.
  apply (run_without_review_writes parsingRuntime duplicateWorld
           (labelMissing "possible-duplicate") issueOpened noReview
           (fun _ => Ok "review") []).
  left. reflexivity.
Defined.


Section ReviewedRun.
Variables (rt : Runtime) (w : World) (sv : Services) (host : Host).
Variable reviewPullRequest :
  GitHubClient -> float -> string -> string -> float -> float -> float ->
  list PRFile -> Act PRReviewResult.
Variable formatReviewComment : PRReviewResult -> result string.
Hypothesis review_writes_nothing :
  forall client number title body additions deletions changed files,
    adds isWrite
      (reviewPullRequest client number title body additions deletions changed
         files).










End ReviewedRun.


(* ================================================================= *)
(** * Properties of the prompts *)

Lemma hasPrefix_app_compatible p : forall w rest,
  hasPrefix p (w ++ rest) = true -> hasPrefix p w || hasPrefix w p = true.
Proof.
  induction p as [|c p IH]; intros w rest H; [reflexivity|].
  destruct w as [|d w]; [reflexivity|].
  simpl in H. apply andb_true_iff in H. destruct H as [Hc Hp].
  simpl. rewrite Hc. simpl. apply Ascii.eqb_eq in Hc. subst d.
  rewrite Ascii.eqb_refl. simpl. eapply IH, Hp.
Qed.

Lemma clearOf_nil p : clearOf p "".
Proof.
  intros rest. simpl. destruct (splitAtFirst p rest) as [[b a]|]; reflexivity.
Qed.

Lemma clearOf_cons p c s :
  (forall rest, hasPrefix p (String c s ++ rest) = false) ->
  clearOf p s -> clearOf p (String c s).
Proof.
  intros Hc Hs rest. cbn [append splitAtFirst].
  change (String c (s ++ rest)) with (String c s ++ rest). rewrite Hc.
  rewrite Hs. destruct (splitAtFirst p rest) as [[b a]|]; reflexivity.
Qed.

Lemma clearb_clearOf p : forall s, clearb p s = true -> clearOf p s.
Proof.
  induction s as [|c s IH]; intros H; [apply clearOf_nil|].
  cbn [clearb] in H. apply andb_true_iff in H. destruct H as [Hc Hs].
  apply clearOf_cons; [|apply IH, Hs].
  intros rest. destruct (hasPrefix p (String c s ++ rest)) eqn:E; [|reflexivity].
  apply hasPrefix_app_compatible in E. rewrite E in Hc. discriminate Hc.
Qed.

Lemma avoids_clearOf p : forall s,
  hasPrefix "{" p = true -> avoids "{" s = true -> clearOf p s.
Proof.
  intros s Hp. induction s as [|c s IH]; intros H; [apply clearOf_nil|].
  cbn [avoids] in H. apply andb_true_iff in H. destruct H as [Hc Hs].
  apply clearOf_cons; [|apply IH, Hs].
  intros rest. apply hasPrefix_spec in Hp. destruct Hp as [suf ->].
  cbn [append hasPrefix]. apply negb_true_iff in Hc. rewrite Hc. reflexivity.
Qed.

Lemma clearOf_app p a b : clearOf p a -> clearOf p b -> clearOf p (a ++ b).
Proof.
  intros Ha Hb rest. rewrite string_app_assoc, Ha, Hb.
  destruct (splitAtFirst p rest) as [[x y]|]; [|reflexivity].
  rewrite string_app_assoc. reflexivity.
Qed.

Lemma avoids_app c a b : avoids c (a ++ b) = avoids c a && avoids c b.
Proof.
  induction a as [|d a IH]; simpl; [reflexivity|].
  rewrite IH, andb_assoc. reflexivity.
Qed.

Lemma plain_app a b : plain (a ++ b) = plain a && plain b.
Proof.
  unfold plain. rewrite !avoids_app.
  destruct (avoids "$" a), (avoids "$" b), (avoids "{" a), (avoids "{" b);
    reflexivity.
Qed.

Lemma plain_concat sep files :
  plain sep = true -> forallb plain files = true ->
  plain (String.concat sep files) = true.
Proof.
  intros Hs. induction files as [|f files IH]; intros H; [reflexivity|].
  simpl in H. apply andb_true_iff in H. destruct H as [Hf Hr].
  destruct files as [|g files]; [exact Hf|].
  change (String.concat sep (f :: g :: files))
    with (f ++ sep ++ String.concat sep (g :: files)).
  rewrite !plain_app, Hf, Hs, (IH Hr). reflexivity.
Qed.

Lemma plain_filesSection files :
  forallb plain files = true -> plain (filesSection files) = true.
Proof.
  intros H. destruct files as [|f files]; [reflexivity|].
  unfold filesSection. rewrite !plain_app, (plain_concat newline (f :: files)); auto.
Qed.

Lemma plain_string_or s fallback :
  plain s = true -> plain fallback = true -> plain (string_or s fallback) = true.
Proof. intros Hs Hf. unfold string_or. destruct (String.eqb s ""); assumption. Qed.

Lemma GetSubstitution_avoids matched before after : forall text rest,
  avoids "$" text = true ->
  GetSubstitution matched before after (text ++ rest)
  = text ++ GetSubstitution matched before after rest.
Proof.
  induction text as [|c text IH]; intros rest H; [reflexivity|].
  cbn [avoids] in H. apply andb_true_iff in H. destruct H as [Hc Ht].
  apply negb_true_iff in Hc. rewrite Ascii.eqb_sym in Hc.
  cbn [append GetSubstitution]. rewrite Hc, (IH rest Ht). reflexivity.
Qed.

Lemma string_app_nil_r (s : string) : s ++ "" = s.
Proof. induction s as [|c s IH]; simpl; [reflexivity | rewrite IH; reflexivity]. Qed.

Lemma GetSubstitution_plain matched before after text :
  avoids "$" text = true -> GetSubstitution matched before after text = text.
Proof.
  intros H. pose proof (GetSubstitution_avoids matched before after text "" H) as E.
  rewrite string_app_nil_r in E. rewrite E. apply string_app_nil_r.
Qed.

Lemma replace_step a template p value inserted before after :
  clearOf p a ->
  splitAtFirst p template = Some (before, after) ->
  (forall b c, GetSubstitution p b c value = inserted) ->
  String_prototype_replace (a ++ template) p value
  = (a ++ before ++ inserted) ++ after.
Proof.
  intros Ha Hs Hi. unfold String_prototype_replace. rewrite Ha, Hs, Hi.
  rewrite !string_app_assoc. reflexivity.
Qed.

(** Replacing one placeholder after the other fills the template in one
    pass, for values that hold no dollar sign and no brace. *)
Lemma replaceAll_fill : forall bindings template a,
  fillable template (map fst bindings) = true ->
  (forall p, In p (map fst bindings) -> clearOf p a) ->
  forallb (fun binding => plain (snd binding)) bindings = true ->
  replaceAll (a ++ template) bindings = a ++ fill template bindings.
Proof.
  induction bindings as [|[p value] rest IH]; intros template a Hf Ha Hv;
    [reflexivity|].
  cbn [map fst fillable] in Hf. apply andb_true_iff in Hf. destruct Hf as [Hp Hf].
  destruct (splitAtFirst p template) as [[before after]|] eqn:Es; [|discriminate Hf].
  apply andb_true_iff in Hf. destruct Hf as [Hb Hf].
  cbn [forallb snd] in Hv. apply andb_true_iff in Hv. destruct Hv as [Hv Hr].
  unfold plain in Hv. apply andb_true_iff in Hv. destruct Hv as [Hd Hbrace].
  unfold replaceAll. cbn [fold_left fst snd].
  rewrite (replace_step a template p value value before after);
    [| apply Ha; left; reflexivity | exact Es
     | intros; apply GetSubstitution_plain, Hd].
  fold (replaceAll ((a ++ before ++ value) ++ after) rest).
  rewrite IH; [| exact Hf | | exact Hr].
  - cbn [fill]. rewrite Es, !string_app_assoc. reflexivity.
  - intros q Hq. rewrite forallb_forall in Hb. specialize (Hb q Hq).
    apply andb_true_iff in Hb. destruct Hb as [Hq1 Hq2].
    apply clearOf_app; [apply Ha; right; exact Hq|].
    apply clearOf_app; [apply clearb_clearOf, Hq2 | apply avoids_clearOf; assumption].
Qed.

Lemma skip_length_app p rest : skip (String.length p) (p ++ rest) = rest.
Proof. induction p as [|c p IH]; [destruct rest; reflexivity | exact IH]. Qed.

Lemma splitAtFirst_here p rest : splitAtFirst p (p ++ rest) = Some ("", rest).
Proof.
  assert (Hp : hasPrefix p (p ++ rest) = true)
    by (apply hasPrefix_spec; exists rest; reflexivity).
  pose proof (skip_length_app p rest) as Hs.
  destruct (p ++ rest) as [|c s] eqn:E; cbn [splitAtFirst]; rewrite Hp, Hs;
    reflexivity.
Qed.

Lemma forallb_plain_app l1 l2 :
  forallb plain (l1 ++ l2) = true ->
  forallb plain l1 = true /\ forallb plain l2 = true.
Proof. rewrite forallb_app. apply andb_true_iff. Qed.

(** X29: for values that hold no dollar sign and no opening brace, the
    three formatters are pure substitution: each returns its template with
    every placeholder replaced by the corresponding value, once, in place,
    and nothing else changed ([body] and [description] being replaced by
    ['No description provided'] when empty, and the files section being
    empty when there is no file). *)
Theorem prompts_fill_their_templates rt title body files currentTitle
    currentSummary candidateNumber candidateTitle candidateSummary description
    fileCount additions deletions diffSummary :
  forallb plain
    ([title; body; currentTitle; currentSummary; candidateTitle; candidateSummary;
      description; diffSummary; Number_toString rt candidateNumber;
      Number_toString rt fileCount; Number_toString rt additions;
      Number_toString rt deletions] ++ files) = true ->
  formatSummaryPromptWithFiles (javascript rt) title body (Some files)
  = fill SUMMARY_PROMPT_text
      [("{title}", title);
       ("{body}", string_or body "No description provided");
       ("{files}", filesSection files)] /\
  formatDuplicatePrompt (javascript rt) currentTitle currentSummary
    candidateNumber candidateTitle candidateSummary
  = fill DUPLICATE_DETECTION_PROMPT_text
      [("{current_title}", currentTitle);
       ("{current_summary}", currentSummary);
       ("{candidate_number}", Number_toString rt candidateNumber);
       ("{candidate_title}", candidateTitle);
       ("{candidate_summary}", candidateSummary)] /\
  formatReviewPrompt (javascript rt) title description fileCount additions
    deletions diffSummary
  = fill PR_REVIEW_PROMPT
      [("{title}", title);
       ("{description}", string_or description "No description provided");
       ("{file_count}", Number_toString rt fileCount);
       ("{additions}", Number_toString rt additions);
       ("{deletions}", Number_toString rt deletions);
       ("{diff_summary}", diffSummary)].
Proof.
  intros H. apply forallb_plain_app in H. destruct H as [H Hfiles].
  cbn [forallb] in H.
  repeat match type of H with
         | _ && _ = true => apply andb_true_iff in H; destruct H as [? H]
         end.
  split; [|split].
  - assert (E : formatSummaryPromptWithFiles (javascript rt) title body (Some files)
                = replaceAll ("" ++ SUMMARY_PROMPT_text)
                    [("{title}", title);
                     ("{body}", string_or body "No description provided");
                     ("{files}", filesSection files)])
      by (destruct files; reflexivity).
    rewrite E.
    rewrite replaceAll_fill; [reflexivity | vm_compute; reflexivity | |].
    + intros p _. apply clearOf_nil.
    + cbn [forallb snd].
      rewrite plain_string_or, plain_filesSection by (assumption || reflexivity).
      repeat match goal with
             | Hv : plain _ = true |- _ => rewrite Hv; clear Hv
             end.
      reflexivity.
  - change (formatDuplicatePrompt (javascript rt) currentTitle currentSummary
              candidateNumber candidateTitle candidateSummary)
      with (replaceAll ("" ++ DUPLICATE_DETECTION_PROMPT_text)
              [("{current_title}", currentTitle);
               ("{current_summary}", currentSummary);
               ("{candidate_number}", Number_toString rt candidateNumber);
               ("{candidate_title}", candidateTitle);
               ("{candidate_summary}", candidateSummary)]).
    rewrite replaceAll_fill; [reflexivity | vm_compute; reflexivity | |].
    + intros p _. apply clearOf_nil.
    + cbn [forallb snd]. repeat match goal with
             | Hv : plain _ = true |- _ => rewrite Hv; clear Hv
             end.
      reflexivity.
  - change (formatReviewPrompt (javascript rt) title description fileCount
              additions deletions diffSummary)
      with (replaceAll ("" ++ PR_REVIEW_PROMPT)
              [("{title}", title);
               ("{description}", string_or description "No description provided");
               ("{file_count}", Number_toString rt fileCount);
               ("{additions}", Number_toString rt additions);
               ("{deletions}", Number_toString rt deletions);
               ("{diff_summary}", diffSummary)]).
    rewrite replaceAll_fill; [reflexivity | vm_compute; reflexivity | |].
    + intros p _. apply clearOf_nil.
    + cbn [forallb snd]. rewrite plain_string_or by (assumption || reflexivity).
      repeat match goal with
             | Hv : plain _ = true |- _ => rewrite Hv; clear Hv
             end.
      reflexivity.
Qed.

Lemma prompts_fill_their_templates_witness :
  formatSummaryPromptWithFiles (javascript stubRuntime) "Login fails on Safari"
    "Safari users cannot log in" (Some ["src/login.ts"])
  = fill SUMMARY_PROMPT_text
      [("{title}", "Login fails on Safari");
       ("{body}", string_or "Safari users cannot log in" "No description provided");
       ("{files}", filesSection ["src/login.ts"])] /\
  formatDuplicatePrompt (javascript stubRuntime) "Login fails on Safari"
    "Login is broken" 12%float "Safari login broken" "Login does not work"
  = fill DUPLICATE_DETECTION_PROMPT_text
      [("{current_title}", "Login fails on Safari");
       ("{current_summary}", "Login is broken");
       ("{candidate_number}", Number_toString stubRuntime 12%float);
       ("{candidate_title}", "Safari login broken");
       ("{candidate_summary}", "Login does not work")] /\
  formatReviewPrompt (javascript stubRuntime) "Login fails on Safari" ""
    2%float 50%float 10%float "2 files changed"
  = fill PR_REVIEW_PROMPT
      [("{title}", "Login fails on Safari");
       ("{description}", string_or "" "No description provided");
       ("{file_count}", Number_toString stubRuntime 2%float);
       ("{additions}", Number_toString stubRuntime 50%float);
       ("{deletions}", Number_toString stubRuntime 10%float);
       ("{diff_summary}", "2 files changed")].
Proof.
  apply (prompts_fill_their_templates stubRuntime "Login fails on Safari"
           "Safari users cannot log in" ["src/login.ts"] "Login fails on Safari"
           "Login is broken" 12%float "Safari login broken" "Login does not work"
           "" 2%float 50%float 10%float "2 files changed").
  vm_compute. reflexivity.
Defined.

Section SummaryPromptRescans.
Variables (rt : Runtime) (a b body : string) (files : list string).
Hypotheses (plain_a : plain a = true) (plain_b : plain b = true)
  (plain_body : plain body = true) (plain_files : forallb plain files = true).

Let head := beforeFirst "{title}" SUMMARY_PROMPT_text.
Let tail := afterFirst "{title}" SUMMARY_PROMPT_text.

Lemma summary_title_split :
  splitAtFirst "{title}" SUMMARY_PROMPT_text = Some (head, tail).
Proof. vm_compute. reflexivity. Qed.

Lemma avoids_dollar s : plain s = true -> avoids "$" s = true.
Proof. unfold plain. intros H. apply andb_true_iff in H. apply H. Qed.

Lemma avoids_brace s : plain s = true -> avoids "{" s = true.
Proof. unfold plain. intros H. apply andb_true_iff in H. apply H. Qed.

Lemma summary_rest_clear inserted p :
  In p ["{body}"; "{files}"] ->
  clearOf p inserted ->
  clearOf p (("" ++ head ++ inserted)).
Proof.
  intros Hp Hi. apply clearOf_app; [apply clearOf_nil|].
  apply clearOf_app; [|exact Hi].
  apply clearb_clearOf.
  destruct Hp as [<-|[<-|[]]]; vm_compute; reflexivity.
Qed.

(** After a title that expands to [inserted], which cannot hold the start
    of a later placeholder, the body and the files are filled in. *)
Lemma summary_after_title title inserted :
  (forall x y, GetSubstitution "{title}" x y title = inserted) ->
  (forall p, In p ["{body}"; "{files}"] -> clearOf p inserted) ->
  formatSummaryPromptWithFiles (javascript rt) title body (Some files)
  = fill SUMMARY_PROMPT_text
      [("{title}", inserted);
       ("{body}", string_or body "No description provided");
       ("{files}", filesSection files)].
Proof.
  intros Hi Hc.
  assert (E : formatSummaryPromptWithFiles (javascript rt) title body (Some files)
              = replaceAll
                  (String_prototype_replace ("" ++ SUMMARY_PROMPT_text) "{title}" title)
                  [("{body}", string_or body "No description provided");
                   ("{files}", filesSection files)])
    by (destruct files; reflexivity).
  rewrite E.
  rewrite (replace_step "" SUMMARY_PROMPT_text "{title}" title inserted head tail
             (clearOf_nil _) summary_title_split Hi).
  rewrite replaceAll_fill.
  - cbn [fill]. rewrite summary_title_split, !string_app_assoc. reflexivity.
  - vm_compute. reflexivity.
  - intros p Hp. apply summary_rest_clear; [exact Hp | apply Hc, Hp].
  - cbn [forallb snd].
    rewrite plain_string_or, plain_filesSection by (assumption || reflexivity).
    reflexivity.
Qed.

(** X30: [formatSummaryPrompt] is not pure substitution on every title,
    because [replace] reads its replacement text as a pattern and because
    each [replace] searches the text the earlier ones produced. For texts
    [a] and [b] without dollar sign or brace: in a title [a$&b] the [$&]
    becomes the placeholder [{title}]; in a title [a$$b] one dollar sign
    is lost; and a title [a{body}b] takes the body, which is put inside
    the title while the [Body:] line of the template keeps its
    placeholder. *)
Theorem formatSummaryPrompt_rereads_title :
  formatSummaryPromptWithFiles (javascript rt) (a ++ "$&" ++ b) body (Some files)
  = fill SUMMARY_PROMPT_text
      [("{title}", a ++ "{title}" ++ b);
       ("{body}", string_or body "No description provided");
       ("{files}", filesSection files)] /\
  formatSummaryPromptWithFiles (javascript rt) (a ++ "$$" ++ b) body (Some files)
  = fill SUMMARY_PROMPT_text
      [("{title}", a ++ "$" ++ b);
       ("{body}", string_or body "No description provided");
       ("{files}", filesSection files)] /\
  formatSummaryPromptWithFiles (javascript rt) (a ++ "{body}" ++ b) body (Some files)
  = fill SUMMARY_PROMPT_text
      [("{title}", a ++ string_or body "No description provided" ++ b);
       ("{files}", filesSection files)].
Proof.
  pose proof (avoids_dollar a plain_a) as Da.
  pose proof (avoids_dollar b plain_b) as Db.
  pose proof (avoids_brace a plain_a) as Ba.
  pose proof (avoids_brace b plain_b) as Bb.
  split; [|split].
  - apply summary_after_title.
    + intros x y. rewrite GetSubstitution_avoids by exact Da.
      change ("$&" ++ b) with (String "$" (String "&" b)).
      cbn [GetSubstitution]. change (Ascii.eqb "$" "$") with true.
      change (Ascii.eqb "&" "$") with false. change (Ascii.eqb "&" "&") with true.
      cbv iota. rewrite GetSubstitution_plain by exact Db. reflexivity.
    + intros p Hp.
      assert (Hb : hasPrefix "{" p = true)
        by (destruct Hp as [<-|[<-|[]]]; reflexivity).
      apply clearOf_app; [apply avoids_clearOf; assumption|].
      apply clearOf_app; [|apply avoids_clearOf; assumption].
      apply clearb_clearOf. destruct Hp as [<-|[<-|[]]]; vm_compute; reflexivity.
  - apply summary_after_title.
    + intros x y. rewrite GetSubstitution_avoids by exact Da.
      change ("$$" ++ b) with (String "$" (String "$" b)).
      cbn [GetSubstitution]. change (Ascii.eqb "$" "$") with true.
      cbv iota. rewrite GetSubstitution_plain by exact Db. reflexivity.
    + intros p Hp.
      assert (Hb : hasPrefix "{" p = true)
        by (destruct Hp as [<-|[<-|[]]]; reflexivity).
      apply clearOf_app; [apply avoids_clearOf; assumption|].
      apply clearOf_app; [|apply avoids_clearOf; assumption].
      apply clearb_clearOf. destruct Hp as [<-|[<-|[]]]; vm_compute; reflexivity.
  - set (body' := string_or body "No description provided").
    assert (Pb : plain body' = true)
      by (apply plain_string_or; [exact plain_body | reflexivity]).
    assert (E : formatSummaryPromptWithFiles (javascript rt) (a ++ "{body}" ++ b)
                  body (Some files)
                = String_prototype_replace
                    (String_prototype_replace
                       (String_prototype_replace ("" ++ SUMMARY_PROMPT_text)
                          "{title}" (a ++ "{body}" ++ b))
                       "{body}" body')
                    "{files}" (filesSection files))
      by (destruct files; reflexivity).
    rewrite E.
    rewrite (replace_step "" SUMMARY_PROMPT_text "{title}" (a ++ "{body}" ++ b)
               (a ++ "{body}" ++ b) head tail (clearOf_nil _) summary_title_split).
    2:{ intros x y. apply GetSubstitution_plain.
        rewrite !avoids_app, Da, Db. reflexivity. }
    replace (("" ++ head ++ a ++ "{body}" ++ b) ++ tail)
      with ((head ++ a) ++ "{body}" ++ (b ++ tail))
      by (rewrite !string_app_assoc; reflexivity).
    rewrite (replace_step (head ++ a) ("{body}" ++ (b ++ tail)) "{body}" body' body'
               "" (b ++ tail)).
    2:{ apply clearOf_app; [|apply avoids_clearOf; [reflexivity | exact Ba]].
        apply clearb_clearOf. vm_compute. reflexivity. }
    2:{ apply splitAtFirst_here. }
    2:{ intros x y. apply GetSubstitution_plain, avoids_dollar, Pb. }
    replace (((head ++ a) ++ "" ++ body') ++ b ++ tail)
      with ((head ++ a ++ body' ++ b) ++ tail)
      by (rewrite !string_app_assoc; reflexivity).
    rewrite (replace_step (head ++ a ++ body' ++ b) tail "{files}"
               (filesSection files) (filesSection files)
               (beforeFirst "{files}" tail) (afterFirst "{files}" tail)).
    2:{ apply clearOf_app; [apply clearb_clearOf; vm_compute; reflexivity|].
        apply clearOf_app; [apply avoids_clearOf; [reflexivity | exact Ba]|].
        apply clearOf_app; apply avoids_clearOf;
          solve [reflexivity | exact Bb | apply avoids_brace, Pb]. }
    2:{ vm_compute. reflexivity. }
    2:{ intros x y. apply GetSubstitution_plain, avoids_dollar, plain_filesSection,
          plain_files. }
    cbn [fill]. rewrite summary_title_split.
    assert (Ef : splitAtFirst "{files}" tail
                 = Some (beforeFirst "{files}" tail, afterFirst "{files}" tail))
      by (vm_compute; reflexivity).
    rewrite Ef, !string_app_assoc. reflexivity.
Qed.
End SummaryPromptRescans.

Lemma formatSummaryPrompt_rereads_title_witness :
  formatSummaryPromptWithFiles (javascript stubRuntime)
    ("Refund of " ++ "$&" ++ " is missing") "The refund never arrives" (Some [])
  = fill SUMMARY_PROMPT_text
      [("{title}", "Refund of " ++ "{title}" ++ " is missing");
       ("{body}", string_or "The refund never arrives" "No description provided");
       ("{files}", filesSection [])] /\
  formatSummaryPromptWithFiles (javascript stubRuntime)
    ("Refund of " ++ "$$" ++ " is missing") "The refund never arrives" (Some [])
  = fill SUMMARY_PROMPT_text
      [("{title}", "Refund of " ++ "$" ++ " is missing");
       ("{body}", string_or "The refund never arrives" "No description provided");
       ("{files}", filesSection [])] /\
  formatSummaryPromptWithFiles (javascript stubRuntime)
    ("Refund of " ++ "{body}" ++ " is missing") "The refund never arrives" (Some [])
  = fill SUMMARY_PROMPT_text
      [("{title}", "Refund of "
                   ++ string_or "The refund never arrives" "No description provided"
                   ++ " is missing");
       ("{files}", filesSection [])].
Proof.
  apply (formatSummaryPrompt_rereads_title stubRuntime "Refund of " " is missing"
           "The refund never arrives" []); reflexivity.
Defined.
